(** * Bank-statement reconstruction: a shallow embedding of the parsers

    The development follows the three Python modules of the repository:

    - [Analyzer]        : [analyzer.py], [AccountStatementAnalyzer.parse_transactions]
                          (line classification, amount disambiguation and the
                          balance-delta second pass);
    - [StatementParser] : [statement_parser.py], [_parse_transactions_from_text],
                          [_parse_date] and the date column of [to_dataframe];
    - [Dashboard]       : [dashboard.py], counterparty identifiers, cost heads,
                          column normalisation and the continuation-row merge.

    Modelling conventions.
    - Text is [string] over 7-bit ASCII; code points above 127 are ordinary
      characters (neither space, digit nor letter).
    - A Python [float] is a [spec_float] of the binary64 format, with the
      operations of [SpecFloat]; [float(s)] on a plain decimal literal is the
      correctly rounded quotient of its digits by a power of ten, and
      [Num.float_of_text] follows the whole grammar that [float] accepts.
    - A [datetime] carries year, month and day (the parsers never produce a
      time of day).
    - Dictionaries with a fixed key set are records; the [mapping] dictionary of
      [_normalize_columns] and the row dictionaries of [_merge_narration_rows]
      are [gmap]s.
    - Exceptions caught by the source are [None] results handled where the
      source handles them. *)

From Stdlib Require Import String Ascii List ZArith Bool Arith Lia.
From Stdlib Require Import SpecFloat Permutation.
From Stdlib Require DecimalString DecimalNat DecimalFacts.
From stdpp Require Import base gmap strings list fin_maps.
Import ListNotations.
Open Scope string_scope.
Open Scope list_scope.

(** ** Python string primitives *)

Module Py.

(** [str.isspace] on one ASCII character: TAB..CR, FS..US and SPACE. *)
Definition isspace (c : ascii) : bool :=
  let n := nat_of_ascii c in
  ((9 <=? n) && (n <=? 13) || (28 <=? n) && (n <=? 32))%nat.

(** [\d] on ASCII. *)
Definition isdigit (c : ascii) : bool :=
  let n := nat_of_ascii c in ((48 <=? n) && (n <=? 57))%nat.

Definition digit_val (c : ascii) : Z := Z.of_nat (nat_of_ascii c) - 48.

Definition is_empty (s : string) : bool :=
  match s with EmptyString => true | String _ _ => false end.

Fixpoint lstrip (s : string) : string :=
  match s with
  | EmptyString => EmptyString
  | String c s' => if isspace c then lstrip s' else s
  end.

Fixpoint rstrip (s : string) : string :=
  match s with
  | EmptyString => EmptyString
  | String c s' =>
      match rstrip s' with
      | EmptyString => if isspace c then EmptyString else String c EmptyString
      | r => String c r
      end
  end.

(** [s.strip()] *)
Definition strip (s : string) : string := lstrip (rstrip s).

Definition upper_char (c : ascii) : ascii :=
  let n := nat_of_ascii c in
  if ((97 <=? n) && (n <=? 122))%nat then ascii_of_nat (n - 32) else c.

Definition lower_char (c : ascii) : ascii :=
  let n := nat_of_ascii c in
  if ((65 <=? n) && (n <=? 90))%nat then ascii_of_nat (n + 32) else c.

Fixpoint map_chars (f : ascii -> ascii) (s : string) : string :=
  match s with
  | EmptyString => EmptyString
  | String c s' => String (f c) (map_chars f s')
  end.

(** [s.upper()] and [s.lower()] *)
Definition upper : string -> string := map_chars upper_char.
Definition lower : string -> string := map_chars lower_char.

(** [s.startswith(p)] *)
Definition startswith (s p : string) : bool := String.prefix p s.

(** [sub in s] *)
Fixpoint contains (sub s : string) : bool :=
  String.prefix sub s ||
  match s with
  | EmptyString => false
  | String _ s' => contains sub s'
  end.

(** [s.find(sub, start)]; [None] is Python's -1. *)
Definition find (sub s : string) (start : nat) : option nat :=
  String.index start sub s.

(** [s.rfind(sub)]; [None] is Python's -1. *)
Fixpoint rfind (sub s : string) : option nat :=
  match s with
  | EmptyString => if is_empty sub then Some 0 else None
  | String _ s' =>
      match rfind sub s' with
      | Some i => Some (S i)
      | None => if String.prefix sub s then Some 0 else None
      end
  end.

(** [s[:k]], [s[k:]] and [s[i:j]] *)
Definition slice_to (k : nat) (s : string) : string := String.substring 0 k s.

Fixpoint slice_from (k : nat) (s : string) : string :=
  match k, s with
  | O, _ => s
  | S _, EmptyString => EmptyString
  | S k', String _ s' => slice_from k' s'
  end.

Definition slice (i j : nat) (s : string) : string :=
  String.substring i (j - i) s.

(** [s.replace(",", "")] *)
Fixpoint remove_commas (s : string) : string :=
  match s with
  | EmptyString => EmptyString
  | String c s' =>
      if Ascii.eqb c ","%char then remove_commas s' else String c (remove_commas s')
  end.

(** [s.split(sep)] for a one-character separator. *)
Fixpoint split_on (sep : ascii) (s : string) : list string :=
  match s with
  | EmptyString => [EmptyString]
  | String c s' =>
      if Ascii.eqb c sep then EmptyString :: split_on sep s'
      else match split_on sep s' with
           | h :: t => String c h :: t
           | [] => [String c EmptyString]
           end
  end.

Definition newline : ascii := ascii_of_nat 10.

(** [l[-k]] for [k >= 1]; the callers guard the length, [""] stands for the
    [IndexError] that the guards exclude. *)
Definition neg_index (k : nat) (l : list string) : string :=
  nth (k - 1) (rev l) EmptyString.

End Py.

(** ** The three regular expressions of the parsers *)

Module Re.
Import Py.

Fixpoint count_space (s : string) : nat :=
  match s with
  | String c s' => if isspace c then S (count_space s') else 0
  | EmptyString => 0
  end.

Definition is_slash (c : ascii) : bool := Ascii.eqb c "/"%char.

(** [re.match(r'^(\d{2}/\d{2}/\d{2})\s+', line)]: the captured group 1 and
    the length of group 0. *)
Definition date_pattern (line : string) : option (string * nat) :=
  match line with
  | String d1 (String d2 (String s1 (String m1 (String m2
      (String s2 (String y1 (String y2 rest))))))) =>
      if isdigit d1 && isdigit d2 && is_slash s1 && isdigit m1 && isdigit m2
         && is_slash s2 && isdigit y1 && isdigit y2 && (1 <=? count_space rest)%nat
      then Some (slice_to 8 line, 8 + count_space rest)
      else None
  | _ => None
  end.

Definition in_amount_class (c : ascii) : bool :=
  isdigit c || Ascii.eqb c ","%char.

(** The longest prefix made of digits and commas, and what follows it. *)
Fixpoint span_amount_class (s : string) : string * string :=
  match s with
  | String c s' =>
      if in_amount_class c
      then let '(run, rest) := span_amount_class s' in (String c run, rest)
      else (EmptyString, s)
  | EmptyString => (EmptyString, EmptyString)
  end.

(** A match of [[\d,]+\.\d{2}] anchored at the head of [s].  The greedy run
    is the only candidate: a shorter run is followed by a digit or a comma,
    never by the dot. *)
Definition amount_at (s : string) : option string :=
  match span_amount_class s with
  | (String r run, String dot (String d1 (String d2 _))) =>
      if Ascii.eqb dot "."%char && isdigit d1 && isdigit d2
      then Some (String r run +:+ String dot (String d1 (String d2 EmptyString)))
      else None
  | _ => None
  end.

(** [re.findall(r'[\d,]+\.\d{2}', s)]: leftmost matches, not overlapping;
    [skip] counts the characters of the last match still to be passed. *)
Fixpoint findall_from (skip : nat) (s : string) : list string :=
  match s with
  | EmptyString => []
  | String _ s' =>
      match skip with
      | S k => findall_from k s'
      | O =>
          match amount_at s with
          | Some tok => tok :: findall_from (String.length tok - 1) s'
          | None => findall_from 0 s'
          end
      end
  end.

Definition findall_amounts (s : string) : list string := findall_from 0 s.

(** [re.sub(r"\s+", " ", s)] *)
Fixpoint collapse_ws (s : string) : string :=
  match s with
  | EmptyString => EmptyString
  | String c s' =>
      if isspace c
      then match s' with
           | String c' _ => if isspace c' then collapse_ws s'
                            else String " "%char (collapse_ws s')
           | EmptyString => String " "%char EmptyString
           end
      else String c (collapse_ws s')
  end.

End Re.

(** ** Python floats: binary64 *)

Module Num.
Import Py.

Definition prec : Z := 53.
Definition emax : Z := 1024.

Definition float : Type := spec_float.

(** The exact integer [z] as a (not normalised) binary64 operand. *)
Definition of_Z_exact (z : Z) : float :=
  match z with
  | Z0 => S754_zero false
  | Zpos p => S754_finite false p 0
  | Zneg p => S754_finite true p 0
  end.

(** [float(z)] for an integer [z]: rounded to nearest even. *)
Definition of_Z (z : Z) : float := binary_normalize prec emax z 0 false.

Definition zero : float := S754_zero false.

Definition fsub (x y : float) : float := SFsub prec emax x y.
Definition fabs (x : float) : float := SFabs x.
Definition flt (x y : float) : bool := SFltb x y.
Definition feq (x y : float) : bool := SFeqb x y.

(** The decimal digits of [s], most significant first; other characters are
    passed over. *)
Fixpoint digits_acc (acc : Z) (s : string) : Z :=
  match s with
  | EmptyString => acc
  | String c s' =>
      if isdigit c then digits_acc (10 * acc + digit_val c) s' else digits_acc acc s'
  end.

(** The text after the first dot. *)
Fixpoint after_dot (s : string) : string :=
  match s with
  | EmptyString => EmptyString
  | String c s' => if Ascii.eqb c "."%char then s' else after_dot s'
  end.

(** [float(s)] for [s] of the shape [\d*\.\d+].  The comma-free amount
    tokens are of that shape (see [findall_amounts_shape] and
    [remove_commas_literal] below), so that [float] never raises on them.
    The value is the quotient of the digit string by [10^k], [k] the number
    of decimals, rounded once. *)
Definition float_of_str (s : string) : float :=
  let n := digits_acc 0 s in
  let k := String.length (after_dot s) in
  SFdiv prec emax (of_Z_exact n) (of_Z_exact (10 ^ Z.of_nat k)).

(** [float(tok.replace(',', ''))] *)
Definition amount (tok : string) : float := float_of_str (remove_commas tok).

(** *** [float(s)] on any text

    [float] accepts, between optional whitespace, an optional sign followed
    by [inf], [infinity] or [nan] in any case, or by a decimal number
    [digits [. [digits]] | . digits] with an optional exponent
    [(e|E) [sign] digits]; a single underscore may stand between two digits.
    Anything else raises [ValueError]. *)

Definition is_underscore (c : ascii) : bool := Ascii.eqb c "_"%char.

(** The check of the underscores, which are taken out: an underscore comes
    after a digit and before a digit.  [prev] is the character before [s]. *)
Fixpoint drop_underscores (prev : ascii) (s : string) : option string :=
  match s with
  | EmptyString => if is_underscore prev then None else Some EmptyString
  | String c s' =>
      if is_underscore c then
        if isdigit prev then drop_underscores c s' else None
      else if is_underscore prev && negb (isdigit c) then None
      else
        match drop_underscores c s' with
        | Some t => Some (String c t)
        | None => None
        end
  end.

(** The longest run of digits at the start of [s], and what follows it. *)
Fixpoint span_digits (s : string) : string * string :=
  match s with
  | EmptyString => (EmptyString, EmptyString)
  | String c s' =>
      if isdigit c then let '(ds, rest) := span_digits s' in (String c ds, rest)
      else (EmptyString, s)
  end.

(** An optional sign: [true] for a minus. *)
Definition split_sign (s : string) : bool * string :=
  match s with
  | String c s' =>
      if Ascii.eqb c "-"%char then (true, s')
      else if Ascii.eqb c "+"%char then (false, s')
      else (false, s)
  | EmptyString => (false, s)
  end.

(** The exponent that ends a number: nothing, or [(e|E) [sign] digits]. *)
Definition exponent (s : string) : option Z :=
  match s with
  | EmptyString => Some 0%Z
  | String c s' =>
      if Ascii.eqb c "e"%char || Ascii.eqb c "E"%char then
        let '(negative, s1) := split_sign s' in
        let '(ds, rest) := span_digits s1 in
        if is_empty ds || negb (is_empty rest) then None
        else Some (if negative then (- digits_acc 0 ds)%Z else digits_acc 0 ds)
      else None
  end.

(** [m * 10^e], rounded once to nearest even. *)
Definition scaled (m e : Z) : float :=
  if (0 <=? e)%Z then of_Z (m * 10 ^ e)
  else SFdiv prec emax (of_Z_exact m) (of_Z_exact (10 ^ (- e))).

(** A decimal number without sign. *)
Definition decimal_number (s : string) : option float :=
  let '(int_part, s1) := span_digits s in
  let '(frac_part, s2) :=
    match s1 with
    | String c s1' =>
        if Ascii.eqb c "."%char then span_digits s1' else (EmptyString, s1)
    | EmptyString => (EmptyString, s1)
    end in
  if is_empty int_part && is_empty frac_part then None
  else
    match exponent s2 with
    | Some e =>
        Some (scaled (digits_acc 0 (int_part +:+ frac_part))
                     (e - Z.of_nat (String.length frac_part)))
    | None => None
    end.

(** [float(s)]; [None] is the [ValueError]. *)
Definition float_of_text (s : string) : option float :=
  match drop_underscores "000"%char (strip s) with
  | None => None
  | Some t =>
      let '(negative, r) := split_sign t in
      let signed := fun x : float => if negative then SFopp x else x in
      if String.eqb (lower r) "inf" || String.eqb (lower r) "infinity"
      then Some (signed (S754_infinity false))
      else if String.eqb (lower r) "nan" then Some S754_nan
      else
        match decimal_number r with
        | Some x => Some (signed x)
        | None => None
        end
  end.

End Num.

(** ** Dates: [datetime.strptime] and the century rule *)

Module Dates.
Import Py.

Record datetime := mk_datetime { year : Z; month : Z; day : Z }.

Definition is_leap (y : Z) : bool :=
  ((y mod 4 =? 0) && negb (y mod 100 =? 0) || (y mod 400 =? 0))%Z.

Definition days_in_month (y m : Z) : Z :=
  if (m =? 2)%Z then (if is_leap y then 29 else 28)
  else if ((m =? 4) || (m =? 6) || (m =? 9) || (m =? 11))%Z then 30
  else 31.

(** The [datetime(year, month, day)] constructor; [None] is its [ValueError]. *)
Definition make_datetime (y m d : Z) : option datetime :=
  if ((1 <=? y) && (y <=? 9999) && (1 <=? m) && (m <=? 12)
      && (1 <=? d) && (d <=? days_in_month y m))%Z
  then Some (mk_datetime y m d) else None.

(** [dt.replace(year=y)] *)
Definition replace_year (dt : datetime) (y : Z) : option datetime :=
  make_datetime y (month dt) (day dt).

Definition in_range (lo hi v : Z) : option Z :=
  if ((lo <=? v) && (v <=? hi))%Z then Some v else None.

(** [%d]: [3[0-1]|[1-2]\d|0[1-9]|[1-9]| [1-9]] *)
Definition day_field (f : string) : option Z :=
  match f with
  | String a (String b EmptyString) =>
      if isdigit a && isdigit b then in_range 1 31 (10 * digit_val a + digit_val b)
      else if Ascii.eqb a " "%char && isdigit b then in_range 1 9 (digit_val b)
      else None
  | String a EmptyString => if isdigit a then in_range 1 9 (digit_val a) else None
  | _ => None
  end.

(** [%m]: [1[0-2]|0[1-9]|[1-9]] *)
Definition month_field (f : string) : option Z :=
  match f with
  | String a (String b EmptyString) =>
      if isdigit a && isdigit b then in_range 1 12 (10 * digit_val a + digit_val b)
      else None
  | String a EmptyString => if isdigit a then in_range 1 9 (digit_val a) else None
  | _ => None
  end.

(** [%y]: [\d\d], with the POSIX pivot: 00..68 are 2000..2068 and 69..99
    are 1969..1999. *)
Definition short_year_field (f : string) : option Z :=
  match f with
  | String a (String b EmptyString) =>
      if isdigit a && isdigit b
      then let v := (10 * digit_val a + digit_val b)%Z in
           Some (if (v <=? 68)%Z then 2000 + v else 1900 + v)%Z
      else None
  | _ => None
  end.

(** [%Y]: [\d\d\d\d] *)
Definition long_year_field (f : string) : option Z :=
  match f with
  | String a (String b (String c (String d EmptyString))) =>
      if isdigit a && isdigit b && isdigit c && isdigit d
      then Some (1000 * digit_val a + 100 * digit_val b + 10 * digit_val c + digit_val d)%Z
      else None
  | _ => None
  end.

(** [datetime.strptime(s, "%d<sep>%m<sep><year>")].  The three directives are
    separated by a literal that none of them can contain and the whole text
    must be consumed, so the match is decided field by field. *)
Definition strptime (sep : ascii) (year_field : string -> option Z) (s : string)
  : option datetime :=
  match split_on sep s with
  | [fd; fm; fy] =>
      match day_field fd, month_field fm, year_field fy with
      | Some d, Some m, Some y => make_datetime y m d
      | _, _, _ => None
      end
  | _ => None
  end.

(** [datetime.strptime(s, '%d/%m/%y')] *)
Definition strptime_dmy (s : string) : option datetime :=
  strptime "/"%char short_year_field s.

(** [if dt.year < 2000: dt = dt.replace(year=dt.year + 100)] *)
Definition to_2000s (dt : datetime) : option datetime :=
  if (year dt <? 2000)%Z then replace_year dt (year dt + 100) else Some dt.

End Dates.

(** ** [analyzer.py]: [AccountStatementAnalyzer.parse_transactions] *)

Module Analyzer.
Import Py Re Num Dates.

(** The transaction dictionary.  The key ['transaction_amt'] is present only
    on some records: an [option]. *)
Record txn := mk_txn {
  date : datetime;
  description : string;
  debit : float;
  credit : float;
  balance : float;
  transaction_amt : option float;
  raw_line : string
}.

Definition with_description (s : string) (t : txn) : txn :=
  mk_txn (date t) s (debit t) (credit t) (balance t) (transaction_amt t) (raw_line t).
Definition with_debit (x : float) (t : txn) : txn :=
  mk_txn (date t) (description t) x (credit t) (balance t) (transaction_amt t) (raw_line t).
Definition with_credit (x : float) (t : txn) : txn :=
  mk_txn (date t) (description t) (debit t) x (balance t) (transaction_amt t) (raw_line t).
Definition with_balance (x : float) (t : txn) : txn :=
  mk_txn (date t) (description t) (debit t) (credit t) x (transaction_amt t) (raw_line t).
Definition with_transaction_amt (x : option float) (t : txn) : txn :=
  mk_txn (date t) (description t) (debit t) (credit t) (balance t) x (raw_line t).

(** The loop state: the list built so far and the open transaction. *)
Record state := mk_state {
  transactions : list txn;
  current_transaction : option txn
}.

Definition initial : state := mk_state [] None.

(** The three header tests that make the loop [continue]. *)
Definition is_skipped (line : string) : bool :=
  (contains "Date" line && contains "Narration" line && contains "Withdrawal" line)
  || (contains "Statement of account" line || contains "Account Branch" line)
  || startswith line "Page No".

(** [trans_date = strptime(date_str, '%d/%m/%y')] followed by the century
    rule; [None] when either raises. *)
Definition resolve_date (date_str : string) : option datetime :=
  match strptime_dmy date_str with
  | Some dt => to_2000s dt
  | None => None
  end.

(** [for amt in reversed(amounts): last_pos = desc_line.rfind(amt); ...] *)
Definition cut_at_last (desc_line amt : string) : string :=
  match rfind amt desc_line with
  | Some last_pos => strip (slice_to last_pos desc_line)
  | None => desc_line
  end.

Definition strip_amounts (desc_line : string) (amounts : list string) : string :=
  fold_left cut_at_last (rev amounts) desc_line.

(** The dictionary built on a dated line with at least two amounts. *)
Definition new_transaction (trans_date : datetime) (line : string) (matched : nat)
    (amounts : list string) : txn :=
  let balance := amount (neg_index 1 amounts) in
  let desc_line := strip (slice_from matched line) in
  let description := strip_amounts desc_line amounts in
  if (length amounts =? 2)%nat then
    let transaction_amt := amount (nth 0 amounts EmptyString) in
    mk_txn trans_date description zero zero balance (Some transaction_amt) line
  else
    let withdrawal := amount (neg_index 2 amounts) in
    let deposit :=
      if (2 <? length amounts)%nat then amount (neg_index 3 amounts) else zero in
    mk_txn trans_date description withdrawal deposit balance None line.

(** The update of the open dictionary by a line without a leading date. *)
Definition continuation (c : txn) (line : string) : txn :=
  let amounts := findall_amounts line in
  if (2 <=? length amounts)%nat then
    let c1 := with_balance (amount (neg_index 1 amounts)) c in
    if (length amounts =? 2)%nat then
      with_transaction_amt (Some (amount (nth 0 amounts EmptyString))) c1
    else if (3 <=? length amounts)%nat then
      let withdrawal := amount (neg_index 2 amounts) in
      let deposit :=
        if (2 <? length amounts)%nat then amount (neg_index 3 amounts) else zero in
      with_credit deposit (with_debit withdrawal c1)
    else c1
  else with_description (description c +:+ " " +:+ line) c.

(** [transactions.append(current_transaction)] leaves both names on one
    dictionary: the amendment made through [current_transaction] on a dated
    line with fewer than two amounts lands on the last element. *)
Fixpoint amend_last (f : txn -> txn) (l : list txn) : list txn :=
  match l with
  | [] => []
  | [x] => [f x]
  | x :: l' => x :: amend_last f l'
  end.

(** One iteration of the first loop. *)
Definition process_line (st : state) (raw : string) : state :=
  let line := strip raw in
  if is_empty line then st
  else if is_skipped line then st
  else
    match date_pattern line with
    | Some (date_str, matched) =>
        let saved :=
          match current_transaction st with
          | Some c => transactions st ++ [c]
          | None => transactions st
          end in
        match resolve_date date_str with
        | Some trans_date =>
            let amounts := findall_amounts line in
            if (2 <=? length amounts)%nat then
              mk_state saved (Some (new_transaction trans_date line matched amounts))
            else
              let saved' :=
                match current_transaction st with
                | Some c =>
                    amend_last
                      (fun t => with_description (description t +:+ " " +:+ line) t) saved
                | None => saved
                end in
              mk_state saved' None
        | None => mk_state saved None
        end
    | None =>
        match current_transaction st with
        | Some c => mk_state (transactions st) (Some (continuation c line))
        | None => st
        end
    end.

(** The first loop and the final append. *)
Definition first_pass (text : string) : list txn :=
  let st := fold_left process_line (split_on newline text) initial in
  match current_transaction st with
  | Some c => transactions st ++ [c]
  | None => transactions st
  end.

(** The body of the second loop on one record. *)
Definition backfill (prev_balance : option float) (trans : txn) : txn :=
  match transaction_amt trans with
  | Some amt =>
      if feq (debit trans) zero && feq (credit trans) zero then
        let trans1 :=
          match prev_balance with
          | Some pb =>
              let balance_change := fsub (balance trans) pb in
              if flt balance_change zero
              then with_debit (fabs balance_change) trans
              else with_credit (fabs balance_change) trans
          | None => with_debit amt trans
          end in
        with_transaction_amt None trans1
      else trans
  | None => trans
  end.

Fixpoint second_pass (prev_balance : option float) (transactions : list txn)
  : list txn :=
  match transactions with
  | [] => []
  | trans :: rest =>
      let trans' := backfill prev_balance trans in
      trans' :: second_pass (Some (balance trans')) rest
  end.

Definition parse_transactions (text : string) : list txn :=
  second_pass None (first_pass text).

(** [load_data] before the sort: the records of every text, each text
    parsed on its own. *)
Definition all_transactions (texts : list string) : list txn :=
  flat_map parse_transactions texts.

Definition date_leb (a b : datetime) : bool :=
  ((year a <? year b)
   || ((year a =? year b) && ((month a <? month b)
       || ((month a =? month b) && (day a <=? day b)))))%Z.

(** [df.sort_values('date')]: a rearrangement in date order.  The order
    among equal dates is left open (the default sort is not stable). *)
Definition sort_values_date (input output : list txn) : Prop :=
  Permutation input output /\
  forall i j a b, (i < j)%nat -> nth_error output i = Some a ->
                  nth_error output j = Some b -> date_leb (date a) (date b) = true.

End Analyzer.

(** ** [statement_parser.py] *)

Module StatementParser.
Import Py Re Num Dates.

(** The row dictionary, keyed by the seven column constants; every value is
    a string until [to_dataframe]. *)
Record row := mk_row {
  COL_DATE : string;
  COL_NARRATION : string;
  COL_REF : string;
  COL_VALUE_DT : string;
  COL_WITHDRAWN : string;
  COL_DEPOSIT : string;
  COL_BALANCE : string
}.

Definition with_narration (s : string) (r : row) : row :=
  mk_row (COL_DATE r) s (COL_REF r) (COL_VALUE_DT r) (COL_WITHDRAWN r)
         (COL_DEPOSIT r) (COL_BALANCE r).
Definition with_withdrawn (s : string) (r : row) : row :=
  mk_row (COL_DATE r) (COL_NARRATION r) (COL_REF r) (COL_VALUE_DT r) s
         (COL_DEPOSIT r) (COL_BALANCE r).
Definition with_deposit (s : string) (r : row) : row :=
  mk_row (COL_DATE r) (COL_NARRATION r) (COL_REF r) (COL_VALUE_DT r)
         (COL_WITHDRAWN r) s (COL_BALANCE r).
Definition with_balance (s : string) (r : row) : row :=
  mk_row (COL_DATE r) (COL_NARRATION r) (COL_REF r) (COL_VALUE_DT r)
         (COL_WITHDRAWN r) (COL_DEPOSIT r) s.

(** [_clean_amount] on a [str]: a blank text gives [0.0], and so does a text
    on which [float] raises [ValueError]. *)
Definition _clean_amount (s : string) : float :=
  if is_empty (strip s) then zero
  else
    match float_of_text (remove_commas (strip s)) with
    | Some x => x
    | None => zero
    end.

(** [_parse_date]: the three formats in turn; a [ValueError] of [strptime]
    or of [replace] moves on to the next format. *)
Definition try_format (parse : string -> option datetime) (s : string)
  : option datetime :=
  match parse s with
  | Some dt => to_2000s dt
  | None => None
  end.

Definition _parse_date (s : string) : option datetime :=
  let s := strip s in
  if is_empty s then None
  else
    match try_format (strptime "/"%char short_year_field) s with
    | Some d => Some d
    | None =>
        match try_format (strptime "/"%char long_year_field) s with
        | Some d => Some d
        | None => try_format (strptime "-"%char short_year_field) s
        end
    end.

Record state := mk_state {
  transactions : list row;
  current : option row
}.

Definition initial : state := mk_state [] None.

Definition is_skipped (line : string) : bool :=
  (contains "Statement of account" line || contains "Page No" line
   || contains "Account Branch" line)
  || (contains "Date" line && contains "Narration" line && contains "Closing" line).

(** [for a in reversed(amounts): idx = s.rfind(a); if idx != -1: s = s[:idx].strip()] *)
Definition cut_at_last (s a : string) : string :=
  match rfind a s with
  | Some idx => strip (slice_to idx s)
  | None => s
  end.

Definition strip_amounts (s : string) (amounts : list string) : string :=
  fold_left cut_at_last (rev amounts) s.

(** The dictionary built on a dated line with at least one amount. *)
Definition new_row (date_str rest : string) (amounts : list string) : row :=
  let balance := remove_commas (neg_index 1 amounts) in
  let '(withdrawn, deposit) :=
    if (3 <=? length amounts)%nat then
      (remove_commas (neg_index 3 amounts), remove_commas (neg_index 2 amounts))
    else if (length amounts =? 2)%nat then
      let a := remove_commas (nth 0 amounts EmptyString) in
      if flt (_clean_amount (nth 1 amounts EmptyString))
             (_clean_amount (nth 0 amounts EmptyString))
      then (a, EmptyString) else (EmptyString, a)
    else (EmptyString, EmptyString) in
  let narration := strip (collapse_ws (strip_amounts rest amounts)) in
  mk_row date_str narration EmptyString date_str withdrawn deposit balance.

Definition continuation (c : row) (line : string) : row :=
  let amounts := findall_amounts line in
  if (2 <=? length amounts)%nat then
    let c1 := with_balance (remove_commas (neg_index 1 amounts)) c in
    let c2 :=
      if (3 <=? length amounts)%nat then
        with_deposit (remove_commas (neg_index 2 amounts))
          (with_withdrawn (remove_commas (neg_index 3 amounts)) c1)
      else c1 in
    let rest := strip_amounts line amounts in
    with_narration (COL_NARRATION c2 +:+ " " +:+ rest) c2
  else with_narration (COL_NARRATION c +:+ " " +:+ line) c.

(** [transactions.append(current)] under the guard on the balance. *)
Definition flush (st : state) : list row :=
  match current st with
  | Some c => if is_empty (COL_BALANCE c) then transactions st
              else transactions st ++ [c]
  | None => transactions st
  end.

Definition process_line (st : state) (line : string) : state :=
  if is_skipped line then st
  else
    match date_pattern line with
    | Some (date_str, matched) =>
        let saved := flush st in
        let rest := strip (slice_from matched line) in
        let amounts := findall_amounts rest in
        if (1 <=? length amounts)%nat
        then mk_state saved (Some (new_row date_str rest amounts))
        else mk_state saved None
    | None =>
        match current st with
        | Some c => mk_state (transactions st) (Some (continuation c line))
        | None => st
        end
    end.

(** [lines = [ln.strip() for ln in text.split("\n") if ln.strip()]] *)
Definition lines_of (text : string) : list string :=
  List.filter (fun ln => negb (is_empty ln)) (map strip (split_on newline text)).

Definition _parse_transactions_from_text (text : string) : list row :=
  flush (fold_left process_line (lines_of text) initial).

(** [_dedupe_and_clean]: the first row of each key
    [(date, narration[:80], balance)] is kept. *)
Fixpoint dedupe_from (seen : gset (string * string * string)) (rows : list row)
  : list row :=
  match rows with
  | [] => []
  | r :: rows' =>
      let key := (COL_DATE r, slice_to 80 (COL_NARRATION r), COL_BALANCE r) in
      if bool_decide (key ∈ seen) then dedupe_from seen rows'
      else r :: dedupe_from ({[ key ]} ∪ seen) rows'
  end.

Definition _dedupe_and_clean (rows : list row) : list row := dedupe_from ∅ rows.

(** [load_statement] when the rows come from the text of the statement. *)
Definition load_statement_text (text : string) : list row :=
  _dedupe_and_clean (_parse_transactions_from_text text).

(** A row of the frame built by [to_dataframe], before its sort. *)
Record typed_row := mk_typed_row {
  Date : option datetime;
  Narration : string;
  Value_Dt : option datetime;
  Withdrawn : float;
  Deposit : float;
  Balance : float
}.

(** [pd.to_datetime(col, format="%d/%m/%y", errors="coerce")] on one cell:
    the directives and the pivot of [strptime], [NaT] ([None]) on failure,
    and no century rule after it. *)
Definition to_datetime_dmy (s : string) : option datetime := strptime_dmy s.

Definition to_dataframe_row (r : row) : typed_row :=
  mk_typed_row (to_datetime_dmy (COL_DATE r)) (COL_NARRATION r)
               (to_datetime_dmy (COL_VALUE_DT r))
               (_clean_amount (COL_WITHDRAWN r)) (_clean_amount (COL_DEPOSIT r))
               (_clean_amount (COL_BALANCE r)).

(** [to_dataframe] up to the final [sort_values]. *)
Definition to_dataframe (transactions : list row) : list typed_row :=
  map to_dataframe_row transactions.

End StatementParser.

(** ** [dashboard.py] *)

Module Dashboard.
Import Py Num.

(** A spreadsheet cell as [pandas] hands it over. *)
Inductive cell :=
| NaN                    (** [pd.isna]: [NaN], [None] or [NaT] *)
| Str (s : string)       (** a [str] *)
| Obj (repr : string).   (** a number or a timestamp; [repr] is its [str()] *)

Definition isna (v : cell) : bool :=
  match v with NaN => true | _ => false end.

(** [str(v)] for a cell that is not null. *)
Definition str (v : cell) : string :=
  match v with NaN => "nan" | Str s => s | Obj s => s end.

(** [str(narration) if pd.notna(narration) else ""] *)
Definition text_of (narration : cell) : string :=
  if isna narration then EmptyString else str narration.

(** *** Cost heads *)

Definition COST_HEADS : list (string * list string) :=
  [ ("Salary",
     ["salary"; "advanc"; "salar"; "bisheshar"; "radheshyam"; "shiv ram"; "sanjay";
      "harsh"; "pyare"; "somwati"; "surinder"; "sikander"; "amit"; "bimal"; "mayank";
      "sheetla"; "prahlad"; "CNRB0000103"]);
    ("Feed", ["feed"; "tudi"; "ganna"; "rakesh"; "seed"; "atta"; "mineral"; "chokar";
              "HARDEEPSINGH"]);
    ("Rent", ["rent"]);
    ("Fuel and Transportation",
     ["gas"; "refill"; "petrol"; "cylinder"; "auto"; "service"; "transport";
      "filling"; "fuel"; "bike"]);
    ("Expansion (cow, fridge)", ["cow"; "refrig"; "crockery"]);
    ("Marketing", ["print"; "adver"]);
    ("Loan, CC", ["loan"; "credit"]);
    ("Miscellaneous",
     ["ration"; "fee"; "medical"; "ghee"; "fees"; "netflix"; "amazon"; "blinkit";
      "swiggy"; "airtel"; "jio"; "vikram"; "ROOPBASANT"]) ].

Definition EXCLUDED_PREFIX : string := "NEFT DR-CNRB0002374".

Definition _excluded_from_expense (narration : cell) : bool :=
  let n := upper (strip (text_of narration)) in
  startswith n EXCLUDED_PREFIX.

(** [any(kw.lower() in text for kw in keywords)] *)
Definition any_keyword (keywords : list string) (text : string) : bool :=
  existsb (fun kw => contains (lower kw) text) keywords.

Fixpoint first_cost_head (table : list (string * list string)) (text : string)
  : string :=
  match table with
  | [] => "Other"
  | (name, keywords) :: table' =>
      if any_keyword keywords text then name else first_cost_head table' text
  end.

Definition _assign_cost_head (narration : cell) : string :=
  let text := lower (text_of narration) in
  first_cost_head COST_HEADS text.

(** *** Counterparty identifiers *)

Definition _upi_customer_id (narration : cell) : option string :=
  let n := strip (text_of narration) in
  if negb (startswith (upper n) "UPI") then None
  else
    match find "-" n 0 with
    | None => Some n
    | Some first =>
        match find "-" n (first + 1) with
        | None => Some n
        | Some second => Some (slice_to second n)
        end
    end.

Definition _neft_customer_id (narration : cell) : option string :=
  let n := strip (text_of narration) in
  if negb (startswith (upper n) "NEFT") then None
  else
    match find "-" n 0 with
    | None => Some n
    | Some first =>
        match find "-" n (first + 1) with
        | None => Some n
        | Some second => Some (slice_to second n)
        end
    end.

Definition _imps_customer_id (narration : cell) : option string :=
  let n := strip (text_of narration) in
  if negb (startswith (upper n) "IMPS") then None
  else
    match find "-" n 0 with
    | None => Some n
    | Some first =>
        match find "-" n (first + 1) with
        | None => Some n
        | Some second =>
            match find "-" n (second + 1) with
            | None => Some n
            | Some third => Some (slice (second + 1) third n)
            end
        end
    end.

(** *** Column normalisation *)

Definition EXPECTED_date : list string := ["Date"; "date"; "DATE"].
Definition EXPECTED_narration : list string := ["Narration"; "narration"; "NARRATION"].
Definition EXPECTED_withdrawn : list string :=
  ["Withdrawal Amt."; "Withdrawal Amt"; "Withdrawn Amt."; "Withdrawn Amt";
   "Withdrawal"; "Debit"].
Definition EXPECTED_deposit : list string :=
  ["Deposit Amt."; "Deposit Amt"; "Deposit"; "Credit"].
Definition EXPECTED_balance : list string :=
  ["Closing Balance"; "Closing Bal"; "Balance"].

Definition _normalize (s : string) : string := lower (strip s).

(** [key == col_norm or key in col_norm or col_norm in key] *)
Definition alias_matches (key col_norm : string) : bool :=
  String.eqb key col_norm || contains key col_norm || contains col_norm key.

(** The loops of [_find_column].  The dictionary [col_normalized] keeps the
    columns in their order of first appearance, and a repeated name cannot
    be the first to match: the columns are walked as a list. *)
Fixpoint _find_column (columns aliases : list string)
    (normalize_fn : string -> string) : option string :=
  match aliases with
  | [] => None
  | alias :: aliases' =>
      let key := normalize_fn alias in
      match List.find (fun col => alias_matches key (normalize_fn col)) columns with
      | Some col => Some col
      | None => _find_column columns aliases' normalize_fn
      end
  end.

(** [if col is not None: mapping[col] = name] *)
Definition assign (col : option string) (name : string)
    (mapping : gmap string string) : gmap string string :=
  match col with
  | Some c => <[c := name]> mapping
  | None => mapping
  end.

Definition column_mapping (columns : list string) : gmap string string :=
  let mapping : gmap string string := ∅ in
  let mapping := assign (_find_column columns EXPECTED_date _normalize) "date" mapping in
  let mapping :=
    assign (_find_column columns EXPECTED_narration _normalize) "narration" mapping in
  let mapping :=
    assign (_find_column columns EXPECTED_withdrawn _normalize) "debit" mapping in
  let mapping :=
    assign (_find_column columns EXPECTED_deposit _normalize) "credit" mapping in
  assign (_find_column columns EXPECTED_balance _normalize) "balance" mapping.

Definition required : gset string := {[ "date"; "debit"; "credit" ]}.

(** [_normalize_columns] on the header: [None] as in the source, otherwise
    the [mapping] by which the frame is renamed (the renamed frame itself is
    the input restricted to the canonical names). *)
Definition _normalize_columns (columns : list string) : option (gmap string string) :=
  let mapping := column_mapping columns in
  if bool_decide (required ⊆ map_img mapping) then Some mapping else None.

(** *** Continuation rows *)

(** A row as [row.to_dict()]: column name to cell. *)
Record frame := mk_frame {
  columns : list string;
  rows : list (gmap string cell)
}.

(** [norm.empty] *)
Definition empty (norm : frame) : bool :=
  match columns norm, rows norm with
  | [], _ | _, [] => true
  | _, _ => false
  end.

Definition has_column (c : string) (norm : frame) : bool :=
  bool_decide (c ∈ columns norm).

(** [row.get(col)]: a missing key gives [None], which [pd.isna] accepts. *)
Definition get (col : string) (row : gmap string cell) : cell :=
  default NaN (row !! col).

Definition null_words : list string := [""; "nan"; "nat"; "none"].

Definition _has_date_value (val : cell) : bool :=
  if isna val then false
  else
    let s := lower (strip (str val)) in
    negb (bool_decide (s ∈ null_words)).

(** [norm["narration"] = ""] *)
Definition add_narration (norm : frame) : frame :=
  mk_frame (columns norm ++ ["narration"])
           (map (fun row => <["narration" := Str ""]> row) (rows norm)).

(** [current.get("narration") or ""]: the open row holds a [str] there. *)
Definition current_narration (current : gmap string cell) : string :=
  match current !! "narration" with
  | Some (Str s) => s
  | _ => EmptyString
  end.

(** One iteration of the loop over [norm.iterrows()]. *)
Definition merge_step (st : list (gmap string cell) * option (gmap string cell))
    (row : gmap string cell)
  : list (gmap string cell) * option (gmap string cell) :=
  let '(rows_out, current) := st in
  if _has_date_value (get "date" row) then
    let rows_out' :=
      match current with
      | Some c => rows_out ++ [c]
      | None => rows_out
      end in
    let nar := get "narration" row in
    let nar' :=
      if isna nar || is_empty (strip (str nar)) then EmptyString
      else strip (str nar) in
    (rows_out', Some (<["narration" := Str nar']> row))
  else
    match current with
    | Some c =>
        let extra := get "narration" row in
        if negb (isna extra) && negb (is_empty (strip (str extra))) then
          (rows_out,
           Some (<["narration" := Str (current_narration c +:+ strip (str extra))]> c))
        else st
    | None => st
    end.

Definition merge_rows (rows : list (gmap string cell)) : list (gmap string cell) :=
  let '(rows_out, current) := fold_left merge_step rows ([], None) in
  match current with
  | Some c => rows_out ++ [c]
  | None => rows_out
  end.

Definition _merge_narration_rows (norm : frame) : frame :=
  if empty norm || negb (has_column "date" norm) then norm
  else
    let norm := if has_column "narration" norm then norm else add_narration norm in
    mk_frame (columns norm) (merge_rows (rows norm)).

(** *** Type coercion and the expense mask *)

Section Coercion.
(** The conversions that [pandas] and [float] perform on a cell that is
    not null are taken as given. *)
Variable Timestamp : Type.
Variable pd_to_datetime : cell -> option Timestamp.
Variable float_of_cell : cell -> float.

Definition _parse_date (val : cell) : option Timestamp :=
  if isna val then None else pd_to_datetime val.

Definition _parse_amount (val : cell) : float :=
  match val with
  | NaN => zero
  | Str EmptyString => zero
  | _ => float_of_cell val
  end.

(** A row of the frame returned by [_process_norm]. *)
Record record := mk_record {
  date : Timestamp;
  narration : string;
  debit : float;
  credit : float;
  balance : option float
}.

Definition process_row (norm : frame) (row : gmap string cell) : option record :=
  match _parse_date (get "date" row) with
  | None => None
  | Some d =>
      Some (mk_record d
        (if has_column "narration" norm then text_of (get "narration" row)
         else EmptyString)
        (if has_column "debit" norm then _parse_amount (get "debit" row) else zero)
        (if has_column "credit" norm then _parse_amount (get "credit" row) else zero)
        (if has_column "balance" norm then Some (_parse_amount (get "balance" row))
         else None))
  end.

(** [_process_norm]: rows whose date does not parse are dropped. *)
Definition _process_norm (norm : frame) : list record :=
  omap (process_row norm) (rows norm).

(** The two steps that [load_xlsx_all_sheets] applies to a normalised
    sheet, in its order. *)
Definition load_sheet (norm : frame) : list record :=
  _process_norm (_merge_narration_rows norm).

(** [_expense_mask]: [(df["debit"] > 0) & ~excluded] *)
Definition _expense_mask (df : list record) : list bool :=
  map (fun r => flt zero (debit r)
                && negb (_excluded_from_expense (Str (narration r)))) df.

(** [df[mask]] *)
Fixpoint select (df : list record) (mask : list bool) : list record :=
  match df, mask with
  | r :: df', b :: mask' => if b then r :: select df' mask' else select df' mask'
  | _, _ => []
  end.

(** [expense["cost_head"] = expense["narration"].apply(_assign_cost_head)]
    on [df[_expense_mask(df)]]. *)
Definition expense_cost_heads (df : list record) : list (record * string) :=
  map (fun r => (r, _assign_cost_head (Str (narration r))))
      (select df (_expense_mask df)).

End Coercion.

Arguments mk_record {Timestamp}.
Arguments date {Timestamp}.
Arguments narration {Timestamp}.
Arguments debit {Timestamp}.
Arguments credit {Timestamp}.
Arguments balance {Timestamp}.
Arguments _parse_date {Timestamp}.
Arguments process_row {Timestamp}.
Arguments _process_norm {Timestamp}.
Arguments load_sheet {Timestamp}.
Arguments _expense_mask {Timestamp}.
Arguments select {Timestamp}.
Arguments expense_cost_heads {Timestamp}.

End Dashboard.

(** ** The back-fill as the specification words it

    The specification places the balance-delta pass after the records are
    ordered by date, ties in source order.  This second definition follows
    those words; it is compared with [Analyzer.parse_transactions] below. *)

Module SpecWording.
Import Dates Analyzer.

Definition date_ltb (a b : datetime) : bool := negb (date_leb b a).

(** Stable insertion: a record goes before the first strictly later one
    among those that followed it in the source. *)
Fixpoint insert_by_date (t : txn) (l : list txn) : list txn :=
  match l with
  | [] => [t]
  | x :: l' =>
      if date_ltb (date x) (date t) then x :: insert_by_date t l' else t :: l
  end.

Definition sort_by_date (l : list txn) : list txn :=
  fold_right insert_by_date [] l.

Definition backfill_after_sort (text : string) : list txn :=
  second_pass None (sort_by_date (first_pass text)).

End SpecWording.

(** ** Vocabulary of the statements *)

Module Vocabulary.
Import Py Dates Dashboard.

(** A test on every character of a text. *)
Fixpoint all_chars (p : ascii -> bool) (s : string) : bool :=
  match s with
  | EmptyString => true
  | String c s' => p c && all_chars p s'
  end.

(** The shape of an amount token: a run of digits and commas that is not
    empty, a dot, two digits. *)
Definition amount_shape (tok : string) : Prop :=
  exists run d1 d2,
    tok = run +:+ String "."%char (String d1 (String d2 EmptyString)) /\
    run <> EmptyString /\ all_chars Re.in_amount_class run = true /\
    isdigit d1 = true /\ isdigit d2 = true.

(** A plain decimal literal with two decimals, on which [float] does not
    raise. *)
Definition decimal_literal (s : string) : Prop :=
  exists ds d1 d2,
    s = ds +:+ String "."%char (String d1 (String d2 EmptyString)) /\
    all_chars isdigit ds = true /\ isdigit d1 = true /\ isdigit d2 = true.

(** The balance held in [prev_balance] by the second loop of
    [Analyzer.parse_transactions] once it has gone through [pre]. *)
Definition prev_after (p : option Num.float) (pre : list Analyzer.txn)
  : option Num.float :=
  match last pre with
  | Some x => Some (Analyzer.balance x)
  | None => p
  end.

(** The two-digit year written in a date text, [None] when there is none. *)
Definition two_digit_year (s : string) : option Z :=
  match split_on "/"%char s with
  | [_; _; String a (String b EmptyString)] =>
      if isdigit a && isdigit b then Some (10 * digit_val a + digit_val b)%Z else None
  | _ => None
  end.

(** The rows that [_expense_mask] keeps. *)
Definition is_expense {T : Type} (r : record T) : bool :=
  Num.flt Num.zero (debit r)
  && negb (startswith (upper (strip (narration r))) EXCLUDED_PREFIX).

Definition hyphen : ascii := "-"%char.

(** The number of hyphens of a text. *)
Fixpoint hyphens (s : string) : nat :=
  match s with
  | EmptyString => 0
  | String c s' => (if Ascii.eqb c hyphen then 1 else 0) + hyphens s'
  end.

(** A row that opens a transaction, and a cell without text. *)
Definition dated (row : gmap string cell) : bool := _has_date_value (get "date" row).
Definition blank (v : cell) : bool := isna v || is_empty (strip (str v)).

(** The list that [rows_out] becomes when the loop of [_merge_narration_rows]
    stops in the state [st]. *)
Definition finish (st : list (gmap string cell) * option (gmap string cell))
  : list (gmap string cell) :=
  match snd st with
  | Some c => fst st ++ [c]
  | None => fst st
  end.

Definition with_blank_narration (row : gmap string cell) : gmap string cell :=
  <["narration" := Str ""]> row.

(** The rows that the loop of [_merge_narration_rows] walks. *)
Definition walked (norm : frame) : list (gmap string cell) :=
  if has_column "narration" norm then rows norm
  else map with_blank_narration (rows norm).

(** A two-row sheet: a dated row and a row without a date. *)
Definition open_row : gmap string cell :=
  <["date" := Obj "2023-04-01 00:00:00"]>
    (<["narration" := Str "Payment to"]>
       (<["debit" := Obj "2500.0"]> (<["credit" := NaN]> ∅))).

Definition continuation_row (text : string) : gmap string cell :=
  <["date" := NaN]>
    (<["narration" := Str text]> (<["debit" := Obj "7.0"]> (<["credit" := NaN]> ∅))).

Definition sheet_columns : list string := ["date"; "narration"; "debit"; "credit"].

End Vocabulary.

(** ** Python text formatting *)

Module Fmt.

(** [sep.join(l)] *)
Fixpoint join (sep : string) (l : list string) : string :=
  match l with
  | [] => EmptyString
  | [x] => x
  | x :: l' => x +:+ sep +:+ join sep l'
  end.

(** [str(n)] for a natural number. *)
Definition decimal (n : nat) : string := DecimalString.NilEmpty.string_of_uint (Nat.to_uint n).

(** Zero padding on the left up to the width [w], as in [f"{n:0wd}"]. *)
Definition zfill (w : nat) (s : string) : string :=
  Nat.iter (w - String.length s) (String "0"%char) s.

End Fmt.

(** ** [statement_parser.py]: the table path and [load_statement] *)

Module ParserTables.
Import Py Re Fmt StatementParser.

(** A cell of a [pdfplumber] table: [None] or a [str]. *)
Definition cell : Type := option string.

(** [c or ""] *)
Definition text (c : cell) : string :=
  match c with Some s => s | None => EmptyString end.

(** The truth value of a cell: a text that is not empty. *)
Definition truthy (c : cell) : bool := negb (is_empty (text c)).

(** [" ".join(str(c or "").strip() for c in row if c)] *)
Definition row_str (row : list cell) : string :=
  join " " (map (fun c => strip (text c)) (List.filter truthy row)).

Definition is_header (row : list cell) : bool :=
  let s := row_str row in
  contains "Date" s && (contains "Closing" s || contains "Balance" s).

(** The index of the first row that passes [is_header], counted from [i]. *)
Fixpoint first_header (i : nat) (table_rows : list (list cell)) : option nat :=
  match table_rows with
  | [] => None
  | row :: rest => if is_header row then Some i else first_header (S i) rest
  end.

(** [header_row_idx], with the fallback on the first row. *)
Definition header_row_idx (table_rows : list (list cell)) : nat :=
  match first_header 0 table_rows with Some i => i | None => 0 end.

(** [re.match(r"^\d{2}/\d{2}/\d{2}", s)] *)
Definition date_prefix (s : string) : bool :=
  match s with
  | String d1 (String d2 (String s1 (String m1 (String m2
      (String s2 (String y1 (String y2 _))))))) =>
      isdigit d1 && isdigit d2 && is_slash s1 && isdigit m1 && isdigit m2
      && is_slash s2 && isdigit y1 && isdigit y2
  | _ => false
  end.

(** [(row[i] or "").strip()] once the row is padded to seven cells. *)
Definition cell_at (i : nat) (row : list cell) : string :=
  strip (text (nth i row None)).

Definition map_row (cells : list cell) : row :=
  mk_row (cell_at 0 cells) (cell_at 1 cells) (cell_at 2 cells) (cell_at 3 cells)
         (cell_at 4 cells) (cell_at 5 cells) (cell_at 6 cells).

(** [not any(str(c or "").strip() for c in row)] *)
Definition blank_row (row : list cell) : bool :=
  negb (existsb (fun c => negb (is_empty (strip (text c)))) row).

(** The loop over [data_rows]. *)
Fixpoint data_rows (rows : list (list cell)) : list row :=
  match rows with
  | [] => []
  | row :: rest =>
      if blank_row row then data_rows rest
      else if negb (date_prefix (cell_at 0 row)) then data_rows rest
      else map_row row :: data_rows rest
  end.

Definition _normalize_columns (table_rows : list (list cell)) : list row :=
  if (length table_rows <? 2)%nat then []
  else data_rows (skipn (S (header_row_idx table_rows)) table_rows).

(** [[list(c or "" for c in row) for row in table if row and any(c for c in row)]] *)
Definition cleaned (table : list (list cell)) : list (list cell) :=
  map (map (fun c => Some (text c))) (List.filter (existsb truthy) table).

(** The loop over the rows of a table that comes after the header was used. *)
Fixpoint later_rows (rows : list (list cell)) : list row :=
  match rows with
  | [] => []
  | row :: rest =>
      if date_prefix (cell_at 0 row) then map_row row :: later_rows rest
      else later_rows rest
  end.

(** One table of one page; the state is [(all_data_rows, header_used)]. *)
Definition table_step (st : list row * bool) (table : list (list cell))
  : list row * bool :=
  let '(all_data_rows, header_used) := st in
  match cleaned table with
  | [] => st
  | rows =>
      if header_used then (all_data_rows ++ later_rows rows, true)
      else (all_data_rows ++ _normalize_columns rows, true)
  end.

(** [extract_with_pdfplumber] on the tables that [pdfplumber] finds, page by
    page, when opening the file raises nothing. *)
Definition extract_with_pdfplumber (pages : list (list (list (list cell)))) : list row :=
  fst (fold_left table_step (concat pages) ([], false)).

(** [load_statement]: [pages] are the tables of the file and [page_text] the
    text that the fallback extracts from it. *)
Definition load_statement (pages : list (list (list (list cell)))) (page_text : string)
  : list row :=
  let rows := extract_with_pdfplumber pages in
  let rows :=
    match rows with
    | [] => _parse_transactions_from_text page_text
    | _ => rows
    end in
  _dedupe_and_clean rows.

End ParserTables.

(** ** [statement_parser.py]: [export_ofx] *)

Module Ofx.
Import Py Fmt Num Dates StatementParser.

(** [s.replace(c, rep)] for a one-character [c]. *)
Fixpoint replace_char (c : ascii) (rep : string) (s : string) : string :=
  match s with
  | EmptyString => EmptyString
  | String x s' =>
      if Ascii.eqb x c then rep +:+ replace_char c rep s'
      else String x (replace_char c rep s')
  end.

(** [.replace("&", "&amp;").replace("<", "&lt;").replace(">", "&gt;")] *)
Definition escape (s : string) : string :=
  replace_char ">" "&gt;" (replace_char "<" "&lt;" (replace_char "&" "&amp;" s)).

(** [dt.strftime("%Y%m%d")]; a timestamp holds a year of four digits. *)
Definition strftime_Ymd (dt : datetime) : string :=
  zfill 4 (decimal (Z.to_nat (year dt)))
  +:+ zfill 2 (decimal (Z.to_nat (month dt)))
  +:+ zfill 2 (decimal (Z.to_nat (day dt))).

(** The truth value of a float: anything but zero. *)
Definition truthy (x : float) : bool := negb (feq x zero).

Record stmttrn := mk_stmttrn {
  trntype : string;
  dtposted : string;
  trnamt : float;
  fitid : string;
  name : string
}.

(** The body of the loop for the row [row] at index [idx], whose date is [dt];
    [None] is the [continue] on a zero amount. *)
Definition transaction (idx : nat) (dt : datetime) (row : typed_row) : option stmttrn :=
  let dts := strftime_Ymd dt in
  let name := escape (slice_to 255 (Narration row)) in
  let fitid := dts +:+ zfill 6 (decimal idx) in
  let '(trntype, trnamt) :=
    if truthy (Withdrawn row) && flt zero (Withdrawn row)
    then ("DEBIT", SFopp (Withdrawn row))
    else ("CREDIT", if truthy (Deposit row) then Deposit row else zero) in
  if feq trnamt zero then None
  else Some (mk_stmttrn trntype dts trnamt fitid name).

(** The loop over [df.iterrows()], the index running from [idx]; [None] is
    the [ValueError] of [strftime] on a missing date. *)
Fixpoint transactions_from (idx : nat) (df : list typed_row) : option (list stmttrn) :=
  match df with
  | [] => Some []
  | row :: rest =>
      match Date row with
      | None => None
      | Some dt =>
          match transactions_from (S idx) rest with
          | None => None
          | Some l =>
              Some (match transaction idx dt row with
                    | Some e => e :: l
                    | None => l
                    end)
          end
      end
  end.

Section Document.
(** [f"{x:.2f}"] is taken as given. *)
Variable format_2f : float -> string.

Definition stmttrn_lines (e : stmttrn) : list string :=
  [ "          <STMTTRN>";
    "            <TRNTYPE>" +:+ trntype e +:+ "</TRNTYPE>";
    "            <DTPOSTED>" +:+ dtposted e +:+ "</DTPOSTED>";
    "            <TRNAMT>" +:+ format_2f (trnamt e) +:+ "</TRNAMT>";
    "            <FITID>" +:+ fitid e +:+ "</FITID>";
    "            <NAME>" +:+ name e +:+ "</NAME>";
    "          </STMTTRN>" ].

(** The lines before the transactions; [now] is
    [datetime.now().strftime("%Y%m%d%H%M%S")]. *)
Definition header (now account_id bank_id : string) : list string :=
  [ "OFXHEADER:100"; "DATA:OFXSGML"; "VERSION:200"; "SECURITY:NONE";
    "ENCODING:UTF-8"; "CHARSET:ISO-8859-1"; "COMPRESSION:NONE";
    "OLDFILEUID:NONE"; "NEWFILEUID:NONE"; EmptyString;
    "<OFX>";
    "  <SIGNONMSGSRSV1>";
    "    <SONRS>";
    "      <STATUS><CODE>0</CODE><SEVERITY>INFO</SEVERITY></STATUS>";
    "      <DTSERVER>" +:+ now +:+ "</DTSERVER>";
    "      <LANGUAGE>ENG</LANGUAGE>";
    "    </SONRS>";
    "  </SIGNONMSGSRSV1>";
    "  <BANKMSGSRSV1>";
    "    <STMTTRNRS>";
    "      <TRNUID>1</TRNUID>";
    "      <STATUS><CODE>0</CODE><SEVERITY>INFO</SEVERITY></STATUS>";
    "      <STMTRS>";
    "        <CURDEF>INR</CURDEF>";
    "        <BANKACCTFROM>";
    "          <BANKID>" +:+ bank_id +:+ "</BANKID>";
    "          <ACCTID>" +:+ (if is_empty account_id then "Account" else account_id)
                         +:+ "</ACCTID>";
    "          <ACCTTYPE>CHECKING</ACCTTYPE>";
    "        </BANKACCTFROM>";
    "        <BANKTRANLIST>" ].

Definition footer : list string :=
  [ "        </BANKTRANLIST>";
    "      </STMTRS>";
    "    </STMTTRNRS>";
    "  </BANKMSGSRSV1>";
    "</OFX>" ].

(** The text that [export_ofx] writes; [None] when it raises. *)
Definition export_ofx (df : list typed_row) (now account_id bank_id : string)
  : option string :=
  match transactions_from 0 df with
  | None => None
  | Some l =>
      Some (join (String newline EmptyString)
              (header now account_id bank_id ++ flat_map stmttrn_lines l ++ footer))
  end.

End Document.

End Ofx.

(** ** [analyzer.py]: [categorize_expenses] *)

Module Reports.
Import Py Num Dates Analyzer.

Definition categories : list (string * list string) :=
  [ ("Salary & Wages", ["salary"; "wage"; "payroll"; "employee"]);
    ("Rent", ["rent"; "lease"]);
    ("Utilities", ["electric"; "water"; "gas"; "internet"; "phone"; "utility"]);
    ("Supplies", ["supply"; "supplies"; "stationery"; "office"]);
    ("Marketing", ["marketing"; "advertising"; "promotion"; "ad"]);
    ("Transportation", ["fuel"; "petrol"; "diesel"; "transport"; "travel"; "uber"; "ola"]);
    ("Professional Fees", ["legal"; "consultant"; "professional"; "accounting"; "audit"]);
    ("Bank Charges", ["charge"; "fee"; "bank"]);
    ("Insurance", ["insurance"; "premium"]);
    ("Maintenance", ["maintenance"; "repair"; "service"]);
    ("Taxes", ["tax"; "gst"; "tds"]);
    ("Purchases", ["purchase"; "buy"; "vendor"; "supplier"]) ].

(** The inner loop over [categories.items()], with ['Other'] when no
    category has a keyword in [desc]. *)
Fixpoint category_of (table : list (string * list string)) (desc : string) : string :=
  match table with
  | [] => "Other"
  | (category, keywords) :: table' =>
      if existsb (fun keyword => contains keyword desc) keywords then category
      else category_of table' desc
  end.

(** A value of [cost_heads]; an element of ['transactions'] holds the date,
    the description and the amount of a row. *)
Record cost_head := mk_cost_head {
  amount : float;
  count : nat;
  transactions : list (datetime * string * float)
}.

Definition fadd (x y : float) : float := SFadd prec emax x y.

(** The three updates of one entry. *)
Definition record_row (row : txn) (h : cost_head) : cost_head :=
  mk_cost_head (fadd (amount h) (debit row)) (S (count h))
               (transactions h ++ [(date row, description row, debit row)]).

(** [cost_heads[category]] followed by the updates: the dictionary keeps
    its keys in the order of their first use. *)
Fixpoint add_to (category : string) (row : txn) (cost_heads : list (string * cost_head))
  : list (string * cost_head) :=
  match cost_heads with
  | [] => [(category, record_row row (mk_cost_head zero 0 []))]
  | (k, h) :: rest =>
      if String.eqb k category then (k, record_row row h) :: rest
      else (k, h) :: add_to category row rest
  end.

(** [self.df[self.df['debit'] > 0]] *)
Definition expense_transactions (df : list txn) : list txn :=
  List.filter (fun row => flt zero (debit row)) df.

Definition categorize_expenses (df : list txn) : list (string * cost_head) :=
  fold_left
    (fun cost_heads row =>
       add_to (category_of categories (lower (description row))) row cost_heads)
    (expense_transactions df) [].

End Reports.

(** ** [dashboard.py]: the header row of a sheet *)

Module Sheets.
Import Py Fmt Dashboard.

(** [str(v).strip() if pd.notna(v) and str(v).strip().lower() != "nan"
     else f"_col_{i}"] *)
Definition column_name (i : nat) (v : cell) : string :=
  if negb (isna v) && negb (String.eqb (lower (strip (str v))) "nan")
  then strip (str v)
  else "_col_" +:+ decimal i.

(** The loop over [enumerate(header_vals)], the index running from [i]. *)
Fixpoint names_from (i : nat) (header_vals : list cell) : list string :=
  match header_vals with
  | [] => []
  | v :: rest => column_name i v :: names_from (S i) rest
  end.

(** A sheet read with [header=None] is the list of its rows. *)
Definition _header_row_to_columns (raw_df : list (list cell)) (header_row : Z)
  : option (list string) :=
  if (Z.of_nat (length raw_df) <=? header_row)%Z || (header_row <? 0)%Z then None
  else Some (names_from 0 (nth (Z.to_nat header_row) raw_df [])).

End Sheets.

(** ** [dashboard.py]: [load_xlsx_all_sheets] *)

Module Workbook.
Import Py Num Dashboard Sheets.

Definition canonical : list string := ["date"; "narration"; "debit"; "credit"; "balance"].

(** The labels of [df.rename(columns=mapping)]. *)
Definition rename (mapping : gmap string string) (cols : list string) : list string :=
  map (fun c => default c (mapping !! c)) cols.

(** [use = [c for c in [...] if c in out.columns]] *)
Definition use (labels : list string) : list string :=
  List.filter (fun c => bool_decide (c ∈ labels)) canonical.

(** No canonical name stands over two columns.  On a frame that repeats
    one, [pandas] hands a [Series] to the functions that expect a cell; such
    frames are left out of the model. *)
Definition unambiguous (labels : list string) : bool :=
  bool_decide (NoDup (List.filter (fun c => bool_decide (c ∈ canonical)) labels)).

(** One row of [out[use]]: the cells under the labels of [use]. *)
Definition pick (labels : list string) (cells : list cell) : gmap string cell :=
  list_to_map (List.filter (fun p => bool_decide (fst p ∈ use labels)) (combine labels cells)).

(** [_normalize_columns(data_df)] on the frame with header [cols] and rows
    [data]: [Some None] is the [None] of the source, the outer [None] a frame
    outside the model. *)
Definition normalize_frame (cols : list string) (data : list (list cell))
  : option (option frame) :=
  match _normalize_columns cols with
  | None => Some None
  | Some mapping =>
      let labels := rename mapping cols in
      if unambiguous labels
      then Some (Some (mk_frame (use labels) (map (pick labels) data)))
      else None
  end.

(** [raw_df.shape[1]] and [raw_df.empty] for a sheet given by its rows. *)
Definition width (raw_df : list (list cell)) : nat :=
  match raw_df with
  | [] => 0
  | r :: _ => length r
  end.

Definition is_empty_sheet (raw_df : list (list cell)) : bool :=
  match raw_df with
  | [] => true
  | r :: _ => (length r =? 0)%nat
  end.

Section Loading.
Variable Timestamp : Type.
Variable pd_to_datetime : cell -> option Timestamp.
Variable float_of_cell : cell -> float.

(** The variables [loaded] and [header_names] of the loop. *)
Record progress := mk_progress {
  loaded : list (list (record Timestamp));
  header_names : option (list string)
}.

(** [norm = _merge_narration_rows(norm); norm = _process_norm(norm);
     if len(norm) > 0: loaded.append(norm)] *)
Definition append_loaded (norm : frame) (loaded : list (list (record Timestamp)))
  : list (list (record Timestamp)) :=
  let records := load_sheet pd_to_datetime float_of_cell norm in
  if (0 <? length records)%nat then loaded ++ [records] else loaded.

(** The first sheet. *)
Definition first_sheet (raw_df : list (list cell)) (st : progress) : option progress :=
  if is_empty_sheet raw_df then Some st
  else
    match _header_row_to_columns raw_df 0 with
    | None => Some st
    | Some cols =>
        match normalize_frame cols (tl raw_df) with
        | None => None
        | Some None => Some st
        | Some (Some norm) =>
            if (length (columns norm) <? 3)%nat then Some st
            else Some (mk_progress (append_loaded norm (loaded st)) (Some cols))
        end
    end.

(** A sheet after the first. *)
Definition other_sheet (raw_df : list (list cell)) (st : progress) : option progress :=
  if is_empty_sheet raw_df then Some st
  else
    match header_names st with
    | None => Some st
    | Some names =>
        if negb (width raw_df =? length names)%nat then Some st
        else
          match normalize_frame names raw_df with
          | None => None
          | Some None => Some st
          | Some (Some norm) =>
              Some (mk_progress (append_loaded norm (loaded st)) (header_names st))
          end
    end.

Fixpoint other_sheets (sheets : list (list (list cell))) (st : progress) : option progress :=
  match sheets with
  | [] => Some st
  | raw_df :: rest =>
      match other_sheet raw_df st with
      | None => None
      | Some st' => other_sheets rest st'
      end
  end.

(** [load_xlsx_all_sheets] on the sheets that [pd.read_excel] returns, in
    their order: [(loaded, total, len(loaded))]. *)
Definition load_xlsx_all_sheets (all_sheets : list (list (list cell)))
  : option (list (list (record Timestamp)) * nat * nat) :=
  let total := length all_sheets in
  let final :=
    match all_sheets with
    | [] => Some (mk_progress [] None)
    | raw_df :: rest =>
        match first_sheet raw_df (mk_progress [] None) with
        | None => None
        | Some st => other_sheets rest st
        end
    end in
  match final with
  | None => None
  | Some st => Some (loaded st, total, length (loaded st))
  end.

End Loading.

Arguments mk_progress {Timestamp}.
Arguments loaded {Timestamp}.
Arguments header_names {Timestamp}.

End Workbook.

(** ** Notions used by the further properties *)

Module TokenNotions.
Import Py Re Dates.

(** A date token: two digits, a slash, two digits, a slash, two digits. *)
Definition is_date_token (s : string) : bool :=
  match s with
  | String d1 (String d2 (String s1 (String m1 (String m2
      (String s2 (String y1 (String y2 EmptyString))))))) =>
      isdigit d1 && isdigit d2 && is_slash s1 && isdigit m1 && isdigit m2
      && is_slash s2 && isdigit y1 && isdigit y2
  | _ => false
  end.

Definition two_digits (a b : ascii) : Z := 10 * digit_val a + digit_val b.

(** Day, month and two-digit year written in a date token. *)
Definition token_fields (s : string) : Z * Z * Z :=
  match s with
  | String d1 (String d2 (String _ (String m1 (String m2
      (String _ (String y1 (String y2 _))))))) =>
      (two_digits d1 d2, two_digits m1 m2, two_digits y1 y2)
  | _ => (0, 0, 0)%Z
  end.

(** Day [d] of month [m] exists in year [y]. *)
Definition calendar_day (y m d : Z) : bool :=
  ((1 <=? m) && (m <=? 12) && (1 <=? d) && (d <=? days_in_month y m))%Z.

(** The year that [%y] gives to the two digits [v]. *)
Definition pivot (v : Z) : Z := (if v <=? 68 then 2000 + v else 1900 + v)%Z.

(** A character of a plain decimal literal: a digit or the dot. *)
Definition is_literal_char (c : ascii) : bool := isdigit c || Ascii.eqb c "."%char.

(** A raw line that does not open a transaction. *)
Definition undated (raw : string) : bool :=
  match date_pattern (strip raw) with Some _ => false | None => true end.

End TokenNotions.

Module ParserNotions.
Import Py Re StatementParser ParserTables Vocabulary TokenNotions.

(** The key under which [_dedupe_and_clean] remembers a row. *)
Definition dedupe_key (r : row) : string * string * string :=
  (COL_DATE r, slice_to 80 (COL_NARRATION r), COL_BALANCE r).

(** An amount cell of a parsed row: empty, or a plain decimal literal. *)
Definition blank_or_literal (s : string) : Prop := s = EmptyString \/ decimal_literal s.

(** What every row of the text path looks like. *)
Definition text_row (r : row) : Prop :=
  is_date_token (COL_DATE r) = true /\
  COL_VALUE_DT r = COL_DATE r /\
  COL_REF r = EmptyString /\
  decimal_literal (COL_BALANCE r) /\
  blank_or_literal (COL_WITHDRAWN r) /\
  blank_or_literal (COL_DEPOSIT r).

(** The invariant of the loop of [_parse_transactions_from_text]. *)
Definition state_ok (st : state) : Prop :=
  Forall text_row (transactions st) /\
  match current st with Some c => text_row c | None => True end.

(** Every cell of the row is trimmed. *)
Definition trimmed_row (r : row) : Prop :=
  strip (COL_DATE r) = COL_DATE r /\ strip (COL_NARRATION r) = COL_NARRATION r /\
  strip (COL_REF r) = COL_REF r /\ strip (COL_VALUE_DT r) = COL_VALUE_DT r /\
  strip (COL_WITHDRAWN r) = COL_WITHDRAWN r /\ strip (COL_DEPOSIT r) = COL_DEPOSIT r /\
  strip (COL_BALANCE r) = COL_BALANCE r.

Definition table_row (r : row) : Prop :=
  date_prefix (COL_DATE r) = true /\ trimmed_row r.

End ParserNotions.

Module AnalyzerNotions.
Import Py Re Dates Analyzer.

(** What every record of [parse_transactions] keeps from the line that
    opened it; [lines] are the stripped lines of the text. *)
Definition opened_by_line (lines : list string) (t : txn) : Prop :=
  In (raw_line t) lines /\
  (exists matched, date_pattern (raw_line t) = Some (slice_to 8 (raw_line t), matched)) /\
  resolve_date (slice_to 8 (raw_line t)) = Some (date t) /\
  (2 <= length (findall_amounts (raw_line t)))%nat.

Definition analyzer_state_ok (lines : list string) (st : state) : Prop :=
  Forall (opened_by_line lines) (transactions st) /\
  match current_transaction st with
  | Some c => opened_by_line lines c
  | None => True
  end.

End AnalyzerNotions.

Module ReportNotions.
Import Py Num Dates Analyzer Reports.

(** The category that [categorize_expenses] gives to a row. *)
Definition category (row : txn) : string :=
  category_of categories (lower (description row)).

(** The rows of a category, in the order of the frame. *)
Definition members (k : string) (rows : list txn) : list txn :=
  List.filter (fun row => String.eqb (category row) k) rows.

(** The entry that the rows [rows] of one category add up to. *)
Definition total_of (rows : list txn) : cost_head :=
  fold_left (fun h row => record_row row h) rows (mk_cost_head zero 0 []).

(** The invariant of the loop of [categorize_expenses] after the rows [done]. *)
Definition tallied (done : list txn) (cost_heads : list (string * cost_head)) : Prop :=
  NoDup (map fst cost_heads) /\
  (forall k h, In (k, h) cost_heads -> members k done <> [] /\ h = total_of (members k done)) /\
  (forall k, members k done <> [] -> In k (map fst cost_heads)).

End ReportNotions.

Module OfxNotions.
Import Py Fmt Dates StatementParser Ofx.

(** The replacement of one character by [escape]. *)
Definition entity (c : ascii) : string :=
  if Ascii.eqb c "&" then "&amp;"
  else if Ascii.eqb c "<" then "&lt;"
  else if Ascii.eqb c ">" then "&gt;"
  else String c EmptyString.

(** The character [c] occurs in [s]. *)
Fixpoint occurs (c : ascii) (s : string) : bool :=
  match s with
  | EmptyString => false
  | String x s' => Ascii.eqb x c || occurs c s'
  end.

(** A date as a timestamp holds it: a year of four digits, a month and a
    day of the calendar. *)
Definition timestamp (dt : datetime) : Prop :=
  (1000 <= year dt <= 9999 /\ 1 <= month dt <= 12 /\ 1 <= day dt <= 31)%Z.

(** The identifier that [export_ofx] builds for the row at [idx]. *)
Definition fitid_of (idx : nat) (dt : datetime) : string :=
  strftime_Ymd dt +:+ zfill 6 (decimal idx).

(** Every transaction of [l] was built on an index not below [idx]. *)
Definition indexed_from (idx : nat) (l : list stmttrn) : Prop :=
  Forall (fun e => exists i dt, (idx <= i)%nat /\ timestamp dt /\ fitid e = fitid_of i dt) l.

End OfxNotions.

Module SheetNotions.
Import Py Num Dashboard Vocabulary.

(** Two rows that agree on every column but the narration. *)
Definition same_but_narration (a b : gmap string cell) : Prop :=
  forall k, k <> "narration" -> a !! k = b !! k.

(** Date and amounts of a record of [_process_norm]. *)
Definition figures {T : Type} (r : record T) : T * Num.float * Num.float * option Num.float :=
  (date r, debit r, credit r, balance r).

(** The alias lists that [_normalize_columns] looks up. *)
Definition looked_up : list (list string) :=
  [EXPECTED_date; EXPECTED_narration; EXPECTED_withdrawn; EXPECTED_deposit;
   EXPECTED_balance].

(** No frame of the list is empty. *)
Definition well_loaded {T : Type} (l : list (list (record T))) : Prop :=
  Forall (fun records => records <> []) l.

(** The narration of the row is a [str] without surrounding whitespace. *)
Definition trimmed_narration (row : gmap string cell) : Prop :=
  exists s, row !! "narration" = Some (Str s) /\ strip s = s.

End SheetNotions.

(** * Properties *)

#[local] Arguments String.append !_ _ : simpl nomatch.

(** ** Lists of tokens *)

Section Tokens.
Import Py Re.

Lemma neg_index_1 pre x3 x2 x1 : neg_index 1 (pre ++ [x3; x2; x1]) = x1.
Proof. unfold neg_index. rewrite rev_app_distr. reflexivity. Qed.

Lemma neg_index_2 pre x3 x2 x1 : neg_index 2 (pre ++ [x3; x2; x1]) = x2.
Proof. unfold neg_index. rewrite rev_app_distr. reflexivity. Qed.

Lemma neg_index_3 pre x3 x2 x1 : neg_index 3 (pre ++ [x3; x2; x1]) = x3.
Proof. unfold neg_index. rewrite rev_app_distr. reflexivity. Qed.

Lemma length_three_more (pre : list string) x3 x2 x1 :
  length (pre ++ [x3; x2; x1]) = S (S (S (length pre))).
Proof. rewrite length_app. simpl. lia. Qed.

Lemma date_pattern_nonempty line r : date_pattern line = Some r -> is_empty line = false.
Proof. destruct line; [discriminate|reflexivity]. Qed.

Lemma findall_nonempty line : findall_amounts line <> [] -> is_empty line = false.
Proof. destruct line; [intros H; exfalso; apply H|]; reflexivity. Qed.

End Tokens.

(** ** The amount pattern and [float] *)

Section AmountTokens.
Import Py Re Num Vocabulary.

Lemma span_amount_class_spec s run rest :
  span_amount_class s = (run, rest) ->
  s = run +:+ rest /\ all_chars in_amount_class run = true.
Proof.
  revert run rest. induction s as [|c s IH]; intros run rest; simpl.
  - intros [= <- <-]. auto.
  - destruct (in_amount_class c) eqn:E.
    + destruct (span_amount_class s) as [run' rest'] eqn:Es.
      intros [= <- <-]. destruct (IH run' rest' eq_refl) as [-> Hall].
      simpl. rewrite E, Hall. auto.
    + intros [= <- <-]. auto.
Qed.

Lemma amount_at_shape s tok : amount_at s = Some tok -> amount_shape tok.
Proof.
  unfold amount_at. destruct (span_amount_class s) as [run rest] eqn:Es.
  destruct (span_amount_class_spec s run rest Es) as [_ Hall].
  destruct run as [|r run]; [discriminate|].
  destruct rest as [|dot [|d1 [|d2 rest]]]; try discriminate.
  destruct (Ascii.eqb dot ".") eqn:Edot; simpl; [|discriminate].
  destruct (isdigit d1) eqn:E1; simpl; [|discriminate].
  destruct (isdigit d2) eqn:E2; simpl; [|discriminate].
  intros [= <-]. apply Ascii.eqb_eq in Edot. subst dot.
  exists (String r run), d1, d2. repeat split; auto.
Qed.

Lemma findall_from_shape skip s : Forall amount_shape (findall_from skip s).
Proof.
  revert skip. induction s as [|c s IH]; intros skip; [constructor|].
  cbn [findall_from]. destruct skip as [|k]; [|apply IH].
  destruct (amount_at (String c s)) as [tok|] eqn:E; [|apply IH].
  constructor; [exact (amount_at_shape _ _ E)|apply IH].
Qed.

(** Every token of [re.findall] has the shape of the pattern. *)
Lemma findall_amounts_shape s : Forall amount_shape (findall_amounts s).
Proof. apply findall_from_shape. Qed.

Lemma remove_commas_app a b : remove_commas (a +:+ b) = remove_commas a +:+ remove_commas b.
Proof.
  induction a as [|c a IH]; [reflexivity|]. simpl.
  destruct (Ascii.eqb c ","); simpl; rewrite IH; reflexivity.
Qed.

Lemma isdigit_not_comma c : isdigit c = true -> Ascii.eqb c "," = false.
Proof.
  intros H. destruct (Ascii.eqb c ",") eqn:E; [|reflexivity].
  apply Ascii.eqb_eq in E. subst c. discriminate H.
Qed.

Lemma remove_commas_run run :
  all_chars in_amount_class run = true -> all_chars isdigit (remove_commas run) = true.
Proof.
  induction run as [|c run IH]; [reflexivity|]. simpl.
  intros H. apply andb_true_iff in H as [Hc Hrun].
  destruct (Ascii.eqb c ",") eqn:E; [apply IH, Hrun|].
  unfold in_amount_class in Hc. rewrite E, orb_false_r in Hc.
  simpl. rewrite Hc. apply IH, Hrun.
Qed.

(** The text handed to [float] is a plain decimal literal. *)
Lemma remove_commas_literal tok : amount_shape tok -> decimal_literal (remove_commas tok).
Proof.
  intros (run & d1 & d2 & -> & _ & Hall & H1 & H2).
  exists (remove_commas run), d1, d2. rewrite remove_commas_app. simpl.
  rewrite (isdigit_not_comma d1 H1), (isdigit_not_comma d2 H2).
  repeat split; auto. apply remove_commas_run, Hall.
Qed.

Lemma isdigit_not_dot c : isdigit c = true -> Ascii.eqb c "." = false.
Proof.
  intros H. destruct (Ascii.eqb c ".") eqn:E; [|reflexivity].
  apply Ascii.eqb_eq in E. subst c. discriminate H.
Qed.

Lemma after_dot_digits ds rest :
  all_chars isdigit ds = true -> after_dot (ds +:+ String "." rest) = rest.
Proof.
  induction ds as [|c ds IH]; [reflexivity|]. simpl.
  intros H. apply andb_true_iff in H as [Hc Hds].
  rewrite (isdigit_not_dot c Hc). apply IH, Hds.
Qed.

(** On a token the value is the quotient of its digits by one hundred. *)
Lemma amount_is_hundredths tok :
  amount_shape tok ->
  amount tok =
  SFdiv prec emax (of_Z_exact (digits_acc 0 (remove_commas tok))) (of_Z_exact 100).
Proof.
  intros H. destruct (remove_commas_literal tok H) as (ds & d1 & d2 & Hs & Hds & _).
  unfold amount, float_of_str. rewrite Hs at 2. rewrite after_dot_digits by exact Hds.
  reflexivity.
Qed.

End AmountTokens.

(** ** Amount tokens on one line *)

Section AnalyzerLines.
Import Py Re Num Dates Analyzer.

Lemma analyzer_dated_three st raw date_str matched d pre x3 x2 x1 :
  is_skipped (strip raw) = false ->
  date_pattern (strip raw) = Some (date_str, matched) ->
  resolve_date date_str = Some d ->
  findall_amounts (strip raw) = pre ++ [x3; x2; x1] ->
  exists t,
    current_transaction (process_line st raw) = Some t /\
    date t = d /\ balance t = amount x1 /\ debit t = amount x2 /\
    credit t = amount x3 /\ transaction_amt t = None.
Proof.
  intros Hs Hd Hr Ha. unfold process_line.
  rewrite (date_pattern_nonempty _ _ Hd), Hs, Hd, Hr, Ha.
  rewrite length_three_more. simpl.
  eexists. split; [reflexivity|].
  unfold new_transaction. rewrite length_three_more. simpl.
  rewrite neg_index_1, neg_index_2, neg_index_3. auto.
Qed.

Lemma analyzer_continuation_three ts c raw pre x3 x2 x1 :
  is_skipped (strip raw) = false ->
  date_pattern (strip raw) = None ->
  findall_amounts (strip raw) = pre ++ [x3; x2; x1] ->
  process_line (mk_state ts (Some c)) raw =
    mk_state ts (Some (mk_txn (date c) (description c) (amount x2) (amount x3)
                              (amount x1) (transaction_amt c) (raw_line c))).
Proof.
  intros Hs Hd Ha. unfold process_line.
  rewrite (findall_nonempty (strip raw)) by (rewrite Ha; destruct pre; discriminate).
  rewrite Hs, Hd. simpl. unfold continuation. rewrite Ha.
  rewrite length_three_more. simpl.
  rewrite neg_index_1, neg_index_2, neg_index_3. reflexivity.
Qed.

Lemma analyzer_dated_two st raw date_str matched d a b :
  is_skipped (strip raw) = false ->
  date_pattern (strip raw) = Some (date_str, matched) ->
  resolve_date date_str = Some d ->
  findall_amounts (strip raw) = [a; b] ->
  exists t,
    current_transaction (process_line st raw) = Some t /\
    date t = d /\ balance t = amount b /\ transaction_amt t = Some (amount a) /\
    debit t = zero /\ credit t = zero.
Proof.
  intros Hs Hd Hr Ha. unfold process_line.
  rewrite (date_pattern_nonempty _ _ Hd), Hs, Hd, Hr, Ha. simpl.
  eexists. split; [reflexivity|]. unfold new_transaction. simpl. auto.
Qed.

End AnalyzerLines.

Section ParserLines.
Import Py Re Num Dates StatementParser.

Lemma parser_dated_three st line date_str matched pre x3 x2 x1 :
  is_skipped line = false ->
  date_pattern line = Some (date_str, matched) ->
  findall_amounts (strip (slice_from matched line)) = pre ++ [x3; x2; x1] ->
  exists r,
    current (process_line st line) = Some r /\
    COL_DATE r = date_str /\
    COL_BALANCE r = remove_commas x1 /\
    COL_DEPOSIT r = remove_commas x2 /\
    COL_WITHDRAWN r = remove_commas x3.
Proof.
  intros Hs Hd Ha. unfold process_line. rewrite Hs, Hd, Ha.
  rewrite length_three_more. simpl. eexists. split; [reflexivity|].
  unfold new_row. rewrite length_three_more. simpl.
  rewrite neg_index_1, neg_index_2, neg_index_3. auto.
Qed.

Lemma parser_continuation_three ts c line pre x3 x2 x1 :
  is_skipped line = false ->
  date_pattern line = None ->
  findall_amounts line = pre ++ [x3; x2; x1] ->
  exists r,
    process_line (mk_state ts (Some c)) line = mk_state ts (Some r) /\
    COL_DATE r = COL_DATE c /\
    COL_BALANCE r = remove_commas x1 /\
    COL_DEPOSIT r = remove_commas x2 /\
    COL_WITHDRAWN r = remove_commas x3.
Proof.
  intros Hs Hd Ha. unfold process_line. rewrite Hs, Hd. simpl.
  unfold continuation. rewrite Ha, length_three_more. simpl.
  rewrite neg_index_1, neg_index_2, neg_index_3.
  eexists. split; [reflexivity|]. auto.
Qed.

Lemma parser_dated_two st line date_str matched a b :
  is_skipped line = false ->
  date_pattern line = Some (date_str, matched) ->
  findall_amounts (strip (slice_from matched line)) = [a; b] ->
  exists r,
    current (process_line st line) = Some r /\
    COL_BALANCE r = remove_commas b /\
    (if flt (_clean_amount b) (_clean_amount a)
     then COL_WITHDRAWN r = remove_commas a /\ COL_DEPOSIT r = EmptyString
     else COL_DEPOSIT r = remove_commas a /\ COL_WITHDRAWN r = EmptyString).
Proof.
  intros Hs Hd Ha. unfold process_line. rewrite Hs, Hd, Ha. simpl.
  eexists. split; [reflexivity|]. unfold new_row. simpl.
  destruct (flt (_clean_amount b) (_clean_amount a)); simpl; auto.
Qed.

End ParserLines.

Section ThreeTokens.
Import Py Re Num Dates.

(** C1.  What the two modules do with three or more amount tokens.  On a
    dated line or a continuation line whose amount tokens end in
    [x3; x2; x1], whatever tokens [pre] come before them, the closing balance
    is [x1] in both parsers; [analyzer.py] reads the withdrawal from [x2] and
    the deposit from [x3], as the claim says, while [statement_parser.py]
    reads the withdrawal from [x3] and the deposit from [x2].  The tokens of
    [pre] reach no amount field. *)
Theorem C1_three_rightmost_tokens :
  (forall st raw date_str matched d pre x3 x2 x1,
     Analyzer.is_skipped (strip raw) = false ->
     date_pattern (strip raw) = Some (date_str, matched) ->
     Analyzer.resolve_date date_str = Some d ->
     findall_amounts (strip raw) = pre ++ [x3; x2; x1] ->
     exists t,
       Analyzer.current_transaction (Analyzer.process_line st raw) = Some t /\
       Analyzer.date t = d /\
       Analyzer.balance t = amount x1 /\
       Analyzer.debit t = amount x2 /\
       Analyzer.credit t = amount x3 /\
       Analyzer.transaction_amt t = None) /\
  (forall ts c raw pre x3 x2 x1,
     Analyzer.is_skipped (strip raw) = false ->
     date_pattern (strip raw) = None ->
     findall_amounts (strip raw) = pre ++ [x3; x2; x1] ->
     Analyzer.process_line (Analyzer.mk_state ts (Some c)) raw =
     Analyzer.mk_state ts
       (Some (Analyzer.mk_txn (Analyzer.date c) (Analyzer.description c)
                (amount x2) (amount x3) (amount x1)
                (Analyzer.transaction_amt c) (Analyzer.raw_line c)))) /\
  (forall st line date_str matched pre x3 x2 x1,
     StatementParser.is_skipped line = false ->
     date_pattern line = Some (date_str, matched) ->
     findall_amounts (strip (slice_from matched line)) = pre ++ [x3; x2; x1] ->
     exists r,
       StatementParser.current (StatementParser.process_line st line) = Some r /\
       StatementParser.COL_DATE r = date_str /\
       StatementParser.COL_BALANCE r = remove_commas x1 /\
       StatementParser.COL_DEPOSIT r = remove_commas x2 /\
       StatementParser.COL_WITHDRAWN r = remove_commas x3) /\
  (forall ts c line pre x3 x2 x1,
     StatementParser.is_skipped line = false ->
     date_pattern line = None ->
     findall_amounts line = pre ++ [x3; x2; x1] ->
     exists r,
       StatementParser.process_line (StatementParser.mk_state ts (Some c)) line
         = StatementParser.mk_state ts (Some r) /\
       StatementParser.COL_DATE r = StatementParser.COL_DATE c /\
       StatementParser.COL_BALANCE r = remove_commas x1 /\
       StatementParser.COL_DEPOSIT r = remove_commas x2 /\
       StatementParser.COL_WITHDRAWN r = remove_commas x3).
Proof.
  split; [exact analyzer_dated_three|].
  split; [exact analyzer_continuation_three|].
  split; [exact parser_dated_three|exact parser_continuation_three].
Qed.

Lemma C1_three_rightmost_tokens_witness :
  let dated_line := "01/04/23 ACCT 123.45 PAY 10.00 20.00 30.00" in
  let later_line := "REF 123.45 CHQ 1.00 2.00 3.00" in
  let c := Analyzer.mk_txn (mk_datetime 2023 4 1) "ACCT" zero zero (amount "9.00")
             None dated_line in
  let r0 := StatementParser.mk_row "01/04/23" "ACCT" "" "01/04/23" "" "" "9.00" in
  (exists t,
     Analyzer.current_transaction (Analyzer.process_line Analyzer.initial dated_line)
       = Some t /\
     Analyzer.date t = mk_datetime 2023 4 1 /\
     Analyzer.balance t = amount "30.00" /\
     Analyzer.debit t = amount "20.00" /\
     Analyzer.credit t = amount "10.00" /\
     Analyzer.transaction_amt t = None) /\
  Analyzer.process_line (Analyzer.mk_state [] (Some c)) later_line =
    Analyzer.mk_state []
      (Some (Analyzer.mk_txn (mk_datetime 2023 4 1) "ACCT" (amount "2.00")
               (amount "1.00") (amount "3.00") None dated_line)) /\
  (exists r,
     StatementParser.current
       (StatementParser.process_line StatementParser.initial dated_line) = Some r /\
     StatementParser.COL_DATE r = "01/04/23" /\
     StatementParser.COL_BALANCE r = "30.00" /\
     StatementParser.COL_DEPOSIT r = "20.00" /\
     StatementParser.COL_WITHDRAWN r = "10.00") /\
  (exists r,
     StatementParser.process_line (StatementParser.mk_state [] (Some r0)) later_line
       = StatementParser.mk_state [] (Some r) /\
     StatementParser.COL_DATE r = "01/04/23" /\
     StatementParser.COL_BALANCE r = "3.00" /\
     StatementParser.COL_DEPOSIT r = "2.00" /\
     StatementParser.COL_WITHDRAWN r = "1.00").
Proof.
  cbv zeta. destruct C1_three_rightmost_tokens as (HA & HB & HC & HD).
  split; [|split; [|split]].
  - apply (HA Analyzer.initial "01/04/23 ACCT 123.45 PAY 10.00 20.00 30.00"
              "01/04/23" 9 (mk_datetime 2023 4 1) ["123.45"] "10.00" "20.00" "30.00");
      vm_compute; reflexivity.
  - apply (HB [] (Analyzer.mk_txn (mk_datetime 2023 4 1) "ACCT" zero zero
                      (amount "9.00") None "01/04/23 ACCT 123.45 PAY 10.00 20.00 30.00")
              "REF 123.45 CHQ 1.00 2.00 3.00" ["123.45"] "1.00" "2.00" "3.00");
      vm_compute; reflexivity.
  - apply (HC StatementParser.initial "01/04/23 ACCT 123.45 PAY 10.00 20.00 30.00"
              "01/04/23" 9 ["123.45"] "10.00" "20.00" "30.00");
      vm_compute; reflexivity.
  - apply (HD [] (StatementParser.mk_row "01/04/23" "ACCT" "" "01/04/23" "" "" "9.00")
              "REF 123.45 CHQ 1.00 2.00 3.00" ["123.45"] "1.00" "2.00" "3.00");
      vm_compute; reflexivity.
Defined.

(** C1, as stated, fails on [statement_parser.py]: with the tokens
    [123.45; 10.00; 20.00; 30.00] the withdrawal is the third token from the
    right and the deposit the second, and the earlier token [123.45] is not
    kept in the narration of either parser.  On that line the two modules
    disagree: the withdrawal of the one is the deposit of the other. *)
Lemma C1_parser_reads_withdrawal_third_from_right :
  let line := "01/04/23 ACCT 123.45 PAY 10.00 20.00 30.00" in
  let amounts := findall_amounts line in
  amounts = ["123.45"; "10.00"; "20.00"; "30.00"] /\
  (exists r,
     StatementParser._parse_transactions_from_text line = [r] /\
     StatementParser.COL_WITHDRAWN r = remove_commas (neg_index 3 amounts) /\
     StatementParser.COL_DEPOSIT r = remove_commas (neg_index 2 amounts) /\
     StatementParser.COL_WITHDRAWN r <> remove_commas (neg_index 2 amounts) /\
     StatementParser.COL_DEPOSIT r <> remove_commas (neg_index 3 amounts) /\
     StatementParser.COL_NARRATION r = "ACCT") /\
  (exists t,
     Analyzer.parse_transactions line = [t] /\
     Analyzer.description t = "ACCT" /\
     contains "123.45" (Analyzer.description t) = false) /\
  (exists r t,
     StatementParser._parse_transactions_from_text line = [r] /\
     Analyzer.parse_transactions line = [t] /\
     StatementParser.COL_WITHDRAWN r = "10.00" /\
     StatementParser.COL_DEPOSIT r = "20.00" /\
     Analyzer.debit t = amount "20.00" /\
     Analyzer.credit t = amount "10.00" /\
     StatementParser.Withdrawn (StatementParser.to_dataframe_row r) = Analyzer.credit t /\
     StatementParser.Deposit (StatementParser.to_dataframe_row r) = Analyzer.debit t /\
     feq (Analyzer.debit t) (Analyzer.credit t) = false).
Proof.
  cbv zeta. split; [vm_compute; reflexivity|]. split; [|split].
  - eexists. split; [vm_compute; reflexivity|].
    repeat split; try (vm_compute; reflexivity); vm_compute; discriminate.
  - eexists. split; [vm_compute; reflexivity|]. split; vm_compute; reflexivity.
  - eexists. eexists. split; [vm_compute; reflexivity|].
    split; [vm_compute; reflexivity|]. repeat split; vm_compute; reflexivity.
Qed.

End ThreeTokens.

Section TwoTokens.
Import Py Re Num Dates.

(** C3, as amended.  On a dated line with exactly two amount tokens [a; b]
    the balance is [b] in both parsers.  [analyzer.py] keeps [a] as the
    pending amount and leaves withdrawal and deposit at zero for its second
    pass; [statement_parser.py] has no second pass and decides on the line:
    [a] is the withdrawal when it exceeds [b], the deposit otherwise. *)
Theorem C3_two_tokens :
  (forall st raw date_str matched d a b,
     Analyzer.is_skipped (strip raw) = false ->
     date_pattern (strip raw) = Some (date_str, matched) ->
     Analyzer.resolve_date date_str = Some d ->
     findall_amounts (strip raw) = [a; b] ->
     exists t,
       Analyzer.current_transaction (Analyzer.process_line st raw) = Some t /\
       Analyzer.date t = d /\
       Analyzer.balance t = amount b /\
       Analyzer.transaction_amt t = Some (amount a) /\
       Analyzer.debit t = zero /\ Analyzer.credit t = zero) /\
  (forall st line date_str matched a b,
     StatementParser.is_skipped line = false ->
     date_pattern line = Some (date_str, matched) ->
     findall_amounts (strip (slice_from matched line)) = [a; b] ->
     exists r,
       StatementParser.current (StatementParser.process_line st line) = Some r /\
       StatementParser.COL_BALANCE r = remove_commas b /\
       (if flt (StatementParser._clean_amount b) (StatementParser._clean_amount a)
        then StatementParser.COL_WITHDRAWN r = remove_commas a /\
             StatementParser.COL_DEPOSIT r = EmptyString
        else StatementParser.COL_DEPOSIT r = remove_commas a /\
             StatementParser.COL_WITHDRAWN r = EmptyString)).
Proof. split; [exact analyzer_dated_two|exact parser_dated_two]. Qed.

Lemma C3_two_tokens_witness :
  let line := "01/04/23 SALARY TRANSFER TO STAFF 50,000.00 1,00,000.00" in
  (Analyzer.is_skipped (strip line) = false /\
   date_pattern (strip line) = Some ("01/04/23", 9) /\
   Analyzer.resolve_date "01/04/23" = Some (mk_datetime 2023 4 1) /\
   findall_amounts (strip line) = ["50,000.00"; "1,00,000.00"]) /\
  (exists t,
     Analyzer.current_transaction (Analyzer.process_line Analyzer.initial line)
       = Some t /\
     Analyzer.date t = mk_datetime 2023 4 1 /\
     Analyzer.balance t = amount "1,00,000.00" /\
     Analyzer.transaction_amt t = Some (amount "50,000.00") /\
     Analyzer.debit t = zero /\ Analyzer.credit t = zero) /\
  (exists r,
     StatementParser.current (StatementParser.process_line StatementParser.initial line)
       = Some r /\
     StatementParser.COL_BALANCE r = "100000.00" /\
     StatementParser.COL_DEPOSIT r = "50000.00" /\
     StatementParser.COL_WITHDRAWN r = "").
Proof.
  cbv zeta. destruct C3_two_tokens as (HA & HB).
  split; [repeat split; vm_compute; reflexivity|]. split.
  - apply (HA Analyzer.initial "01/04/23 SALARY TRANSFER TO STAFF 50,000.00 1,00,000.00"
              "01/04/23" 9 (mk_datetime 2023 4 1) "50,000.00" "1,00,000.00");
      vm_compute; reflexivity.
  - destruct (HB StatementParser.initial
                "01/04/23 SALARY TRANSFER TO STAFF 50,000.00 1,00,000.00"
                "01/04/23" 9 "50,000.00" "1,00,000.00")
      as (r & Hr & Hb & Hsign); try (vm_compute; reflexivity).
    exists r. split; [exact Hr|]. split; [exact Hb|]. exact Hsign.
Defined.

(** C3, as stated, fails on [statement_parser.py]: the two-token line sets the
    deposit (or the withdrawal) at once, from the comparison of the two
    tokens, and no later pass revisits it. *)
Lemma C3_parser_decides_on_the_line :
  (exists r,
     StatementParser._parse_transactions_from_text
       "01/04/23 SALARY TRANSFER TO STAFF 50,000.00 1,00,000.00" = [r] /\
     StatementParser.COL_DEPOSIT r = "50000.00" /\
     StatementParser.COL_WITHDRAWN r = "" /\
     StatementParser.Deposit (StatementParser.to_dataframe_row r) = of_Z 50000 /\
     feq (StatementParser.Deposit (StatementParser.to_dataframe_row r)) zero = false) /\
  (exists r,
     StatementParser._parse_transactions_from_text
       "02/04/23 ATM CASH 5,000.00 1,000.00" = [r] /\
     StatementParser.COL_WITHDRAWN r = "5000.00" /\
     StatementParser.COL_DEPOSIT r = "" /\
     feq (StatementParser.Withdrawn (StatementParser.to_dataframe_row r)) zero = false).
Proof.
  split; eexists; (split; [vm_compute; reflexivity|]); repeat split; vm_compute; reflexivity.
Qed.

End TwoTokens.

(** ** The balance-delta second pass *)

Section SecondPass.
Import Py Re Num Dates Analyzer Vocabulary.

Lemma backfill_balance p t : balance (backfill p t) = balance t.
Proof.
  unfold backfill. destruct (transaction_amt t); [|reflexivity].
  destruct (feq (debit t) zero && feq (credit t) zero); [|reflexivity].
  destruct p as [pb|]; simpl; [|reflexivity].
  destruct (flt (fsub (balance t) pb) zero); reflexivity.
Qed.

Lemma backfill_frame p t :
  date (backfill p t) = date t /\ description (backfill p t) = description t /\
  raw_line (backfill p t) = raw_line t.
Proof.
  unfold backfill. destruct (transaction_amt t); [|auto].
  destruct (feq (debit t) zero && feq (credit t) zero); [|auto].
  destruct p as [pb|]; simpl; [|auto].
  destruct (flt (fsub (balance t) pb) zero); auto.
Qed.

Lemma prev_after_cons p x pre :
  prev_after p (x :: pre) = prev_after (Some (balance x)) pre.
Proof.
  unfold prev_after. destruct pre as [|y pre]; [reflexivity|].
  rewrite last_cons. destruct (last (y :: pre)); reflexivity.
Qed.

Lemma second_pass_app p pre rest :
  second_pass p (pre ++ rest) =
  second_pass p pre ++ second_pass (prev_after p pre) rest.
Proof.
  revert p. induction pre as [|x pre IH]; intros p; [reflexivity|].
  simpl. rewrite IH, backfill_balance, prev_after_cons. reflexivity.
Qed.

Lemma second_pass_length p l : length (second_pass p l) = length l.
Proof.
  revert p. induction l as [|x l IH]; intros p; simpl; [|rewrite IH]; reflexivity.
Qed.

Lemma second_pass_nth p pre t post :
  nth_error (second_pass p (pre ++ t :: post)) (length pre) =
  Some (backfill (prev_after p pre) t).
Proof.
  rewrite second_pass_app. simpl.
  rewrite nth_error_app2; rewrite second_pass_length; [|lia].
  rewrite Nat.sub_diag. reflexivity.
Qed.

Lemma flt_zero_not_feq x : flt zero x = true -> feq x zero = false.
Proof. destruct x as [s|s| |s m e]; try destruct s; simpl; cbv; congruence. Qed.

Lemma backfill_pending_none t amt :
  transaction_amt t = Some amt ->
  feq (debit t) zero = true -> feq (credit t) zero = true ->
  backfill None t = with_transaction_amt None (with_debit amt t).
Proof. intros Ha Hd Hc. unfold backfill. rewrite Ha, Hd, Hc. reflexivity. Qed.

Lemma backfill_pending_some t amt pb :
  transaction_amt t = Some amt ->
  feq (debit t) zero = true -> feq (credit t) zero = true ->
  backfill (Some pb) t =
  with_transaction_amt None
    (if flt (fsub (balance t) pb) zero
     then with_debit (fabs (fsub (balance t) pb)) t
     else with_credit (fabs (fsub (balance t) pb)) t).
Proof. intros Ha Hd Hc. unfold backfill. rewrite Ha, Hd, Hc. reflexivity. Qed.

Lemma sorted_frame_members texts out :
  sort_values_date (all_transactions texts) out ->
  forall r, In r out <-> exists text, In text texts /\ In r (parse_transactions text).
Proof.
  intros [HP _] r. unfold all_transactions in HP. rewrite <- in_flat_map. split.
  - apply Permutation_in. symmetry. exact HP.
  - apply Permutation_in. exact HP.
Qed.

(** C2, as amended.  The second pass runs inside [parse_transactions], over
    the records of one text in source line order, and [load_data] sorts by
    date only afterwards, without touching the amounts.  For a record [t]
    that the first pass left with a pending amount and zero withdrawal and
    deposit, the predecessor is the record before it in the text: with
    [delta = balance t - balance p] the withdrawal becomes [abs delta] when
    [delta < 0], otherwise the deposit becomes [abs delta]; with no
    predecessor the withdrawal becomes the pending amount.  The single line
    of the scenario gives withdrawal 50000.00 and balance 100000.00. *)
Theorem C2_backfill_in_source_order :
  (forall text pre t post amt,
     first_pass text = pre ++ t :: post ->
     transaction_amt t = Some amt ->
     feq (debit t) zero = true -> feq (credit t) zero = true ->
     exists t',
       nth_error (parse_transactions text) (length pre) = Some t' /\
       date t' = date t /\ description t' = description t /\
       balance t' = balance t /\ transaction_amt t' = None /\
       match last pre with
       | Some p =>
           let delta := fsub (balance t) (balance p) in
           if flt delta zero
           then debit t' = fabs delta /\ credit t' = credit t
           else credit t' = fabs delta /\ debit t' = debit t
       | None => debit t' = amt /\ credit t' = credit t
       end) /\
  (forall texts out,
     sort_values_date (all_transactions texts) out ->
     forall r, In r out <-> exists text, In text texts /\ In r (parse_transactions text)) /\
  parse_transactions "01/04/23 SALARY TRANSFER TO STAFF 50,000.00 1,00,000.00" =
    [ mk_txn (mk_datetime 2023 4 1) "SALARY TRANSFER TO STAFF"
             (of_Z 50000) zero (of_Z 100000) None
             "01/04/23 SALARY TRANSFER TO STAFF 50,000.00 1,00,000.00" ].
Proof.
  split; [|split; [exact sorted_frame_members|vm_compute; reflexivity]].
  intros text pre t post amt Hf Ha Hd Hc.
  unfold parse_transactions. rewrite Hf, second_pass_nth.
  eexists. split; [reflexivity|].
  destruct (backfill_frame (prev_after None pre) t) as (H1 & H2 & _).
  rewrite backfill_balance. repeat (split; [assumption || reflexivity|]).
  unfold prev_after. destruct (last pre) as [p|].
  - rewrite (backfill_pending_some t amt (balance p)) by assumption.
    simpl. destruct (flt (fsub (balance t) (balance p)) zero); simpl; auto.
  - rewrite (backfill_pending_none t amt) by assumption. simpl. auto.
Qed.

Lemma C2_backfill_in_source_order_witness :
  let text := "01/04/23 OPENING 10.00 20.00 100.00"
              +:+ String newline "02/04/23 UPI-RAMESH 30.00 70.00" in
  let t1 := mk_txn (mk_datetime 2023 4 1) "OPENING" (amount "20.00") (amount "10.00")
              (amount "100.00") None "01/04/23 OPENING 10.00 20.00 100.00" in
  let t2 := mk_txn (mk_datetime 2023 4 2) "UPI-RAMESH" zero zero (amount "70.00")
              (Some (amount "30.00")) "02/04/23 UPI-RAMESH 30.00 70.00" in
  first_pass text = [t1] ++ t2 :: [] /\
  flt (fsub (balance t2) (balance t1)) zero = true /\
  exists t',
    nth_error (parse_transactions text) 1 = Some t' /\
    debit t' = fabs (fsub (amount "70.00") (amount "100.00")) /\
    debit t' = of_Z 30 /\ credit t' = zero /\ balance t' = amount "70.00".
Proof.
  cbv zeta. destruct C2_backfill_in_source_order as (H & _ & _).
  split; [vm_compute; reflexivity|]. split; [vm_compute; reflexivity|].
  destruct (H ("01/04/23 OPENING 10.00 20.00 100.00"
               +:+ String newline "02/04/23 UPI-RAMESH 30.00 70.00")
              [mk_txn (mk_datetime 2023 4 1) "OPENING" (amount "20.00") (amount "10.00")
                 (amount "100.00") None "01/04/23 OPENING 10.00 20.00 100.00"]
              (mk_txn (mk_datetime 2023 4 2) "UPI-RAMESH" zero zero (amount "70.00")
                 (Some (amount "30.00")) "02/04/23 UPI-RAMESH 30.00 70.00")
              [] (amount "30.00"))
    as (t' & Hn & _ & _ & Hb & _ & Hm); try (vm_compute; reflexivity).
  exists t'. split; [exact Hn|].
  cbn [last] in Hm. cbv zeta in Hm. cbn [balance] in Hm.
  replace (flt (fsub (amount "70.00") (amount "100.00")) zero) with true in Hm
    by (vm_compute; reflexivity).
  destruct Hm as [Hdeb Hcre].
  split; [exact Hdeb|]. split; [rewrite Hdeb; vm_compute; reflexivity|].
  split; [exact Hcre|exact Hb].
Defined.

(** C2, as stated, fails: the pass does not wait for the date order.  With
    the later date first in the text, the record of 2 April has no predecessor
    in the text and becomes a withdrawal of its pending amount; after a sort by
    date its predecessor would be the record of 1 April and it would be a
    deposit of the balance difference. *)
Lemma C2_backfill_precedes_the_date_sort :
  let text := "02/04/23 A 10.00 100.00" +:+ String newline "01/04/23 B 10.00 90.00" in
  parse_transactions text =
    [ mk_txn (mk_datetime 2023 4 2) "A" (amount "10.00") zero (amount "100.00") None
             "02/04/23 A 10.00 100.00";
      mk_txn (mk_datetime 2023 4 1) "B" (amount "10.00") zero (amount "90.00") None
             "01/04/23 B 10.00 90.00" ] /\
  SpecWording.backfill_after_sort text =
    [ mk_txn (mk_datetime 2023 4 1) "B" (amount "10.00") zero (amount "90.00") None
             "01/04/23 B 10.00 90.00";
      mk_txn (mk_datetime 2023 4 2) "A" zero (amount "10.00") (amount "100.00") None
             "02/04/23 A 10.00 100.00" ] /\
  ~ Permutation (parse_transactions text) (SpecWording.backfill_after_sort text).
Proof.
  cbv zeta. split; [vm_compute; reflexivity|]. split; [vm_compute; reflexivity|].
  intros HP.
  assert (Hin : In (mk_txn (mk_datetime 2023 4 2) "A" (amount "10.00") zero
                      (amount "100.00") None "02/04/23 A 10.00 100.00")
                   (SpecWording.backfill_after_sort
                      ("02/04/23 A 10.00 100.00"
                       +:+ String newline "01/04/23 B 10.00 90.00"))).
  { eapply Permutation_in; [exact HP|]. vm_compute. left. reflexivity. }
  vm_compute in Hin. destruct Hin as [H|[H|[]]]; discriminate H.
Qed.







End SecondPass.

(** ** Texts, hyphens and trimming *)

Section Strings.
Import Py Vocabulary.

Lemma app_assoc_s (a b c : string) : (a +:+ b) +:+ c = a +:+ (b +:+ c).
Proof. induction a as [|x a IH]; simpl; [|rewrite IH]; reflexivity. Qed.

Lemma length_app_s (a b : string) :
  String.length (a +:+ b) = String.length a + String.length b.
Proof. induction a as [|x a IH]; simpl; [|rewrite IH]; reflexivity. Qed.

Lemma prefix_split p s : String.prefix p s = true -> exists rest, s = p +:+ rest.
Proof.
  revert s. induction p as [|c p IH]; intros s H.
  - exists s. reflexivity.
  - destruct s as [|d s]; simpl in H; [discriminate|].
    destruct (ascii_dec c d) as [->|]; [|discriminate].
    destruct (IH s H) as [rest ->]. exists rest. reflexivity.
Qed.

Lemma prefix_app p rest : String.prefix p (p +:+ rest) = true.
Proof.
  induction p as [|c p IH]; simpl; [destruct rest; reflexivity|].
  destruct (ascii_dec c c); [assumption|congruence].
Qed.

Lemma rstrip_cons_nonspace c s :
  isspace c = false -> rstrip (String c s) = String c (rstrip s).
Proof. intros H. simpl. rewrite H. destruct (rstrip s); reflexivity. Qed.

Lemma rstrip_app_nonspace a c t :
  isspace c = false -> rstrip (a +:+ String c t) = a +:+ String c (rstrip t).
Proof.
  intros H. induction a as [|x a IH]; [apply rstrip_cons_nonspace, H|].
  change (String x a +:+ String c t) with (String x (a +:+ String c t)).
  cbn [rstrip]. rewrite IH. destruct a; reflexivity.
Qed.

Lemma strip_cons_nonspace c s :
  isspace c = false -> strip (String c s) = String c (rstrip s).
Proof.
  intros H. unfold strip. rewrite rstrip_cons_nonspace by exact H.
  simpl. rewrite H. reflexivity.
Qed.

Lemma hyphens_app a b : hyphens (a +:+ b) = hyphens a + hyphens b.
Proof. induction a as [|x a IH]; simpl; [|rewrite IH; lia]; reflexivity. Qed.

Lemma isspace_not_hyphen c : isspace c = true -> Ascii.eqb c hyphen = false.
Proof.
  intros H. destruct (Ascii.eqb c hyphen) eqn:E; [|reflexivity].
  apply Ascii.eqb_eq in E. subst c. discriminate H.
Qed.

Lemma hyphens_lstrip s : hyphens (lstrip s) = hyphens s.
Proof.
  induction s as [|c s IH]; [reflexivity|]. simpl.
  destruct (isspace c) eqn:E; [|reflexivity].
  rewrite IH, (isspace_not_hyphen c E). reflexivity.
Qed.

Lemma hyphens_rstrip s : hyphens (rstrip s) = hyphens s.
Proof.
  induction s as [|c s IH]; [reflexivity|]. cbn [rstrip].
  destruct (rstrip s) as [|d r] eqn:E.
  - destruct (isspace c) eqn:Ec; cbn [hyphens]; rewrite <- IH; simpl.
    + rewrite (isspace_not_hyphen c Ec). reflexivity.
    + lia.
  - cbn [hyphens]. rewrite <- IH. reflexivity.
Qed.

Lemma hyphens_strip s : hyphens (strip s) = hyphens s.
Proof. unfold strip. rewrite hyphens_lstrip, hyphens_rstrip. reflexivity. Qed.

Lemma prefix_empty s : String.prefix EmptyString s = true.
Proof. destruct s; reflexivity. Qed.

Lemma prefix_hyphen c s : String.prefix "-" (String c s) = Ascii.eqb c hyphen.
Proof.
  cbn [String.prefix]. destruct (ascii_dec "-"%char c) as [<-|Hn].
  - apply prefix_empty.
  - symmetry. apply Ascii.eqb_neq. unfold hyphen. congruence.
Qed.

Lemma index_skip a k sub t :
  String.index (String.length a + k) sub (a +:+ t) =
  option_map (Nat.add (String.length a)) (String.index k sub t).
Proof.
  induction a as [|x a IH]; simpl.
  - destruct (String.index k sub t); reflexivity.
  - rewrite IH. destruct (String.index k sub t); reflexivity.
Qed.

Lemma index_first_hyphen a t :
  hyphens a = 0 -> String.index 0 "-" (a +:+ String hyphen t) = Some (String.length a).
Proof.
  induction a as [|x a IH]; intros H.
  - cbn [String.append String.index]. rewrite prefix_hyphen. reflexivity.
  - cbn [hyphens] in H. destruct (Ascii.eqb x hyphen) eqn:E; [discriminate|].
    cbn [String.append String.index]. rewrite prefix_hyphen, E, IH by exact H.
    reflexivity.
Qed.

Lemma index_no_hyphen s k : hyphens s = 0 -> String.index k "-" s = None.
Proof.
  revert k. induction s as [|x s IH]; intros k H.
  - destruct k; reflexivity.
  - cbn [hyphens] in H. destruct (Ascii.eqb x hyphen) eqn:E; [discriminate|].
    destruct k; cbn [String.index].
    + rewrite prefix_hyphen, E, IH by exact H. reflexivity.
    + rewrite IH by exact H. reflexivity.
Qed.

Lemma hyphen_split s :
  hyphens s = 0 \/
  exists a t, s = a +:+ String hyphen t /\ hyphens a = 0 /\ hyphens s = S (hyphens t).
Proof.
  induction s as [|x s IH]; [left; reflexivity|].
  simpl. destruct (Ascii.eqb x hyphen) eqn:E.
  - right. apply Ascii.eqb_eq in E. subst x.
    exists EmptyString, s. auto.
  - destruct IH as [H|(a & t & -> & Ha & Hs)]; [left; exact H|].
    right. exists (String x a), t. simpl. rewrite E. auto.
Qed.

Lemma substring_prefix x y : String.substring 0 (String.length x) (x +:+ y) = x.
Proof.
  induction x as [|c x IH]; simpl; [destruct y; reflexivity|rewrite IH; reflexivity].
Qed.

Lemma substring_skip x m y :
  String.substring (String.length x) m (x +:+ y) = String.substring 0 m y.
Proof. induction x as [|c x IH]; simpl; [reflexivity|exact IH]. Qed.

End Strings.

(** ** Counterparty identifiers *)

Section Customers.
Import Py Dashboard Vocabulary.

(** The identifier of a UPI or NEFT narration, once the prefix test passed. *)
Lemma before_second_hyphen a b r :
  hyphens a = 0 -> hyphens b = 0 ->
  let m := a +:+ "-" +:+ b +:+ "-" +:+ r in
  find "-" m 0 = Some (String.length a) /\
  find "-" m (String.length a + 1) = Some (String.length a + 1 + String.length b) /\
  slice_to (String.length a + 1 + String.length b) m = a +:+ "-" +:+ b.
Proof.
  intros Ha Hb m. unfold find, slice_to. subst m. split; [|split].
  - apply (index_first_hyphen a _ Ha).
  - replace (a +:+ "-" +:+ b +:+ "-" +:+ r) with ((a +:+ "-") +:+ (b +:+ "-" +:+ r))
      by (rewrite app_assoc_s; reflexivity).
    replace (String.length a + 1) with (String.length (a +:+ "-") + 0)
      by (rewrite length_app_s; simpl; lia).
    rewrite index_skip. change (b +:+ "-" +:+ r) with (b +:+ String hyphen r).
    rewrite (index_first_hyphen b _ Hb). simpl. f_equal.
    rewrite length_app_s. simpl. lia.
  - replace (a +:+ "-" +:+ b +:+ "-" +:+ r) with ((a +:+ "-" +:+ b) +:+ ("-" +:+ r))
      by (rewrite !app_assoc_s; reflexivity).
    replace (String.length a + 1 + String.length b) with (String.length (a +:+ "-" +:+ b))
      by (rewrite !length_app_s; simpl; lia).
    apply substring_prefix.
Qed.

Lemma fewer_than_two_hyphens m :
  hyphens m < 2 ->
  match find "-" m 0 with
  | None => Some m
  | Some first =>
      match find "-" m (first + 1) with
      | None => Some m
      | Some second => Some (slice_to second m)
      end
  end = Some m.
Proof.
  intros H. unfold find.
  destruct (hyphen_split m) as [H0|(a & t & -> & Ha & Hs)].
  - rewrite (index_no_hyphen m 0 H0). reflexivity.
  - rewrite (index_first_hyphen a t Ha).
    replace (a +:+ String hyphen t) with ((a +:+ "-") +:+ t)
      by (rewrite app_assoc_s; reflexivity).
    replace (String.length a + 1) with (String.length (a +:+ "-") + 0)
      by (rewrite length_app_s; simpl; lia).
    rewrite index_skip, (index_no_hyphen t 0); [reflexivity|].
    rewrite Hs in H. lia.
Qed.

Lemma strip_is_rstrip c s : isspace c = false -> strip (String c s) = rstrip (String c s).
Proof.
  intros H. rewrite strip_cons_nonspace, rstrip_cons_nonspace by exact H. reflexivity.
Qed.

Lemma prefix_map_chars f p s :
  String.prefix p s = true -> String.prefix (map_chars f p) (map_chars f s) = true.
Proof.
  intros H. destruct (prefix_split p s H) as [rest ->]. clear H.
  induction p as [|c p IH]; simpl; [apply prefix_empty|].
  destruct (ascii_dec (f c) (f c)); [exact IH|congruence].
Qed.

Lemma prefix_rstrip p c s :
  isspace c = false ->
  String.prefix (p +:+ String c EmptyString) s = true ->
  String.prefix (p +:+ String c EmptyString) (rstrip s) = true.
Proof.
  intros Hc H. destruct (prefix_split _ _ H) as [rest ->].
  rewrite app_assoc_s. simpl. rewrite rstrip_app_nonspace by exact Hc.
  replace (p +:+ String c (rstrip rest)) with ((p +:+ String c EmptyString) +:+ rstrip rest)
    by (rewrite app_assoc_s; reflexivity).
  apply prefix_app.
Qed.


Lemma prefix_head x p s :
  String.prefix (String x p) s = true -> exists s0, s = String x s0.
Proof.
  intros H. destruct (prefix_split _ _ H) as [rest ->]. exists (p +:+ rest). reflexivity.
Qed.

(** The prefix test of the three functions on a narration that begins with
    the prefix as written. *)
Lemma prefix_test x p c n :
  isspace x = false -> isspace c = false ->
  map_chars upper_char (String x p +:+ String c EmptyString)
    = String x p +:+ String c EmptyString ->
  startswith n (String x p +:+ String c EmptyString) = true ->
  strip n = rstrip n /\
  startswith (upper (strip n)) (String x p +:+ String c EmptyString) = true.
Proof.
  unfold startswith. intros Hx Hc Hup H.
  assert (Hs : strip n = rstrip n).
  { destruct (prefix_split _ _ H) as [rest ->]. simpl. apply strip_is_rstrip, Hx. }
  split; [exact Hs|]. rewrite Hs, <- Hup. apply prefix_map_chars.
  apply prefix_rstrip; assumption.
Qed.

Lemma rstrip_two_hyphens a b rest :
  rstrip (a +:+ "-" +:+ b +:+ "-" +:+ rest) = a +:+ "-" +:+ b +:+ "-" +:+ rstrip rest.
Proof.
  replace (a +:+ "-" +:+ b +:+ "-" +:+ rest) with ((a +:+ "-" +:+ b) +:+ String hyphen rest)
    by (rewrite !app_assoc_s; reflexivity).
  rewrite rstrip_app_nonspace by reflexivity. rewrite !app_assoc_s. reflexivity.
Qed.

Lemma upi_like_two n a b rest :
  strip n = rstrip n ->
  n = a +:+ "-" +:+ b +:+ "-" +:+ rest -> hyphens a = 0 -> hyphens b = 0 ->
  match find "-" (strip n) 0 with
  | None => Some (strip n)
  | Some first =>
      match find "-" (strip n) (first + 1) with
      | None => Some (strip n)
      | Some second => Some (slice_to second (strip n))
      end
  end = Some (a +:+ "-" +:+ b).
Proof.
  intros Hs -> Ha Hb. rewrite Hs, rstrip_two_hyphens.
  destruct (before_second_hyphen a b (rstrip rest) Ha Hb) as (H1 & H2 & H3).
  rewrite H1, H2, H3. reflexivity.
Qed.

Lemma imps_three n a b c rest :
  strip n = rstrip n ->
  n = a +:+ "-" +:+ b +:+ "-" +:+ c +:+ "-" +:+ rest ->
  hyphens a = 0 -> hyphens b = 0 -> hyphens c = 0 ->
  match find "-" (strip n) 0 with
  | None => Some (strip n)
  | Some first =>
      match find "-" (strip n) (first + 1) with
      | None => Some (strip n)
      | Some second =>
          match find "-" (strip n) (second + 1) with
          | None => Some (strip n)
          | Some third => Some (slice (second + 1) third (strip n))
          end
      end
  end = Some c.
Proof.
  intros Hs -> Ha Hb Hc. rewrite Hs.
  replace (a +:+ "-" +:+ b +:+ "-" +:+ c +:+ "-" +:+ rest)
    with ((a +:+ "-" +:+ b +:+ "-" +:+ c) +:+ String hyphen rest)
    by (rewrite !app_assoc_s; reflexivity).
  rewrite rstrip_app_nonspace by reflexivity.
  replace ((a +:+ "-" +:+ b +:+ "-" +:+ c) +:+ String hyphen (rstrip rest))
    with (a +:+ "-" +:+ b +:+ "-" +:+ (c +:+ "-" +:+ rstrip rest))
    by (rewrite !app_assoc_s; reflexivity).
  destruct (before_second_hyphen a b (c +:+ "-" +:+ rstrip rest) Ha Hb) as (H1 & H2 & _).
  rewrite H1, H2. unfold find, slice.
  set (second := String.length a + 1 + String.length b).
  replace (a +:+ "-" +:+ b +:+ "-" +:+ c +:+ "-" +:+ rstrip rest)
    with ((a +:+ "-" +:+ b +:+ "-") +:+ (c +:+ String hyphen (rstrip rest)))
    by (rewrite !app_assoc_s; reflexivity).
  assert (Hl : second + 1 = String.length (a +:+ "-" +:+ b +:+ "-")).
  { unfold second. rewrite !length_app_s. simpl. lia. }
  rewrite Hl. clear Hl H1 H2. clearbody second.
  set (X := a +:+ "-" +:+ b +:+ "-").
  pose proof (index_skip X 0 "-" (c +:+ String hyphen (rstrip rest))) as Hi.
  rewrite Nat.add_0_r, (index_first_hyphen c _ Hc) in Hi. simpl in Hi.
  rewrite Hi, substring_skip.
  replace (String.length X + String.length c - String.length X)
    with (String.length c) by lia.
  rewrite substring_prefix. reflexivity.
Qed.

Lemma fewer_than_three_hyphens m :
  hyphens m < 3 ->
  match find "-" m 0 with
  | None => Some m
  | Some first =>
      match find "-" m (first + 1) with
      | None => Some m
      | Some second =>
          match find "-" m (second + 1) with
          | None => Some m
          | Some third => Some (slice (second + 1) third m)
          end
      end
  end = Some m.
Proof.
  intros H.
  destruct (hyphen_split m) as [H0|(a & t & -> & Ha & Hs)].
  - unfold find. rewrite (index_no_hyphen m 0 H0). reflexivity.
  - destruct (hyphen_split t) as [H0|(b & u & -> & Hb & Hu)].
    + unfold find. rewrite (index_first_hyphen a t Ha).
      replace (a +:+ String hyphen t) with ((a +:+ "-") +:+ t)
        by (rewrite app_assoc_s; reflexivity).
      replace (String.length a + 1) with (String.length (a +:+ "-") + 0)
        by (rewrite length_app_s; simpl; lia).
      rewrite index_skip, (index_no_hyphen t 0 H0). reflexivity.
    + destruct (before_second_hyphen a b u Ha Hb) as (H1 & H2 & _).
      change (a +:+ String hyphen (b +:+ String hyphen u))
        with (a +:+ "-" +:+ b +:+ "-" +:+ u).
      rewrite H1, H2. unfold find.
      replace (a +:+ "-" +:+ b +:+ "-" +:+ u) with ((a +:+ "-" +:+ b +:+ "-") +:+ u)
        by (rewrite !app_assoc_s; reflexivity).
      replace (String.length a + 1 + String.length b + 1)
        with (String.length (a +:+ "-" +:+ b +:+ "-") + 0)
        by (rewrite !length_app_s; simpl; lia).
      rewrite index_skip, (index_no_hyphen u 0); [reflexivity|].
      rewrite Hs, Hu in H. lia.
Qed.

(** The identifiers on any text: the functions trim the narration first, so
    that with too few hyphens the identifier is the trimmed narration. *)
Lemma counterparty_identifier_of_text :
  (forall n, startswith n "UPI" = true ->
     (forall a b rest, n = a +:+ "-" +:+ b +:+ "-" +:+ rest ->
        hyphens a = 0 -> hyphens b = 0 ->
        _upi_customer_id (Str n) = Some (a +:+ "-" +:+ b)) /\
     (hyphens n < 2 -> _upi_customer_id (Str n) = Some (strip n))) /\
  (forall n, startswith n "NEFT" = true ->
     (forall a b rest, n = a +:+ "-" +:+ b +:+ "-" +:+ rest ->
        hyphens a = 0 -> hyphens b = 0 ->
        _neft_customer_id (Str n) = Some (a +:+ "-" +:+ b)) /\
     (hyphens n < 2 -> _neft_customer_id (Str n) = Some (strip n))) /\
  (forall n, startswith n "IMPS" = true ->
     (forall a b c rest, n = a +:+ "-" +:+ b +:+ "-" +:+ c +:+ "-" +:+ rest ->
        hyphens a = 0 -> hyphens b = 0 -> hyphens c = 0 ->
        _imps_customer_id (Str n) = Some c) /\
     (hyphens n < 3 -> _imps_customer_id (Str n) = Some (strip n))) /\
  _imps_customer_id (Str "IMPS-506016885554-REKHA MITTAL-SBIN-XXXXXXX4686-MILK PAYMENT")
    = Some "REKHA MITTAL".
Proof.
  split; [|split; [|split; [|vm_compute; reflexivity]]].
  - intros n Hp.
    destruct (prefix_test "U" "P" "I" n eq_refl eq_refl eq_refl Hp) as [Hs Hu].
    unfold _upi_customer_id. cbn [text_of isna str]. 
    change "UPI" with (String "U" "P" +:+ String "I" EmptyString). rewrite Hu. cbn [negb].
    split.
    + intros a b rest Hn Ha Hb. apply (upi_like_two n a b rest Hs Hn Ha Hb).
    + intros H. apply fewer_than_two_hyphens. rewrite hyphens_strip. exact H.
  - intros n Hp.
    destruct (prefix_test "N" "EF" "T" n eq_refl eq_refl eq_refl Hp) as [Hs Hu].
    unfold _neft_customer_id. cbn [text_of isna str].
    change "NEFT" with (String "N" "EF" +:+ String "T" EmptyString). rewrite Hu. cbn [negb].
    split.
    + intros a b rest Hn Ha Hb. apply (upi_like_two n a b rest Hs Hn Ha Hb).
    + intros H. apply fewer_than_two_hyphens. rewrite hyphens_strip. exact H.
  - intros n Hp.
    destruct (prefix_test "I" "MP" "S" n eq_refl eq_refl eq_refl Hp) as [Hs Hu].
    unfold _imps_customer_id. cbn [text_of isna str].
    change "IMPS" with (String "I" "MP" +:+ String "S" EmptyString). rewrite Hu. cbn [negb].
    split.
    + intros a b c rest Hn Ha Hb Hc. apply (imps_three n a b c rest Hs Hn Ha Hb Hc).
    + intros H. apply fewer_than_three_hyphens. rewrite hyphens_strip. exact H.
Qed.

(** On a text that ends in whitespace, which no loaded narration does, the
    identifier is the trimmed text. *)
Remark identifier_of_untrimmed_text :
  startswith "UPI-PAYMENT " "UPI" = true /\
  hyphens "UPI-PAYMENT " = 1 /\
  _upi_customer_id (Str "UPI-PAYMENT ") = Some "UPI-PAYMENT" /\
  _upi_customer_id (Str "UPI-PAYMENT ") <> Some "UPI-PAYMENT ".
Proof. repeat split; try (vm_compute; reflexivity). vm_compute. discriminate. Qed.

End Customers.

(** ** Cost heads *)

Section CostHeads.
Import Py Num Dashboard Vocabulary.

Lemma select_mask {T : Type} (df : list (record T)) :
  select df (_expense_mask df) = List.filter is_expense df.
Proof.
  induction df as [|r df IH]; [reflexivity|].
  simpl. rewrite IH. reflexivity.
Qed.

Lemma any_keyword_true keywords text :
  any_keyword keywords text = true <->
  exists kw, In kw keywords /\ contains (lower kw) text = true.
Proof. unfold any_keyword. apply existsb_exists. Qed.

Lemma any_keyword_false keywords text :
  (forall kw, In kw keywords -> contains (lower kw) text = false) ->
  any_keyword keywords text = false.
Proof.
  intros H. destruct (any_keyword keywords text) eqn:E; [|reflexivity].
  apply any_keyword_true in E. destruct E as (kw & Hin & Hc).
  rewrite (H kw Hin) in Hc. discriminate.
Qed.

Lemma first_cost_head_first pre name keywords post text :
  (forall n ks, In (n, ks) pre -> any_keyword ks text = false) ->
  any_keyword keywords text = true ->
  first_cost_head (pre ++ (name, keywords) :: post) text = name.
Proof.
  induction pre as [|[n ks] pre IH]; intros Hpre Hk; simpl.
  - rewrite Hk. reflexivity.
  - rewrite (Hpre n ks) by (left; reflexivity).
    apply IH; [|assumption]. intros n' ks' Hin. apply (Hpre n' ks'). right. exact Hin.
Qed.

Lemma first_cost_head_none table text :
  (forall n ks, In (n, ks) table -> any_keyword ks text = false) ->
  first_cost_head table text = "Other".
Proof.
  induction table as [|[n ks] table IH]; intros H; simpl; [reflexivity|].
  rewrite (H n ks) by (left; reflexivity).
  apply IH. intros n' ks' Hin. apply (H n' ks'). right. exact Hin.
Qed.

(** A table none of whose keywords occurs in [text], checked by evaluation. *)
Lemma no_keyword_by_evaluation (table : list (string * list string)) text :
  forallb (fun p => negb (any_keyword (snd p) text)) table = true ->
  forall n ks kw, In (n, ks) table -> In kw ks -> contains (lower kw) text = false.
Proof.
  intros H n ks kw Hin Hkw. rewrite forallb_forall in H.
  specialize (H (n, ks) Hin). simpl in H. apply negb_true_iff in H.
  destruct (contains (lower kw) text) eqn:E; [|reflexivity].
  assert (any_keyword ks text = true) by (apply any_keyword_true; eauto). congruence.
Qed.

(** C5, as amended.  The rows given a cost head are, in order, the rows with
    debit above zero whose narration, trimmed and upper-cased, does not start
    with "NEFT DR-CNRB0002374".  Each gets one label: the name of the first
    entry of the table with a keyword that, lower-cased, occurs in the
    lower-cased narration, and "Other" when no keyword of any entry does. *)
Theorem C5_cost_head_classification :
  (forall (T : Type) (df : list (record T)),
     expense_cost_heads df =
     map (fun r => (r, _assign_cost_head (Str (narration r))))
         (List.filter
            (fun r => flt zero (debit r)
                      && negb (startswith (upper (strip (narration r)))
                                          "NEFT DR-CNRB0002374")) df)) /\
  (forall narration pre name keywords post,
     COST_HEADS = pre ++ (name, keywords) :: post ->
     (forall n ks kw, In (n, ks) pre -> In kw ks ->
        contains (lower kw) (lower (text_of narration)) = false) ->
     (exists kw, In kw keywords /\
        contains (lower kw) (lower (text_of narration)) = true) ->
     _assign_cost_head narration = name) /\
  (forall narration,
     (forall n ks kw, In (n, ks) COST_HEADS -> In kw ks ->
        contains (lower kw) (lower (text_of narration)) = false) ->
     _assign_cost_head narration = "Other").
Proof.
  split; [|split].
  - intros T df. unfold expense_cost_heads. rewrite select_mask. reflexivity.
  - intros narration pre name keywords post Htab Hpre Hk.
    unfold _assign_cost_head. rewrite Htab.
    apply first_cost_head_first.
    + intros n ks Hin. apply any_keyword_false. intros kw Hkw. eapply Hpre; eassumption.
    + apply any_keyword_true. exact Hk.
  - intros narration H. unfold _assign_cost_head.
    apply first_cost_head_none. intros n ks Hin.
    apply any_keyword_false. intros kw Hkw. eapply H; eassumption.
Qed.

Lemma C5_cost_head_classification_witness :
  _assign_cost_head (Str "Paid house RENT for April") = "Rent" /\
  _assign_cost_head (Str "ATM WDL 000123") = "Other" /\
  expense_cost_heads
    [ mk_record tt "Paid house RENT, salary advance" (of_Z 5) zero None;
      mk_record tt "NEFT DR-CNRB0002374-own account" (of_Z 7) zero None;
      mk_record tt "ATM WDL 000123" (of_Z 9) zero None;
      mk_record tt "salary credited" zero (of_Z 9) None ]
  = [ (mk_record tt "Paid house RENT, salary advance" (of_Z 5) zero None, "Salary");
      (mk_record tt "ATM WDL 000123" (of_Z 9) zero None, "Other") ].
Proof.
  destruct C5_cost_head_classification as (HM & HF & HO).
  split; [|split].
  - apply (HF (Str "Paid house RENT for April") (firstn 2 COST_HEADS) "Rent" ["rent"]
              (skipn 3 COST_HEADS)).
    + reflexivity.
    + apply no_keyword_by_evaluation. vm_compute. reflexivity.
    + exists "rent". split; [left; reflexivity|vm_compute; reflexivity].
  - apply HO. apply no_keyword_by_evaluation. vm_compute. reflexivity.
  - rewrite HM. vm_compute. reflexivity.
Defined.

(** C5, as stated, fails on the case of the prefix: the narration below does
    not start with "NEFT DR-CNRB0002374" as written and its debit is above
    zero, yet the row gets no cost head. *)
Lemma C5_prefix_test_ignores_case :
  let r := mk_record tt "neft dr-cnrb0002374-own account" (of_Z 5) zero None in
  flt zero (debit r) = true /\
  startswith (narration r) "NEFT DR-CNRB0002374" = false /\
  expense_cost_heads [r] = [].
Proof. cbv zeta. repeat split; vm_compute; reflexivity. Qed.

End CostHeads.

(** ** Continuation rows of a sheet *)

Section Merge.
Import Py Num Dashboard Vocabulary.

Lemma merge_rows_finish rows : merge_rows rows = finish (fold_left merge_step rows ([], None)).
Proof. unfold merge_rows, finish. destruct (fold_left merge_step rows ([], None)); reflexivity. Qed.

Lemma merge_step_undated rows_out c row :
  dated row = false ->
  merge_step (rows_out, Some c) row =
  (rows_out,
   Some (if blank (get "narration" row) then c
         else <["narration" :=
                 Str (current_narration c +:+ strip (str (get "narration" row)))]> c)).
Proof.
  unfold dated, blank. intros H. unfold merge_step. rewrite H.
  destruct (isna (get "narration" row)); simpl; [reflexivity|].
  destruct (is_empty (strip (str (get "narration" row)))); reflexivity.
Qed.

Lemma merge_step_undated_idle rows_out row :
  dated row = false -> merge_step (rows_out, None) row = (rows_out, None).
Proof. unfold dated. intros H. unfold merge_step. rewrite H. reflexivity. Qed.

Lemma merge_step_dated st row :
  dated row = true ->
  merge_step st row =
  (finish st,
   Some (<["narration" :=
            Str (if blank (get "narration" row) then EmptyString
                 else strip (str (get "narration" row)))]> row)).
Proof.
  unfold dated, blank, finish. intros H. destruct st as [rows_out current].
  unfold merge_step. rewrite H. reflexivity.
Qed.

Lemma finish_step_lookup k st row :
  k <> "narration" ->
  map (fun r : gmap string cell => r !! k) (finish (merge_step st row)) =
  map (fun r : gmap string cell => r !! k) (finish st)
  ++ (if dated row then [row !! k] else []).
Proof.
  intros Hk. destruct (dated row) eqn:Hd.
  - rewrite (merge_step_dated st row Hd). unfold finish at 1. simpl.
    rewrite map_app. simpl. rewrite lookup_insert_ne by congruence. reflexivity.
  - destruct st as [rows_out [c|]].
    + rewrite (merge_step_undated rows_out c row Hd). unfold finish. simpl.
      rewrite !map_app, app_nil_r. simpl. f_equal.
      destruct (blank (get "narration" row)); [reflexivity|].
      rewrite lookup_insert_ne by congruence. reflexivity.
    + rewrite (merge_step_undated_idle rows_out row Hd). rewrite app_nil_r. reflexivity.
Qed.

Lemma fold_merge_lookup k rows st :
  k <> "narration" ->
  map (fun r : gmap string cell => r !! k) (finish (fold_left merge_step rows st)) =
  map (fun r : gmap string cell => r !! k) (finish st)
  ++ map (fun r : gmap string cell => r !! k) (List.filter dated rows).
Proof.
  intros Hk. revert st. induction rows as [|row rows IH]; intros st; simpl.
  - rewrite app_nil_r. reflexivity.
  - rewrite IH, (finish_step_lookup k st row Hk), <- app_assoc.
    destruct (dated row); reflexivity.
Qed.

Lemma merge_rows_lookup k rows :
  k <> "narration" ->
  map (fun r : gmap string cell => r !! k) (merge_rows rows) =
  map (fun r : gmap string cell => r !! k) (List.filter dated rows).
Proof. intros Hk. rewrite merge_rows_finish, (fold_merge_lookup k rows _ Hk). reflexivity. Qed.

Lemma fold_merge_undated pre rest :
  Forall (fun r => dated r = false) pre ->
  fold_left merge_step (pre ++ rest) ([], None) = fold_left merge_step rest ([], None).
Proof.
  induction 1 as [|row pre Hrow _ IH]; [reflexivity|].
  rewrite <- app_comm_cons. cbn [fold_left].
  rewrite (merge_step_undated_idle [] row Hrow). exact IH.
Qed.

Lemma dated_with_blank_narration row : dated (with_blank_narration row) = dated row.
Proof.
  unfold dated, with_blank_narration, get. rewrite lookup_insert_ne by discriminate.
  reflexivity.
Qed.

Lemma merge_frame_rows norm :
  has_column "date" norm = true ->
  rows (_merge_narration_rows norm) = merge_rows (walked norm).
Proof.
  intros Hd. unfold _merge_narration_rows, walked. rewrite Hd.
  destruct (empty norm) eqn:He; simpl.
  - unfold empty in He. unfold has_column in Hd.
    destruct (columns norm) as [|c cs] eqn:Hc.
    + apply bool_decide_eq_true in Hd. inversion Hd.
    + destruct (rows norm) as [|r rs]; [|discriminate].
      destruct (has_column "narration" norm); reflexivity.
  - destruct (has_column "narration" norm); reflexivity.
Qed.

Lemma filter_with_blank rows :
  List.filter dated (map with_blank_narration rows) =
  map with_blank_narration (List.filter dated rows).
Proof.
  induction rows as [|r rows IH]; [reflexivity|]. simpl.
  rewrite dated_with_blank_narration, IH. destruct (dated r); reflexivity.
Qed.

Lemma walked_lookup k norm :
  k <> "narration" ->
  map (fun r : gmap string cell => r !! k) (List.filter dated (walked norm)) =
  map (fun r : gmap string cell => r !! k) (List.filter dated (rows norm)).
Proof.
  intros Hk. unfold walked. destruct (has_column "narration" norm); [reflexivity|].
  rewrite filter_with_blank, map_map. apply map_ext. intros r.
  unfold with_blank_narration. rewrite lookup_insert_ne by congruence. reflexivity.
Qed.

Lemma undated_with_blank pre :
  Forall (fun r => dated r = false) pre ->
  Forall (fun r => dated r = false) (map with_blank_narration pre).
Proof.
  induction 1 as [|r pre Hrow _ IH]; constructor; [|exact IH].
  rewrite dated_with_blank_narration. exact Hrow.
Qed.

(** C10.  In the tabular path the merge changes the narration only.  For
    every column other than the narration, the merged rows carry, in order,
    the cells of the dated rows of the input: date, debit, credit and balance
    of a merged transaction are those of the row that opened it, and whatever
    a row without a date holds in those columns is discarded.  Rows without
    a date that come before the first dated row leave no trace.  Both hold
    for the loop on any sequence of rows, and for [_merge_narration_rows] on
    any frame that has its date column, as every normalised sheet does. *)
Theorem C10_merge_changes_narration_only :
  (forall rows k, k <> "narration" ->
     map (fun r : gmap string cell => r !! k) (merge_rows rows) =
     map (fun r : gmap string cell => r !! k) (List.filter dated rows)) /\
  (forall pre rest,
     Forall (fun r => dated r = false) pre ->
     merge_rows (pre ++ rest) = merge_rows rest) /\
  (forall norm k, has_column "date" norm = true -> k <> "narration" ->
     map (fun r : gmap string cell => r !! k) (rows (_merge_narration_rows norm)) =
     map (fun r : gmap string cell => r !! k) (List.filter dated (rows norm))) /\
  (forall norm pre rest,
     has_column "date" norm = true ->
     rows norm = pre ++ rest -> Forall (fun r => dated r = false) pre ->
     rows (_merge_narration_rows norm) =
     rows (_merge_narration_rows (mk_frame (columns norm) rest))).
Proof.
  split; [|split; [|split]].
  - intros rows k Hk. apply merge_rows_lookup, Hk.
  - intros pre rest Hpre. unfold merge_rows.
    rewrite (fold_merge_undated pre rest Hpre). reflexivity.
  - intros norm k Hd Hk. rewrite (merge_frame_rows norm Hd), (merge_rows_lookup k _ Hk).
    apply walked_lookup, Hk.
  - intros norm pre rest Hd Hr Hpre.
    rewrite (merge_frame_rows norm Hd), (merge_frame_rows (mk_frame (columns norm) rest) Hd).
    unfold walked, has_column. simpl. rewrite Hr.
    destruct (bool_decide ("narration" ∈ columns norm)).
    + unfold merge_rows. rewrite (fold_merge_undated pre rest Hpre). reflexivity.
    + rewrite map_app. unfold merge_rows.
      rewrite (fold_merge_undated _ _ (undated_with_blank pre Hpre)). reflexivity.
Qed.

Lemma C10_merge_changes_narration_only_witness :
  let sheet := [continuation_row "lead"; open_row; continuation_row "XYZ corp"] in
  let norm := mk_frame sheet_columns sheet in
  (map (fun r : gmap string cell => r !! "balance") (merge_rows sheet) = [None] /\
   map (fun r : gmap string cell => r !! "credit") (merge_rows sheet) = [Some NaN]) /\
  (Forall (fun r => dated r = false) [continuation_row "lead"] /\
   merge_rows sheet = merge_rows [open_row; continuation_row "XYZ corp"]) /\
  (has_column "date" norm = true /\
   map (fun r : gmap string cell => r !! "date") (rows (_merge_narration_rows norm))
     = [Some (Obj "2023-04-01 00:00:00")] /\
   map (fun r : gmap string cell => r !! "debit") (rows (_merge_narration_rows norm))
     = [Some (Obj "2500.0")]) /\
  rows (_merge_narration_rows norm) =
    rows (_merge_narration_rows
            (mk_frame sheet_columns [open_row; continuation_row "XYZ corp"])).
Proof.
  cbv zeta. destruct C10_merge_changes_narration_only as (HL & HP & HK & HF).
  assert (Hlead : Forall (fun r => dated r = false) [continuation_row "lead"]).
  { constructor; [vm_compute; reflexivity|constructor]. }
  split; [|split; [|split]].
  - split; rewrite HL by discriminate; vm_compute; reflexivity.
  - split; [exact Hlead|].
    apply (HP [continuation_row "lead"] [open_row; continuation_row "XYZ corp"] Hlead).
  - split; [reflexivity|].
    split; rewrite HK by (reflexivity || discriminate); vm_compute; reflexivity.
  - apply (HF (mk_frame sheet_columns
                 [continuation_row "lead"; open_row; continuation_row "XYZ corp"])
              [continuation_row "lead"] [open_row; continuation_row "XYZ corp"]);
      [reflexivity|reflexivity|exact Hlead].
Defined.

Lemma has_date_value_false v :
  _has_date_value v = false <-> v = NaN \/ In (lower (strip (str v))) null_words.
Proof.
  unfold _has_date_value. destruct v as [|s|s]; simpl isna; cbv iota.
  - split; [left; reflexivity|reflexivity].
  - rewrite negb_false_iff, bool_decide_eq_true, list_elem_of_In.
    split; [right; assumption|intros [H|H]; [discriminate|assumption]].
  - rewrite negb_false_iff, bool_decide_eq_true, list_elem_of_In.
    split; [right; assumption|intros [H|H]; [discriminate|assumption]].
Qed.

(** C7, as amended.  A row is a continuation when its date cell is null or
    when its text, trimmed and lower-cased, is one of "", "nan", "nat",
    "none".  While a transaction is open, the narration text of such a row,
    when it is not blank, is appended with its surrounding whitespace trimmed
    and with no separator: "Payment to" followed by "XYZ corp" gives
    "Payment toXYZ corp".  The merge comes before the coercion of dates and
    amounts: the merged text reaches the loaded sheet, whereas coercion alone
    drops the row without a date. *)
Theorem C7_continuation_rows_are_merged :
  (forall v, _has_date_value v = false <->
             v = NaN \/ In (lower (strip (str v))) null_words) /\
  (forall rows_out c row,
     _has_date_value (get "date" row) = false ->
     merge_step (rows_out, Some c) row =
     (rows_out,
      Some (if blank (get "narration" row) then c
            else <["narration" :=
                    Str (current_narration c +:+ strip (str (get "narration" row)))]> c))) /\
  (forall st row,
     _has_date_value (get "date" row) = true ->
     merge_step st row =
     (finish st,
      Some (<["narration" :=
               Str (if blank (get "narration" row) then EmptyString
                    else strip (str (get "narration" row)))]> row))) /\
  merge_rows [open_row; continuation_row "XYZ corp"] =
    [<["narration" := Str "Payment toXYZ corp"]> open_row] /\
  (forall (T : Type) (pd : cell -> option T) (fc : cell -> float) (t : T),
     pd (Obj "2023-04-01 00:00:00") = Some t ->
     let norm := mk_frame sheet_columns [open_row; continuation_row "XYZ corp"] in
     map narration (load_sheet pd fc norm) = ["Payment toXYZ corp"] /\
     map narration (_process_norm pd fc norm) = ["Payment to"]).
Proof.
  split; [exact has_date_value_false|]. split; [exact merge_step_undated|].
  split; [exact merge_step_dated|]. split; [vm_compute; reflexivity|].
  intros T pd fc t Hpd norm. subst norm. split.
  - unfold load_sheet.
    replace (_merge_narration_rows (mk_frame sheet_columns [open_row; continuation_row "XYZ corp"]))
      with (mk_frame sheet_columns [<["narration" := Str "Payment toXYZ corp"]> open_row])
      by (vm_compute; reflexivity).
    unfold _process_norm. cbn [rows omap list_omap]. unfold process_row at 1.
    replace (get "date" (<["narration" := Str "Payment toXYZ corp"]> open_row))
      with (Obj "2023-04-01 00:00:00") by (vm_compute; reflexivity).
    unfold _parse_date. cbn [isna]. rewrite Hpd. cbn [mbind option_bind map narration].
    vm_compute. reflexivity.
  - unfold _process_norm. cbn [rows omap list_omap]. unfold process_row.
    replace (get "date" open_row) with (Obj "2023-04-01 00:00:00") by (vm_compute; reflexivity).
    replace (get "date" (continuation_row "XYZ corp")) with NaN by (vm_compute; reflexivity).
    unfold _parse_date. cbn [isna]. rewrite Hpd. vm_compute. reflexivity.
Qed.

Lemma C7_continuation_rows_are_merged_witness :
  _has_date_value (get "date" (continuation_row "XYZ corp")) = false /\
  merge_step ([], Some open_row) (continuation_row "XYZ corp") =
    ([], Some (<["narration" := Str "Payment toXYZ corp"]> open_row)) /\
  map narration
      (load_sheet (fun _ => Some tt) (fun _ => zero)
         (mk_frame sheet_columns [open_row; continuation_row "XYZ corp"]))
    = ["Payment toXYZ corp"] /\
  map narration
      (_process_norm (fun _ => Some tt) (fun _ => zero)
         (mk_frame sheet_columns [open_row; continuation_row "XYZ corp"]))
    = ["Payment to"].
Proof.
  destruct C7_continuation_rows_are_merged as (_ & HS & _ & _ & HL).
  split; [vm_compute; reflexivity|]. split.
  - rewrite (HS [] open_row (continuation_row "XYZ corp")) by (vm_compute; reflexivity).
    vm_compute. reflexivity.
  - apply (HL unit (fun _ => Some tt) (fun _ => zero) tt). reflexivity.
Defined.

(** C7, as stated, fails on surrounding whitespace: the text of the
    continuation cell is not appended as it stands. *)
Lemma C7_appended_text_is_trimmed :
  let cont := continuation_row " XYZ corp" in
  _has_date_value (get "date" cont) = false /\
  get "narration" open_row = Str "Payment to" /\
  get "narration" cont = Str " XYZ corp" /\
  (exists merged, merge_rows [open_row; cont] = [merged] /\
     get "narration" merged = Str "Payment toXYZ corp" /\
     get "narration" merged <> Str ("Payment to" +:+ " XYZ corp")).
Proof.
  cbv zeta. repeat split; try (vm_compute; reflexivity).
  eexists. split; [vm_compute; reflexivity|]. split; [vm_compute; reflexivity|].
  vm_compute. discriminate.
Qed.


End Merge.

(** ** Column normalisation *)

Section Columns.
Import Py Dashboard.

Lemma alias_matches_true key col_norm :
  alias_matches key col_norm = true <->
  key = col_norm \/ contains key col_norm = true \/ contains col_norm key = true.
Proof.
  unfold alias_matches. rewrite !orb_true_iff, String.eqb_eq. tauto.
Qed.

Lemma find_none {A} (f : A -> bool) l :
  List.find f l = None <-> forall x, In x l -> f x = false.
Proof.
  split.
  - intros H x Hin. exact (List.find_none f l H x Hin).
  - induction l as [|y l IH]; intros H; [reflexivity|]. simpl.
    rewrite (H y) by (left; reflexivity). apply IH. intros x Hin. apply H. right. exact Hin.
Qed.

Lemma find_first {A} (f : A -> bool) l x :
  List.find f l = Some x ->
  exists pre post, l = pre ++ x :: post /\ f x = true /\
                   forall y, In y pre -> f y = false.
Proof.
  induction l as [|y l IH]; [discriminate|]. simpl.
  destruct (f y) eqn:E.
  - intros [= <-]. exists [], l. repeat split; [exact E|intros ? []].
  - intros H. destruct (IH H) as (pre & post & -> & Hx & Hpre).
    exists (y :: pre), post. repeat split; [exact Hx|].
    intros z [<-|Hz]; [exact E|apply Hpre, Hz].
Qed.

Lemma find_column_none columns aliases :
  _find_column columns aliases _normalize = None <->
  forall alias col, In alias aliases -> In col columns ->
    alias_matches (_normalize alias) (_normalize col) = false.
Proof.
  induction aliases as [|a aliases IH]; simpl.
  - split; [intros _ ? ? []|reflexivity].
  - destruct (List.find _ columns) as [c|] eqn:E.
    + split; [discriminate|]. intros H. exfalso.
      destruct (find_first _ _ _ E) as (pre & post & Hc & Hm & _).
      rewrite (H a c) in Hm; [discriminate|left; reflexivity|].
      rewrite Hc. apply in_elt.
    + rewrite IH. rewrite find_none in E. split.
      * intros H alias col [<-|Ha] Hc; [apply E, Hc|apply H; assumption].
      * intros H alias col Ha Hc. apply H; [right; exact Ha|exact Hc].
Qed.

Lemma find_column_first columns aliases col :
  _find_column columns aliases _normalize = Some col ->
  exists a_pre alias a_post c_pre c_post,
    aliases = a_pre ++ alias :: a_post /\
    columns = c_pre ++ col :: c_post /\
    alias_matches (_normalize alias) (_normalize col) = true /\
    (forall c, In c c_pre -> alias_matches (_normalize alias) (_normalize c) = false) /\
    (forall a c, In a a_pre -> In c columns ->
       alias_matches (_normalize a) (_normalize c) = false).
Proof.
  induction aliases as [|a aliases IH]; [discriminate|]. simpl.
  destruct (List.find _ columns) as [c|] eqn:E.
  - intros [= <-]. destruct (find_first _ _ _ E) as (pre & post & Hc & Hm & Hpre).
    exists [], a, aliases, pre, post. repeat split; auto. intros ? ? [].
  - intros H. destruct (IH H) as (a_pre & alias & a_post & c_pre & c_post & -> & Hc & Hm & H1 & H2).
    exists (a :: a_pre), alias, a_post, c_pre, c_post. repeat split; auto.
    rewrite find_none in E.
    intros a0 c0 [<-|Ha] Hin; [apply E, Hin|apply H2; assumption].
Qed.

Lemma img_assign col name (m : gmap string string) v :
  v ∈ (map_img (assign col name m) : gset string) ->
  (v = name /\ col <> None) \/ v ∈ (map_img m : gset string).
Proof.
  destruct col as [c|]; simpl; [|right; assumption].
  rewrite !elem_of_map_img. intros [k Hk].
  destruct (decide (c = k)) as [->|Hne].
  - rewrite lookup_insert_eq in Hk. injection Hk as <-. left. split; congruence.
  - rewrite lookup_insert_ne in Hk by exact Hne. right. exists k. exact Hk.
Qed.

Lemma mapping_values columns v :
  v ∈ (map_img (column_mapping columns) : gset string) ->
  (v = "date" /\ _find_column columns EXPECTED_date _normalize <> None) \/
  (v = "narration" /\ _find_column columns EXPECTED_narration _normalize <> None) \/
  (v = "debit" /\ _find_column columns EXPECTED_withdrawn _normalize <> None) \/
  (v = "credit" /\ _find_column columns EXPECTED_deposit _normalize <> None) \/
  (v = "balance" /\ _find_column columns EXPECTED_balance _normalize <> None).
Proof.
  unfold column_mapping. intros H.
  apply img_assign in H as [H|H]; [tauto|].
  apply img_assign in H as [H|H]; [tauto|].
  apply img_assign in H as [H|H]; [tauto|].
  apply img_assign in H as [H|H]; [tauto|].
  apply img_assign in H as [H|H]; [tauto|].
  rewrite map_img_empty in H. apply elem_of_empty in H. destruct H.
Qed.

Lemma normalize_columns_unresolved columns :
  _find_column columns EXPECTED_date _normalize = None \/
  _find_column columns EXPECTED_withdrawn _normalize = None \/
  _find_column columns EXPECTED_deposit _normalize = None ->
  _normalize_columns columns = None.
Proof.
  intros H. unfold _normalize_columns.
  destruct (bool_decide (required ⊆ map_img (column_mapping columns))) eqn:E; [|reflexivity].
  exfalso. apply bool_decide_eq_true in E. unfold required in E.
  assert (Hd : "date" ∈ (map_img (column_mapping columns) : gset string)).
  { apply E. rewrite !elem_of_union, !elem_of_singleton. tauto. }
  assert (Hw : "debit" ∈ (map_img (column_mapping columns) : gset string)).
  { apply E. rewrite !elem_of_union, !elem_of_singleton. tauto. }
  assert (Hc : "credit" ∈ (map_img (column_mapping columns) : gset string)).
  { apply E. rewrite !elem_of_union, !elem_of_singleton. tauto. }
  apply mapping_values in Hd, Hw, Hc.
  destruct H as [H|[H|H]]; rewrite H in *.
  - destruct Hd as [[_ Hd]|[[Hd _]|[[Hd _]|[[Hd _]|[Hd _]]]]]; congruence.
  - destruct Hw as [[Hw _]|[[Hw _]|[[_ Hw]|[[Hw _]|[Hw _]]]]]; congruence.
  - destruct Hc as [[Hc _]|[[Hc _]|[[Hc _]|[[_ Hc]|[Hc _]]]]]; congruence.
Qed.

Lemma assign_lookup col name (m : gmap string string) k v :
  assign col name m !! k = Some v <->
  (col = Some k /\ v = name) \/ (col <> Some k /\ m !! k = Some v).
Proof.
  destruct col as [c|]; simpl.
  - destruct (decide (c = k)) as [->|Hne].
    + rewrite lookup_insert_eq. split.
      * intros [= <-]. left. auto.
      * intros [[_ ->]|[H _]]; [reflexivity|congruence].
    + rewrite lookup_insert_ne by exact Hne. split.
      * intros H. right. split; [congruence|exact H].
      * intros [[H _]|[_ H]]; [congruence|exact H].
  - split; [intros H; right; split; [discriminate|exact H]|].
    intros [[H _]|[_ H]]; [discriminate|exact H].
Qed.

(** The exact condition under which [_normalize_columns] gives a mapping:
    each mandatory field matches a header, and no field resolved after it
    (in the order date, narration, withdrawal, deposit, balance) matches the
    same header. *)
Lemma normalize_columns_exact columns :
  let fd := _find_column columns EXPECTED_date _normalize in
  let fn := _find_column columns EXPECTED_narration _normalize in
  let fw := _find_column columns EXPECTED_withdrawn _normalize in
  let fc := _find_column columns EXPECTED_deposit _normalize in
  let fb := _find_column columns EXPECTED_balance _normalize in
  _normalize_columns columns <> None <->
  (fd <> None /\ fd <> fn /\ fd <> fw /\ fd <> fc /\ fd <> fb) /\
  (fw <> None /\ fw <> fc /\ fw <> fb) /\
  (fc <> None /\ fc <> fb).
Proof.
  cbv zeta. unfold _normalize_columns, column_mapping.
  set (fd := _find_column columns EXPECTED_date _normalize).
  set (fn := _find_column columns EXPECTED_narration _normalize).
  set (fw := _find_column columns EXPECTED_withdrawn _normalize).
  set (fc := _find_column columns EXPECTED_deposit _normalize).
  set (fb := _find_column columns EXPECTED_balance _normalize).
  set (m := assign fb "balance" (assign fc "credit" (assign fw "debit"
              (assign fn "narration" (assign fd "date" ∅))))).
  assert (Hv : forall v, v ∈ (map_img m : gset string) <->
     exists k, (fb = Some k /\ v = "balance") \/ (fb <> Some k /\
               ((fc = Some k /\ v = "credit") \/ (fc <> Some k /\
               ((fw = Some k /\ v = "debit") \/ (fw <> Some k /\
               ((fn = Some k /\ v = "narration") \/ (fn <> Some k /\
               (fd = Some k /\ v = "date"))))))))).
  { intros v. rewrite elem_of_map_img. apply exist_proper. intros k. unfold m.
    rewrite !assign_lookup, lookup_empty. intuition congruence. }
  assert (Hreq : required ⊆ map_img m <->
     "date" ∈ (map_img m : gset string) /\ "debit" ∈ (map_img m : gset string)
     /\ "credit" ∈ (map_img m : gset string)).
  { unfold required. split.
    - intros H. repeat split; apply H; rewrite !elem_of_union, !elem_of_singleton; tauto.
    - intros (H1 & H2 & H3) x. rewrite !elem_of_union, !elem_of_singleton.
      intros [[->| ->]| ->]; assumption. }
  assert (Hdate : "date" ∈ (map_img m : gset string) <->
     fd <> None /\ fd <> fn /\ fd <> fw /\ fd <> fc /\ fd <> fb).
  { rewrite Hv. split.
    - intros [k Hk]. assert (fd = Some k) as -> by intuition congruence.
      repeat split; intuition congruence.
    - intros (H0 & H1 & H2 & H3 & H4). destruct fd as [d|]; [|congruence].
      exists d. right. split; [congruence|]. right. split; [congruence|].
      right. split; [congruence|]. right. split; [congruence|]. auto. }
  assert (Hdebit : "debit" ∈ (map_img m : gset string) <->
     fw <> None /\ fw <> fc /\ fw <> fb).
  { rewrite Hv. split.
    - intros [k Hk]. assert (fw = Some k) as -> by intuition congruence.
      repeat split; intuition congruence.
    - intros (H0 & H1 & H2). destruct fw as [w|]; [|congruence].
      exists w. right. split; [congruence|]. right. split; [congruence|]. auto. }
  assert (Hcredit : "credit" ∈ (map_img m : gset string) <-> fc <> None /\ fc <> fb).
  { rewrite Hv. split.
    - intros [k Hk]. assert (fc = Some k) as -> by intuition congruence.
      repeat split; intuition congruence.
    - intros (H0 & H1). destruct fc as [c|]; [|congruence].
      exists c. right. split; [congruence|]. auto. }
  rewrite <- Hdate, <- Hdebit, <- Hcredit, <- Hreq.
  destruct (bool_decide (required ⊆ map_img m)) eqn:E.
  - apply bool_decide_eq_true in E. split; [intros _; exact E|discriminate].
  - apply bool_decide_eq_false in E. split; [congruence|]. intros H. contradiction.
Qed.

(** C9.  What [_find_column] and [_normalize_columns] do.  Header names and
    aliases are compared after trimming and lower-casing.  Each alias in list
    order is tried against each header in header order; a pair matches when
    the two normalised texts are equal or one contains the other, and the
    first matching pair gives the column.  A mandatory field that matches no
    header gives no mapping, as the claim says; but no mapping is returned
    either when date, withdrawal or deposit matches a header that a field
    resolved after it (in the order date, narration, withdrawal, deposit,
    balance) matches too. *)
Theorem C9_column_normalisation :
  (forall s, _normalize s = lower (strip s)) /\
  (forall key col_norm,
     alias_matches key col_norm = true <->
     key = col_norm \/ contains key col_norm = true \/ contains col_norm key = true) /\
  (forall columns aliases,
     _find_column columns aliases _normalize = None <->
     forall alias col, In alias aliases -> In col columns ->
       alias_matches (_normalize alias) (_normalize col) = false) /\
  (forall columns aliases col,
     _find_column columns aliases _normalize = Some col ->
     exists a_pre alias a_post c_pre c_post,
       aliases = a_pre ++ alias :: a_post /\
       columns = c_pre ++ col :: c_post /\
       alias_matches (_normalize alias) (_normalize col) = true /\
       (forall c, In c c_pre -> alias_matches (_normalize alias) (_normalize c) = false) /\
       (forall a c, In a a_pre -> In c columns ->
          alias_matches (_normalize a) (_normalize c) = false)) /\
  (forall columns,
     _find_column columns EXPECTED_date _normalize = None \/
     _find_column columns EXPECTED_withdrawn _normalize = None \/
     _find_column columns EXPECTED_deposit _normalize = None ->
     _normalize_columns columns = None) /\
  (forall columns,
     let fd := _find_column columns EXPECTED_date _normalize in
     let fn := _find_column columns EXPECTED_narration _normalize in
     let fw := _find_column columns EXPECTED_withdrawn _normalize in
     let fc := _find_column columns EXPECTED_deposit _normalize in
     let fb := _find_column columns EXPECTED_balance _normalize in
     _normalize_columns columns = None <->
     ~ ((fd <> None /\ fd <> fn /\ fd <> fw /\ fd <> fc /\ fd <> fb) /\
        (fw <> None /\ fw <> fc /\ fw <> fb) /\
        (fc <> None /\ fc <> fb))).
Proof.
  split; [reflexivity|]. split; [exact alias_matches_true|].
  split; [exact find_column_none|]. split; [exact find_column_first|].
  split; [exact normalize_columns_unresolved|].
  intros columns. cbv zeta. rewrite <- (normalize_columns_exact columns).
  destruct (_normalize_columns columns); split; try congruence.
  intros H. exfalso. apply H. discriminate.
Qed.

Lemma C9_column_normalisation_witness :
  let header := ["Txn Date"; "Particulars"; "Deposit Amt."; "Closing Balance"] in
  _find_column header EXPECTED_withdrawn _normalize = None /\
  _normalize_columns header = None /\
  _find_column header EXPECTED_date _normalize = Some "Txn Date" /\
  (exists mapping,
     _normalize_columns
       ["Date"; "Narration"; "Chq./Ref.No."; "Value Dt"; "Withdrawal Amt.";
        "Deposit Amt."; "Closing Balance"] = Some mapping /\
     mapping !! "Withdrawal Amt." = Some "debit").
Proof.
  cbv zeta. destruct C9_column_normalisation as (_ & _ & HN & _ & HU & _).
  split; [|split; [|split]].
  - apply HN. intros alias col Ha Hc. simpl in Ha, Hc.
    repeat (destruct Ha as [<-|Ha]; [repeat (destruct Hc as [<-|Hc];
      [vm_compute; reflexivity|]); destruct Hc|]). destruct Ha.
  - apply HU. right. left. vm_compute. reflexivity.
  - vm_compute. reflexivity.
  - eexists. split; vm_compute; reflexivity.
Defined.

(** C9, as stated, fails: with the first header below date, withdrawal and
    deposit each match a column, yet no mapping is returned, because
    withdrawal and deposit both match "Amt" and the mapping keeps one name
    per column.  The second header names every field by an alias of its own
    and has one blank cell: the empty name is contained in every alias, so
    every field after the date resolves to it, and no mapping is returned. *)
Lemma C9_resolved_yet_no_mapping :
  let header := ["Date"; "Narration"; "Amt"; "Withdrawal"; "Deposit"; "Balance"] in
  let blank := ["Date"; ""; "Narration"; "Withdrawal Amt."; "Deposit Amt.";
                "Closing Balance"] in
  (_find_column header EXPECTED_date _normalize = Some "Date" /\
   _find_column header EXPECTED_withdrawn _normalize = Some "Amt" /\
   _find_column header EXPECTED_deposit _normalize = Some "Amt" /\
   _normalize_columns header = None) /\
  (_find_column blank EXPECTED_date _normalize = Some "Date" /\
   _find_column blank EXPECTED_withdrawn _normalize = Some "" /\
   _find_column blank EXPECTED_deposit _normalize = Some "" /\
   _normalize_columns blank = None /\
   _normalize_columns (List.filter (fun c => negb (is_empty c)) blank) <> None).
Proof.
  cbv zeta. split.
  - repeat split; vm_compute; reflexivity.
  - repeat split; try (vm_compute; reflexivity). vm_compute. discriminate.
Qed.

End Columns.

(** ** Two-digit years *)

Section Century.
Import Py Dates Vocabulary.
Open Scope Z_scope.

Lemma leap_shift v : 69 <= v <= 99 -> is_leap (1900 + v) = is_leap (2000 + v).
Proof.
  intros H.
  assert (Hall : forallb (fun n => Bool.eqb (is_leap (1900 + Z.of_nat n))
                                            (is_leap (2000 + Z.of_nat n)))
                         (seq 69 31) = true) by (vm_compute; reflexivity).
  rewrite forallb_forall in Hall.
  specialize (Hall (Z.to_nat v)). rewrite Z2Nat.id in Hall by lia.
  apply Bool.eqb_prop, Hall, in_seq. lia.
Qed.

Lemma make_datetime_some y m d dt :
  make_datetime y m d = Some dt ->
  dt = mk_datetime y m d /\ 1 <= m <= 12 /\ 1 <= d <= days_in_month y m.
Proof.
  unfold make_datetime.
  destruct (1 <=? y) eqn:E1; [|discriminate]. destruct (y <=? 9999) eqn:E2; [|discriminate].
  destruct (1 <=? m) eqn:E3; [|discriminate]. destruct (m <=? 12) eqn:E4; [|discriminate].
  destruct (1 <=? d) eqn:E5; [|discriminate].
  destruct (d <=? days_in_month y m) eqn:E6; [|discriminate].
  simpl. intros [= <-].
  apply Z.leb_le in E3, E4, E5, E6. auto.
Qed.

Lemma make_datetime_ok y m d :
  1 <= y <= 9999 -> 1 <= m <= 12 -> 1 <= d <= days_in_month y m ->
  make_datetime y m d = Some (mk_datetime y m d).
Proof.
  intros Hy Hm Hd. unfold make_datetime.
  replace (1 <=? y) with true by (symmetry; apply Z.leb_le; lia).
  replace (y <=? 9999) with true by (symmetry; apply Z.leb_le; lia).
  replace (1 <=? m) with true by (symmetry; apply Z.leb_le; lia).
  replace (m <=? 12) with true by (symmetry; apply Z.leb_le; lia).
  replace (1 <=? d) with true by (symmetry; apply Z.leb_le; lia).
  replace (d <=? days_in_month y m) with true by (symmetry; apply Z.leb_le; lia).
  reflexivity.
Qed.

(** The century rule after the pivot of [%y]. *)
Lemma to_2000s_after_pivot v m d dt :
  0 <= v <= 99 ->
  make_datetime (if v <=? 68 then 2000 + v else 1900 + v) m d = Some dt ->
  to_2000s dt = Some (mk_datetime (2000 + v) m d).
Proof.
  intros Hv H. apply make_datetime_some in H as (-> & Hm & Hd).
  unfold to_2000s. cbn [year month day].
  destruct (v <=? 68) eqn:E.
  - apply Z.leb_le in E.
    replace (2000 + v <? 2000) with false by (symmetry; apply Z.ltb_ge; lia). reflexivity.
  - apply Z.leb_gt in E.
    replace (1900 + v <? 2000) with true by (symmetry; apply Z.ltb_lt; lia).
    unfold replace_year. cbn [year month day].
    replace (1900 + v + 100) with (2000 + v) by lia.
    apply make_datetime_ok; [lia|exact Hm|].
    unfold days_in_month in *. rewrite <- (leap_shift v) by lia. exact Hd.
Qed.

Lemma isdigit_val c : isdigit c = true -> 0 <= digit_val c <= 9.
Proof.
  unfold isdigit, digit_val. intros H. apply andb_true_iff in H as [H1 H2].
  apply Nat.leb_le in H1, H2. lia.
Qed.

Lemma short_year_field_some f y :
  short_year_field f = Some y ->
  exists a b, f = String a (String b EmptyString) /\
    let v := 10 * digit_val a + digit_val b in
    0 <= v <= 99 /\ y = if v <=? 68 then 2000 + v else 1900 + v.
Proof.
  destruct f as [|a [|b [|c f]]]; try discriminate. simpl.
  destruct (isdigit a) eqn:Ea; [|discriminate]. destruct (isdigit b) eqn:Eb; [|discriminate].
  simpl. intros [= <-]. exists a, b. split; [reflexivity|].
  apply isdigit_val in Ea, Eb. cbv zeta. split; [lia|reflexivity].
Qed.

Lemma strptime_dmy_some s dt :
  strptime_dmy s = Some dt ->
  exists v, two_digit_year s = Some v /\ 0 <= v <= 99 /\
            year dt = (if v <=? 68 then 2000 + v else 1900 + v) /\
            to_2000s dt = Some (mk_datetime (2000 + v) (month dt) (day dt)).
Proof.
  unfold strptime_dmy, strptime, two_digit_year.
  destruct (split_on "/" s) as [|fd [|fm [|fy [|x l]]]]; try discriminate.
  destruct (day_field fd) as [d|]; [|discriminate].
  destruct (month_field fm) as [m|]; [|discriminate].
  destruct (short_year_field fy) as [y|] eqn:Ey; [|discriminate].
  intros H. destruct (short_year_field_some fy y Ey) as (a & b & -> & Hv & Hy).
  simpl in Ey.
  destruct (isdigit a && isdigit b) eqn:Eab; [|discriminate].
  exists (10 * digit_val a + digit_val b). split; [reflexivity|]. split; [exact Hv|].
  subst y. pose proof (to_2000s_after_pivot _ m d dt Hv H) as Ht.
  apply make_datetime_some in H as (-> & _ & _). cbn [year month day]. auto.
Qed.

End Century.

Section TwoDigitYears.
Import Py Dates Vocabulary.
Open Scope Z_scope.

(** The sibling paths: [_parse_date] and [Analyzer.resolve_date] put every
    valid two-digit year in the 2000s. *)
Lemma century_rule_siblings s dt :
  strptime_dmy s = Some dt ->
  exists v, two_digit_year s = Some v /\ 0 <= v <= 99 /\
    Analyzer.resolve_date s = Some (mk_datetime (2000 + v) (month dt) (day dt)) /\
    StatementParser.try_format strptime_dmy s
      = Some (mk_datetime (2000 + v) (month dt) (day dt)).
Proof.
  intros H. destruct (strptime_dmy_some s dt H) as (v & Hy & Hv & _ & Ht).
  exists v. unfold Analyzer.resolve_date, StatementParser.try_format. rewrite H. auto.
Qed.

(** [to_dataframe] keeps the pivot of [%y]: years 69..99 stay in the 1900s. *)
Lemma to_dataframe_year s dt :
  StatementParser.to_datetime_dmy s = Some dt ->
  exists v, two_digit_year s = Some v /\ 0 <= v <= 99 /\
            year dt = if v <=? 68 then 2000 + v else 1900 + v.
Proof.
  unfold StatementParser.to_datetime_dmy. intros H.
  destruct (strptime_dmy_some s dt H) as (v & Hy & Hv & Hyear & _). eauto.
Qed.

(** C8 on [statement_parser.py].  The date token of a parsed line reaches
    [to_dataframe] as text and is resolved there without the century rule:
    the two-digit year 99 becomes 1999, where [_parse_date] of the same module
    and [analyzer.py] give 2099. *)
Theorem C8_to_dataframe_keeps_1900s :
  let rows :=
    StatementParser.load_statement_text "15/06/99 CASH WITHDRAWAL 500.00 1,500.00" in
  map StatementParser.COL_DATE rows = ["15/06/99"] /\
  two_digit_year "15/06/99" = Some 99 /\
  map StatementParser.Date (StatementParser.to_dataframe rows)
    = [Some (mk_datetime 1999 6 15)] /\
  StatementParser._parse_date "15/06/99" = Some (mk_datetime 2099 6 15) /\
  Analyzer.resolve_date "15/06/99" = Some (mk_datetime 2099 6 15).
Proof. cbv zeta. repeat split; vm_compute; reflexivity. Qed.

End TwoDigitYears.

(** * Further properties *)

(** ** Duplicate rows *)

Section Dedupe.
Import Py StatementParser ParserNotions.

Lemma dedupe_from_app seen l1 l2 :
  dedupe_from seen (l1 ++ l2) =
  dedupe_from seen l1 ++ dedupe_from (list_to_set (map dedupe_key l1) ∪ seen) l2.
Proof.
  revert seen. induction l1 as [|r l1 IH]; intros seen; simpl.
  - f_equal. apply set_eq. intros k.
    rewrite elem_of_union, elem_of_empty. tauto.
  - fold (dedupe_key r). destruct (bool_decide (dedupe_key r ∈ seen)) eqn:E.
    + rewrite IH. f_equal. f_equal. apply bool_decide_eq_true in E.
      apply set_eq. intros k. rewrite !elem_of_union, elem_of_singleton.
      split; [tauto|]. intros [[->|H]|H]; tauto.
    + rewrite IH. simpl. f_equal. f_equal. f_equal.
      apply set_eq. intros k. rewrite !elem_of_union, elem_of_singleton. tauto.
Qed.

Lemma dedupe_from_keys seen l k :
  In k (map dedupe_key (dedupe_from seen l)) <-> In k (map dedupe_key l) /\ k ∉ seen.
Proof.
  revert seen. induction l as [|r l IH]; intros seen; simpl; [tauto|].
  fold (dedupe_key r). destruct (bool_decide (dedupe_key r ∈ seen)) eqn:E.
  - apply bool_decide_eq_true in E. rewrite IH. split; [tauto|].
    intros [[<-|H] Hn]; [contradiction|tauto].
  - apply bool_decide_eq_false in E. simpl. rewrite IH.
    rewrite not_elem_of_union, not_elem_of_singleton. split.
    + intros [<-|[H [H1 H2]]]; tauto.
    + intros [[<-|H] Hn]; [tauto|].
      destruct (decide (k = dedupe_key r)) as [->|Hne]; [tauto|]. right. tauto.
Qed.

Lemma dedupe_from_nodup seen l : NoDup (map dedupe_key (dedupe_from seen l)).
Proof.
  revert seen. induction l as [|r l IH]; intros seen; simpl; [constructor|].
  fold (dedupe_key r). destruct (bool_decide (dedupe_key r ∈ seen)); [apply IH|].
  simpl. constructor; [|apply IH].
  rewrite list_elem_of_In, dedupe_from_keys.
  rewrite not_elem_of_union, not_elem_of_singleton. tauto.
Qed.

Lemma dedupe_from_sublist seen l : sublist (dedupe_from seen l) l.
Proof.
  revert seen. induction l as [|r l IH]; intros seen; simpl; [constructor|].
  destruct (bool_decide _); [apply sublist_cons|apply sublist_skip]; apply IH.
Qed.

Lemma dedupe_from_fresh seen l :
  NoDup (map dedupe_key l) -> (forall k, In k (map dedupe_key l) -> k ∉ seen) ->
  dedupe_from seen l = l.
Proof.
  revert seen. induction l as [|r l IH]; intros seen Hnd Hs; simpl; [reflexivity|].
  fold (dedupe_key r). simpl in Hnd. apply NoDup_cons in Hnd as [Hr Hnd].
  rewrite bool_decide_eq_false_2 by (apply Hs; left; reflexivity).
  f_equal. apply IH; [exact Hnd|]. intros k Hk.
  rewrite not_elem_of_union, not_elem_of_singleton. split.
  - intros ->. apply Hr. apply list_elem_of_In. exact Hk.
  - apply Hs. right. exact Hk.
Qed.

End Dedupe.

Section DedupeTheorems.
Import Py StatementParser ParserNotions.

(** X1.  [_dedupe_and_clean] keeps the first row of every key and nothing
    else: the rows returned are rows of the input in their order, no two of
    them share date, first 80 characters of the narration and balance, every
    key of the input is still there, and a row put at the end is kept
    exactly when its key has not been met. *)
Theorem dedupe_keeps_first_row_of_each_key :
  (forall rows, NoDup (map dedupe_key (_dedupe_and_clean rows))) /\
  (forall rows, sublist (_dedupe_and_clean rows) rows) /\
  (forall rows k, In k (map dedupe_key (_dedupe_and_clean rows)) <->
                  In k (map dedupe_key rows)) /\
  (forall pre r,
     _dedupe_and_clean (pre ++ [r]) =
     _dedupe_and_clean pre ++
     (if bool_decide (dedupe_key r ∈ map dedupe_key pre) then [] else [r])).
Proof.
  unfold _dedupe_and_clean. split; [|split; [|split]].
  - intros rows. apply dedupe_from_nodup.
  - intros rows. apply dedupe_from_sublist.
  - intros rows k. rewrite dedupe_from_keys. split; [tauto|].
    intros H. split; [exact H|]. apply not_elem_of_empty.
  - intros pre r. rewrite dedupe_from_app. f_equal. simpl. fold (dedupe_key r).
    assert (E : dedupe_key r ∈ (list_to_set (map dedupe_key pre) ∪ ∅ : gset _)
                <-> dedupe_key r ∈ map dedupe_key pre).
    { rewrite elem_of_union, elem_of_list_to_set, elem_of_empty. tauto. }
    destruct (bool_decide (_ ∈ map _ _)) eqn:E1.
    + apply bool_decide_eq_true in E1. rewrite bool_decide_eq_true_2 by (apply E, E1).
      reflexivity.
    + apply bool_decide_eq_false in E1.
      rewrite bool_decide_eq_false_2 by (rewrite E; exact E1). reflexivity.
Qed.

(** X2.  A list without repeated keys passes [_dedupe_and_clean] unchanged,
    so a second run changes nothing. *)
Theorem dedupe_is_idempotent :
  (forall rows, NoDup (map dedupe_key rows) -> _dedupe_and_clean rows = rows) /\
  (forall rows, _dedupe_and_clean (_dedupe_and_clean rows) = _dedupe_and_clean rows).
Proof.
  assert (H : forall rows, NoDup (map dedupe_key rows) -> _dedupe_and_clean rows = rows).
  { intros rows Hnd. apply dedupe_from_fresh; [exact Hnd|].
    intros k _. apply not_elem_of_empty. }
  split; [exact H|]. intros rows. apply H. apply dedupe_from_nodup.
Qed.

Lemma dedupe_is_idempotent_witness :
  let r1 := mk_row "01/04/23" "UPI-A" "" "01/04/23" "10.00" "" "90.00" in
  let r2 := mk_row "02/04/23" "UPI-A" "" "02/04/23" "" "5.00" "95.00" in
  NoDup (map dedupe_key [r1; r2]) /\ _dedupe_and_clean [r1; r2] = [r1; r2].
Proof.
  cbv zeta. destruct dedupe_is_idempotent as [H _].
  assert (Hnd : NoDup (map dedupe_key
            [mk_row "01/04/23" "UPI-A" "" "01/04/23" "10.00" "" "90.00";
             mk_row "02/04/23" "UPI-A" "" "02/04/23" "" "5.00" "95.00"])).
  { apply (bool_decide_unpack _). vm_compute. exact I. }
  split; [exact Hnd|]. apply H. exact Hnd.
Defined.

End DedupeTheorems.

(** ** Rows of the text path *)

Section Folds.

Lemma Forall_by_evaluation {A : Type} (f : A -> bool) (l : list A) :
  forallb f l = true -> Forall (fun x => f x = true) l.
Proof. intros H. apply List.Forall_forall. apply forallb_forall, H. Qed.

Lemma fold_left_invariant {S A : Type} (f : S -> A -> S) (Q : S -> Prop) (R : A -> Prop) :
  (forall s a, R a -> Q s -> Q (f s a)) ->
  forall l s, Forall R l -> Q s -> Q (fold_left f l s).
Proof.
  intros Hf l. induction l as [|a l IH]; intros s Hl Hs; [exact Hs|].
  inversion Hl; subst. simpl. apply IH; [assumption|]. apply Hf; assumption.
Qed.

End Folds.

Section TokenLists.
Import Py Re Vocabulary.

Lemma neg_index_in k (l : list string) :
  (1 <= k)%nat -> (k <= length l)%nat -> In (neg_index k l) l.
Proof.
  intros H1 H2. unfold neg_index. apply in_rev, nth_In. rewrite length_rev. lia.
Qed.

Lemma neg_index_literal k s :
  (1 <= k)%nat -> (k <= length (findall_amounts s))%nat ->
  decimal_literal (remove_commas (neg_index k (findall_amounts s))).
Proof.
  intros H1 H2. apply remove_commas_literal.
  pose proof (findall_amounts_shape s) as Hall. rewrite List.Forall_forall in Hall.
  apply Hall, neg_index_in; assumption.
Qed.

Lemma nth_literal k s :
  (k < length (findall_amounts s))%nat ->
  decimal_literal (remove_commas (nth k (findall_amounts s) EmptyString)).
Proof.
  intros H. apply remove_commas_literal.
  pose proof (findall_amounts_shape s) as Hall. rewrite List.Forall_forall in Hall.
  apply Hall, nth_In, H.
Qed.

Lemma literal_not_blank s : decimal_literal s -> is_empty s = false.
Proof.
  intros (ds & d1 & d2 & -> & _). destruct ds; reflexivity.
Qed.

Lemma date_pattern_token line date_str matched :
  date_pattern line = Some (date_str, matched) -> TokenNotions.is_date_token date_str = true.
Proof.
  unfold date_pattern.
  destruct line as [|d1 [|d2 [|s1 [|m1 [|m2 [|s2 [|y1 [|y2 rest]]]]]]]]; try discriminate.
  destruct (isdigit d1 && isdigit d2 && is_slash s1 && isdigit m1 && isdigit m2
            && is_slash s2 && isdigit y1 && isdigit y2) eqn:E.
  - destruct (1 <=? count_space rest)%nat; [|rewrite andb_false_r; discriminate].
    rewrite andb_true_r. intros [= <- _]. cbn. destruct rest; exact E.
  - discriminate.
Qed.

End TokenLists.

Section TextRows.
Import Py Re StatementParser Vocabulary TokenNotions ParserNotions.

Lemma new_row_text_row date_str rest :
  is_date_token date_str = true ->
  (1 <= length (findall_amounts rest))%nat ->
  text_row (new_row date_str rest (findall_amounts rest)).
Proof.
  intros Hd Hn. unfold new_row.
  destruct (3 <=? length (findall_amounts rest))%nat eqn:E3.
  - apply Nat.leb_le in E3. cbv zeta. cbn [text_row COL_DATE COL_VALUE_DT COL_REF
      COL_BALANCE COL_WITHDRAWN COL_DEPOSIT]. unfold text_row. simpl.
    repeat split; try assumption; try reflexivity;
      try (right; apply neg_index_literal; lia); apply neg_index_literal; lia.
  - destruct (length (findall_amounts rest) =? 2)%nat eqn:E2.
    + apply Nat.eqb_eq in E2.
      destruct (Num.flt _ _); unfold text_row; simpl;
        (repeat split; try assumption; try reflexivity;
          [apply neg_index_literal; lia|..]);
        try (left; reflexivity); right; apply nth_literal; lia.
    + unfold text_row; simpl. repeat split; try assumption; try reflexivity;
        [apply neg_index_literal; lia|left; reflexivity|left; reflexivity].
Qed.

Lemma continuation_text_row c line : text_row c -> text_row (continuation c line).
Proof.
  intros (H1 & H2 & H3 & H4 & H5 & H6). unfold continuation.
  destruct (2 <=? length (findall_amounts line))%nat eqn:E2.
  - apply Nat.leb_le in E2.
    destruct (3 <=? length (findall_amounts line))%nat eqn:E3.
    + apply Nat.leb_le in E3. unfold text_row. simpl.
      repeat split; try assumption;
        [apply neg_index_literal; lia|right; apply neg_index_literal; lia
        |right; apply neg_index_literal; lia].
    + unfold text_row. simpl. repeat split; try assumption. apply neg_index_literal; lia.
  - unfold text_row. simpl. repeat split; assumption.
Qed.

Lemma flush_ok st : state_ok st -> Forall text_row (flush st).
Proof.
  intros [Ht Hc]. unfold flush. destruct (current st) as [c|]; [|exact Ht].
  destruct (is_empty (COL_BALANCE c)); [exact Ht|].
  apply Forall_app. split; [exact Ht|]. constructor; [exact Hc|constructor].
Qed.

Lemma process_line_ok st line : state_ok st -> state_ok (process_line st line).
Proof.
  intros Hst. unfold process_line.
  destruct (is_skipped line); [exact Hst|].
  destruct (date_pattern line) as [[date_str matched]|] eqn:Ed.
  - destruct (1 <=? length (findall_amounts (strip (slice_from matched line))))%nat eqn:E1.
    + split; [apply flush_ok, Hst|]. simpl.
      apply new_row_text_row; [exact (date_pattern_token _ _ _ Ed)|].
      apply Nat.leb_le, E1.
    + split; [apply flush_ok, Hst|exact I].
  - destruct Hst as [Ht Hc]. destruct (current st) as [c|] eqn:Ec.
    + split; [exact Ht|]. simpl. apply continuation_text_row, Hc.
    + split; [exact Ht|]. rewrite Ec. exact I.
Qed.

Lemma parsed_rows_ok text : Forall text_row (_parse_transactions_from_text text).
Proof.
  unfold _parse_transactions_from_text. apply flush_ok.
  apply (fold_left_invariant process_line state_ok (fun _ => True)).
  - intros s a _ Hs. apply process_line_ok, Hs.
  - apply List.Forall_forall. intros; exact I.
  - split; [constructor|exact I].
Qed.

End TextRows.

Section TextRowTheorems.
Import Py Re Num Dates StatementParser Vocabulary TokenNotions ParserNotions.

(** X3.  Every row that the text path of [statement_parser.py] returns has a
    date token in [Date], the same token in [Value Dt], an empty
    [Chq./Ref.No.], a plain decimal literal in [Closing Balance], and in
    each of the two amount cells either nothing or a plain decimal literal. *)
Theorem text_rows_are_well_formed text r :
  In r (_parse_transactions_from_text text) ->
  is_date_token (COL_DATE r) = true /\
  COL_VALUE_DT r = COL_DATE r /\
  COL_REF r = EmptyString /\
  decimal_literal (COL_BALANCE r) /\
  (COL_WITHDRAWN r = EmptyString \/ decimal_literal (COL_WITHDRAWN r)) /\
  (COL_DEPOSIT r = EmptyString \/ decimal_literal (COL_DEPOSIT r)).
Proof.
  intros H. pose proof (parsed_rows_ok text) as Hall.
  rewrite List.Forall_forall in Hall. exact (Hall r H).
Qed.

Lemma text_rows_are_well_formed_witness :
  let text := "HDFC BANK" +:+ String newline "01/04/23 UPI-RAMESH 30.00 70.00"
              +:+ String newline "REF 123" in
  let r := mk_row "01/04/23" "UPI-RAMESH REF 123" "" "01/04/23" "" "30.00" "70.00" in
  In r (_parse_transactions_from_text text) /\
  is_date_token (COL_DATE r) = true /\
  COL_VALUE_DT r = COL_DATE r /\
  COL_REF r = EmptyString /\
  decimal_literal (COL_BALANCE r) /\
  (COL_WITHDRAWN r = EmptyString \/ decimal_literal (COL_WITHDRAWN r)) /\
  (COL_DEPOSIT r = EmptyString \/ decimal_literal (COL_DEPOSIT r)).
Proof.
  cbv zeta.
  assert (H : In (mk_row "01/04/23" "UPI-RAMESH REF 123" "" "01/04/23" "" "30.00" "70.00")
                 (_parse_transactions_from_text
                    ("HDFC BANK" +:+ String newline "01/04/23 UPI-RAMESH 30.00 70.00"
                     +:+ String newline "REF 123"))).
  { vm_compute. left. reflexivity. }
  split; [exact H|].
  exact (text_rows_are_well_formed _ _ H).
Defined.

End TextRowTheorems.

(** ** Date tokens *)

Section DateTokens.
Import Py Re Dates Vocabulary TokenNotions ParserNotions.
Open Scope Z_scope.

Lemma isdigit_not_slash c : isdigit c = true -> Ascii.eqb c "/" = false.
Proof.
  intros H. destruct (Ascii.eqb c "/") eqn:E; [|reflexivity].
  apply Ascii.eqb_eq in E. subst c. discriminate H.
Qed.

Lemma token_shape s :
  is_date_token s = true ->
  exists d1 d2 m1 m2 y1 y2,
    s = String d1 (String d2 (String "/" (String m1 (String m2
          (String "/" (String y1 (String y2 EmptyString))))))) /\
    isdigit d1 = true /\ isdigit d2 = true /\ isdigit m1 = true /\
    isdigit m2 = true /\ isdigit y1 = true /\ isdigit y2 = true.
Proof.
  destruct s as [|d1 [|d2 [|s1 [|m1 [|m2 [|s2 [|y1 [|y2 [|c rest]]]]]]]]]; try discriminate.
  unfold is_date_token, is_slash. rewrite !andb_true_iff, !Ascii.eqb_eq.
  intros (((((((H1 & H2) & ->) & H3) & H4) & ->) & H5) & H6).
  exists d1, d2, m1, m2, y1, y2. auto 10.
Qed.

Lemma split_token d1 d2 m1 m2 y1 y2 :
  isdigit d1 = true -> isdigit d2 = true -> isdigit m1 = true ->
  isdigit m2 = true -> isdigit y1 = true -> isdigit y2 = true ->
  split_on "/" (String d1 (String d2 (String "/" (String m1 (String m2
                  (String "/" (String y1 (String y2 EmptyString)))))))) =
  [String d1 (String d2 EmptyString); String m1 (String m2 EmptyString);
   String y1 (String y2 EmptyString)].
Proof.
  intros H1 H2 H3 H4 H5 H6. cbn [split_on].
  rewrite (isdigit_not_slash _ H1), (isdigit_not_slash _ H2), (isdigit_not_slash _ H3),
    (isdigit_not_slash _ H4), (isdigit_not_slash _ H5), (isdigit_not_slash _ H6).
  reflexivity.
Qed.

Lemma days_in_month_bounds y m : 28 <= days_in_month y m <= 31.
Proof.
  unfold days_in_month. destruct (m =? 2); [destruct (is_leap y); lia|].
  destruct (_ || _); lia.
Qed.

Lemma in_range_spec lo hi v :
  in_range lo hi v = if (lo <=? v) && (v <=? hi) then Some v else None.
Proof. reflexivity. Qed.

(** [strptime(s, '%d/%m/%y')] on a date token. *)
Lemma strptime_dmy_token s :
  is_date_token s = true ->
  strptime_dmy s =
  let '(D, M, V) := token_fields s in
  if calendar_day (pivot V) M D then Some (mk_datetime (pivot V) M D) else None.
Proof.
  intros Hs. destruct (token_shape s Hs) as (d1 & d2 & m1 & m2 & y1 & y2 & -> & H1 & H2 & H3 & H4 & H5 & H6).
  unfold strptime_dmy, strptime. rewrite split_token by assumption.
  cbn [token_fields day_field month_field short_year_field].
  rewrite H1, H2, H3, H4, H5, H6. cbn [andb].
  fold (two_digits d1 d2) (two_digits m1 m2) (two_digits y1 y2).
  pose proof (isdigit_val _ H1). pose proof (isdigit_val _ H2).
  pose proof (isdigit_val _ H3). pose proof (isdigit_val _ H4).
  pose proof (isdigit_val _ H5). pose proof (isdigit_val _ H6).
  set (D := two_digits d1 d2). set (M := two_digits m1 m2). set (V := two_digits y1 y2).
  assert (HD : 0 <= D <= 99) by (unfold D, two_digits; lia).
  assert (HM : 0 <= M <= 99) by (unfold M, two_digits; lia).
  assert (HV : 0 <= V <= 99) by (unfold V, two_digits; lia).
  fold (pivot V).
  assert (Hp : 1969 <= pivot V <= 2068) by (unfold pivot; destruct (V <=? 68) eqn:E;
    [apply Z.leb_le in E|apply Z.leb_gt in E]; lia).
  pose proof (days_in_month_bounds (pivot V) M) as Hdim.
  unfold in_range, calendar_day, make_datetime.
  destruct (1 <=? D) eqn:E1; destruct (D <=? 31) eqn:E2;
  destruct (1 <=? M) eqn:E3; destruct (M <=? 12) eqn:E4;
  destruct (D <=? days_in_month (pivot V) M) eqn:E5; cbn [andb];
  try reflexivity;
  try (replace (1 <=? pivot V) with true by (symmetry; apply Z.leb_le; lia);
       replace (pivot V <=? 9999) with true by (symmetry; apply Z.leb_le; lia);
       cbn [andb]; rewrite ?E1, ?E3, ?E4, ?E5; reflexivity);
  try (apply Z.leb_le in E5; apply Z.leb_gt in E2; lia).
Qed.

Lemma calendar_day_pivot V M D :
  0 <= V <= 99 -> calendar_day (pivot V) M D = calendar_day (2000 + V) M D.
Proof.
  intros HV. unfold calendar_day, pivot, days_in_month.
  destruct (V <=? 68) eqn:E; [reflexivity|]. apply Z.leb_gt in E.
  rewrite (leap_shift V) by lia. reflexivity.
Qed.

Lemma token_fields_range s :
  is_date_token s = true ->
  let '(D, M, V) := token_fields s in 0 <= D <= 99 /\ 0 <= M <= 99 /\ 0 <= V <= 99.
Proof.
  intros Hs. destruct (token_shape s Hs) as (d1 & d2 & m1 & m2 & y1 & y2 & -> & H1 & H2 & H3 & H4 & H5 & H6).
  cbn [token_fields]. unfold two_digits.
  pose proof (isdigit_val _ H1). pose proof (isdigit_val _ H2).
  pose proof (isdigit_val _ H3). pose proof (isdigit_val _ H4).
  pose proof (isdigit_val _ H5). pose proof (isdigit_val _ H6). lia.
Qed.

Lemma calendar_day_make y m d :
  1 <= y <= 9999 -> calendar_day y m d = true ->
  make_datetime y m d = Some (mk_datetime y m d).
Proof.
  intros Hy. unfold calendar_day. rewrite !andb_true_iff, !Z.leb_le.
  intros (((H1 & H2) & H3) & H4). apply make_datetime_ok; lia.
Qed.

(** The century rule on a date token. *)
Lemma resolve_date_token s :
  is_date_token s = true ->
  Analyzer.resolve_date s =
  let '(D, M, V) := token_fields s in
  if calendar_day (2000 + V) M D then Some (mk_datetime (2000 + V) M D) else None.
Proof.
  intros Hs. unfold Analyzer.resolve_date. rewrite (strptime_dmy_token s Hs).
  pose proof (token_fields_range s Hs) as Hr.
  destruct (token_fields s) as [[D M] V]. destruct Hr as (_ & _ & HV).
  rewrite (calendar_day_pivot V M D HV).
  destruct (calendar_day (2000 + V) M D) eqn:E; [|reflexivity].
  apply (to_2000s_after_pivot V M D); [exact HV|]. fold (pivot V).
  apply calendar_day_make.
  - unfold pivot. destruct (V <=? 68); lia.
  - rewrite calendar_day_pivot; assumption.
Qed.

End DateTokens.

Section Lines.
Import Py Re Vocabulary TokenNotions ParserNotions.

Lemma split_on_nonempty sep s : split_on sep s <> [].
Proof.
  destruct s as [|c s]; simpl; [discriminate|].
  destruct (Ascii.eqb c sep); [discriminate|]. destruct (split_on sep s); discriminate.
Qed.

Lemma split_on_app sep a b :
  split_on sep (a +:+ String sep b) = split_on sep a ++ split_on sep b.
Proof.
  induction a as [|c a IH]; simpl.
  - rewrite Ascii.eqb_refl. reflexivity.
  - destruct (Ascii.eqb c sep); [rewrite IH; reflexivity|].
    rewrite IH. destruct (split_on sep a) as [|h t] eqn:E; [|reflexivity].
    exfalso. exact (split_on_nonempty sep a E).
Qed.

Lemma all_nonspace_rstrip s :
  all_chars (fun c => negb (isspace c)) s = true -> rstrip s = s.
Proof.
  induction s as [|c s IH]; [reflexivity|]. simpl.
  intros H. apply andb_true_iff in H as [Hc Hs]. rewrite (IH Hs).
  destruct s; [|reflexivity]. apply negb_true_iff in Hc. rewrite Hc. reflexivity.
Qed.

Lemma all_nonspace_strip s :
  all_chars (fun c => negb (isspace c)) s = true -> strip s = s.
Proof.
  intros H. unfold strip. rewrite (all_nonspace_rstrip s H).
  destruct s as [|c s]; [reflexivity|]. simpl in *.
  apply andb_true_iff in H as [Hc _]. apply negb_true_iff in Hc. rewrite Hc. reflexivity.
Qed.

Lemma isdigit_not_space c : isdigit c = true -> isspace c = false.
Proof.
  unfold isdigit, isspace. intros H. apply andb_true_iff in H as [H1 H2].
  apply Nat.leb_le in H1, H2.
  destruct (9 <=? _)%nat eqn:E1, (_ <=? 13)%nat eqn:E2, (28 <=? _)%nat eqn:E3,
           (_ <=? 32)%nat eqn:E4; try reflexivity;
    try apply Nat.leb_le in E2; try apply Nat.leb_le in E4; lia.
Qed.

Lemma strip_token s : is_date_token s = true -> strip s = s.
Proof.
  intros Hs. destruct (token_shape s Hs) as (d1 & d2 & m1 & m2 & y1 & y2 & -> & H1 & H2 & H3 & H4 & H5 & H6).
  apply all_nonspace_strip. cbn [all_chars].
  rewrite (isdigit_not_space _ H1), (isdigit_not_space _ H2), (isdigit_not_space _ H3),
    (isdigit_not_space _ H4), (isdigit_not_space _ H5), (isdigit_not_space _ H6).
  reflexivity.
Qed.

End Lines.

Section ParserDates.
Import Py Re Dates Vocabulary TokenNotions ParserNotions.
Open Scope Z_scope.

Lemma isdigit_not_hyphen c : isdigit c = true -> Ascii.eqb c "-" = false.
Proof.
  intros H. destruct (Ascii.eqb c "-") eqn:E; [|reflexivity].
  apply Ascii.eqb_eq in E. subst c. discriminate H.
Qed.

Lemma parse_date_token s :
  is_date_token s = true -> StatementParser._parse_date s = Analyzer.resolve_date s.
Proof.
  intros Hs. unfold StatementParser._parse_date. rewrite (strip_token s Hs).
  destruct (token_shape s Hs) as (d1 & d2 & m1 & m2 & y1 & y2 & E & H1 & H2 & H3 & H4 & H5 & H6).
  replace (is_empty s) with false by (rewrite E; reflexivity).
  change (StatementParser.try_format (strptime "/" short_year_field) s)
    with (Analyzer.resolve_date s).
  destruct (Analyzer.resolve_date s) as [d|]; [reflexivity|].
  assert (E2 : StatementParser.try_format (strptime "/" long_year_field) s = None).
  { unfold StatementParser.try_format, strptime. rewrite E, split_token by assumption.
    cbn [long_year_field].
    destruct (day_field _); [|reflexivity]. destruct (month_field _); reflexivity. }
  rewrite E2.
  unfold StatementParser.try_format, strptime. rewrite E. cbn [split_on].
  rewrite (isdigit_not_hyphen _ H1), (isdigit_not_hyphen _ H2), (isdigit_not_hyphen _ H3),
    (isdigit_not_hyphen _ H4), (isdigit_not_hyphen _ H5), (isdigit_not_hyphen _ H6).
  reflexivity.
Qed.

End ParserDates.

(** ** Lines without a leading date *)

Section AnalyzerRecords.
Import Py Re Dates Analyzer Vocabulary AnalyzerNotions.

Lemma date_pattern_slice line date_str matched :
  date_pattern line = Some (date_str, matched) -> date_str = slice_to 8 line.
Proof.
  unfold date_pattern.
  destruct line as [|d1 [|d2 [|s1 [|m1 [|m2 [|s2 [|y1 [|y2 rest]]]]]]]]; try discriminate.
  destruct (_ && _); [|discriminate]. intros [= <- _]. reflexivity.
Qed.

Lemma amend_last_forall (P : txn -> Prop) f l :
  (forall t, P t -> P (f t)) -> Forall P l -> Forall P (amend_last f l).
Proof.
  intros Hf. induction l as [|x l IH]; intros H; [constructor|].
  inversion H as [|? ? Hx Hl]; subst. destruct l as [|y l].
  - constructor; [apply Hf, Hx|constructor].
  - change (amend_last f (x :: y :: l)) with (x :: amend_last f (y :: l)).
    constructor; [exact Hx|apply IH, Hl].
Qed.

Lemma amend_last_snoc f (l : list txn) x : amend_last f (l ++ [x]) = l ++ [f x].
Proof.
  induction l as [|y l IH]; [reflexivity|].
  change ((y :: l) ++ [x]) with (y :: (l ++ [x])).
  destruct (l ++ [x]) as [|z l'] eqn:E; [destruct l; discriminate|].
  change (amend_last f (y :: z :: l')) with (y :: amend_last f (z :: l')).
  rewrite IH. reflexivity.
Qed.

Lemma opened_with_description lines s t :
  opened_by_line lines t -> opened_by_line lines (with_description s t).
Proof. intros H. exact H. Qed.

Lemma continuation_opened lines c line :
  opened_by_line lines c -> opened_by_line lines (continuation c line).
Proof.
  intros H. unfold continuation.
  destruct (2 <=? _)%nat; [|exact H].
  destruct (_ =? 2)%nat; [exact H|]. destruct (3 <=? _)%nat; exact H.
Qed.

Lemma new_transaction_opened lines d line matched :
  In line lines ->
  date_pattern line = Some (slice_to 8 line, matched) ->
  resolve_date (slice_to 8 line) = Some d ->
  (2 <= length (findall_amounts line))%nat ->
  opened_by_line lines (new_transaction d line matched (findall_amounts line)).
Proof.
  intros Hin Hd Hr Hn. unfold new_transaction.
  destruct (_ =? 2)%nat; (split; [exact Hin|split; [exists matched; exact Hd|split; [exact Hr|exact Hn]]]).
Qed.

Lemma analyzer_process_line_ok lines st raw :
  In (strip raw) lines ->
  analyzer_state_ok lines st -> analyzer_state_ok lines (process_line st raw).
Proof.
  intros Hin [Ht Hc]. unfold process_line.
  destruct (is_empty (strip raw)); [split; assumption|].
  destruct (is_skipped (strip raw)); [split; assumption|].
  assert (Hsaved : Forall (opened_by_line lines)
            match current_transaction st with
            | Some c => transactions st ++ [c]
            | None => transactions st
            end).
  { destruct (current_transaction st) as [c|]; [|exact Ht].
    apply Forall_app. split; [exact Ht|]. constructor; [exact Hc|constructor]. }
  destruct (date_pattern (strip raw)) as [[date_str matched]|] eqn:Ed.
  - pose proof (date_pattern_slice _ _ _ Ed) as ->.
    destruct (resolve_date _) as [d|] eqn:Er.
    + destruct (2 <=? length (findall_amounts (strip raw)))%nat eqn:E2.
      * split; [exact Hsaved|]. simpl.
        apply new_transaction_opened; try assumption. apply Nat.leb_le, E2.
      * split; [|exact I]. simpl.
        destruct (current_transaction st) as [c|]; [|exact Hsaved].
        apply amend_last_forall; [|exact Hsaved]. intros t H. exact H.
    + split; [exact Hsaved|exact I].
  - destruct (current_transaction st) as [c|] eqn:Ec.
    + split; [exact Ht|]. simpl. apply continuation_opened, Hc.
    + split; [exact Ht|]. rewrite Ec. exact I.
Qed.

Lemma first_pass_opened text :
  Forall (opened_by_line (map strip (split_on newline text))) (first_pass text).
Proof.
  unfold first_pass.
  set (lines := map strip (split_on newline text)).
  assert (H : analyzer_state_ok lines (fold_left process_line (split_on newline text) initial)).
  { apply (fold_left_invariant process_line (analyzer_state_ok lines)
             (fun raw => In (strip raw) lines)).
    - intros s a Ha Hs. apply analyzer_process_line_ok; assumption.
    - apply List.Forall_forall. intros raw Hraw. apply in_map, Hraw.
    - split; [constructor|exact I]. }
  destruct H as [Ht Hc].
  destruct (current_transaction _) as [c|]; [|exact Ht].
  apply Forall_app. split; [exact Ht|]. constructor; [exact Hc|constructor].
Qed.

Lemma backfill_opened lines p t : opened_by_line lines t -> opened_by_line lines (backfill p t).
Proof.
  intros H. destruct (backfill_frame p t) as (Hd & _ & Hr).
  unfold opened_by_line. rewrite Hd, Hr. exact H.
Qed.

Lemma second_pass_forall (P : txn -> Prop) p l :
  (forall q t, P t -> P (backfill q t)) -> Forall P l -> Forall P (second_pass p l).
Proof.
  intros Hb. revert p. induction l as [|t l IH]; intros p H; [constructor|].
  inversion H; subst. simpl. constructor; [apply Hb; assumption|apply IH; assumption].
Qed.

Lemma parse_transactions_opened text :
  Forall (opened_by_line (map strip (split_on newline text))) (parse_transactions text).
Proof.
  unfold parse_transactions. apply second_pass_forall; [|apply first_pass_opened].
  intros q t. apply backfill_opened.
Qed.

End AnalyzerRecords.

Section AnalyzerLeading.
Import Py Re Dates Analyzer Vocabulary TokenNotions ParserNotions.

Lemma analyzer_idle ts raw :
  undated raw = true -> process_line (mk_state ts None) raw = mk_state ts None.
Proof.
  unfold undated, process_line. intros H.
  destruct (is_empty (strip raw)); [reflexivity|].
  destruct (is_skipped (strip raw)); [reflexivity|].
  destruct (date_pattern (strip raw)); [discriminate|reflexivity].
Qed.

Lemma analyzer_idle_fold ts raws :
  Forall (fun raw => undated raw = true) raws ->
  fold_left process_line raws (mk_state ts None) = mk_state ts None.
Proof.
  induction 1 as [|raw raws Hraw _ IH]; [reflexivity|].
  cbn [fold_left]. rewrite (analyzer_idle ts raw Hraw). exact IH.
Qed.

Lemma analyzer_first_pass_leading pre rest :
  Forall (fun raw => undated raw = true) (split_on newline pre) ->
  first_pass (pre +:+ String newline rest) = first_pass rest.
Proof.
  intros H. unfold first_pass. rewrite split_on_app, fold_left_app.
  unfold initial. rewrite (analyzer_idle_fold [] _ H). reflexivity.
Qed.

Lemma analyzer_first_pass_undated text :
  Forall (fun raw => undated raw = true) (split_on newline text) ->
  first_pass text = [].
Proof.
  intros H. unfold first_pass, initial. rewrite (analyzer_idle_fold [] _ H). reflexivity.
Qed.

(** A dated line that starts no transaction. *)
Lemma analyzer_short_line ts c raw date_str matched :
  is_skipped (strip raw) = false ->
  date_pattern (strip raw) = Some (date_str, matched) ->
  (length (findall_amounts (strip raw)) < 2)%nat ->
  process_line (mk_state ts (Some c)) raw =
  mk_state (ts ++ [match resolve_date date_str with
                   | Some _ => with_description (description c +:+ " " +:+ strip raw) c
                   | None => c
                   end]) None.
Proof.
  intros Hs Hd Hn. unfold process_line.
  rewrite (date_pattern_nonempty _ _ Hd), Hs, Hd. cbn [current_transaction transactions].
  destruct (resolve_date date_str); [|reflexivity].
  replace (2 <=? length (findall_amounts (strip raw)))%nat with false
    by (symmetry; apply Nat.leb_gt; exact Hn).
  rewrite amend_last_snoc. reflexivity.
Qed.

End AnalyzerLeading.

Section ParserLeading.
Import Py Re Dates StatementParser Vocabulary TokenNotions ParserNotions.

Lemma lines_of_app pre rest :
  lines_of (pre +:+ String newline rest) = lines_of pre ++ lines_of rest.
Proof. unfold lines_of. rewrite split_on_app, map_app, List.filter_app. reflexivity. Qed.

Lemma lines_of_undated text :
  Forall (fun raw => undated raw = true) (split_on newline text) ->
  Forall (fun line => date_pattern line = None) (lines_of text).
Proof.
  unfold lines_of. induction 1 as [|raw raws Hraw _ IH]; [constructor|].
  cbn [map List.filter]. destruct (negb _); [|exact IH].
  constructor; [|exact IH]. unfold undated in Hraw.
  destruct (date_pattern (strip raw)); [discriminate|reflexivity].
Qed.

Lemma parser_idle ts line :
  date_pattern line = None -> process_line (mk_state ts None) line = mk_state ts None.
Proof.
  intros H. unfold process_line. destruct (is_skipped line); [reflexivity|].
  rewrite H. reflexivity.
Qed.

Lemma parser_idle_fold ts lines :
  Forall (fun line => date_pattern line = None) lines ->
  fold_left process_line lines (mk_state ts None) = mk_state ts None.
Proof.
  induction 1 as [|l ls Hl _ IH]; [reflexivity|].
  cbn [fold_left]. rewrite (parser_idle ts l Hl). exact IH.
Qed.

Lemma parser_leading pre rest :
  Forall (fun raw => undated raw = true) (split_on newline pre) ->
  _parse_transactions_from_text (pre +:+ String newline rest)
  = _parse_transactions_from_text rest.
Proof.
  intros H. unfold _parse_transactions_from_text.
  rewrite lines_of_app, fold_left_app. unfold initial.
  rewrite (parser_idle_fold [] _ (lines_of_undated pre H)). reflexivity.
Qed.

Lemma parser_undated text :
  Forall (fun raw => undated raw = true) (split_on newline text) ->
  _parse_transactions_from_text text = [].
Proof.
  intros H. unfold _parse_transactions_from_text, initial.
  rewrite (parser_idle_fold [] _ (lines_of_undated text H)). reflexivity.
Qed.

(** A dated line without an amount. *)
Lemma parser_bare_date st line date_str matched :
  is_skipped line = false ->
  date_pattern line = Some (date_str, matched) ->
  findall_amounts (strip (slice_from matched line)) = [] ->
  process_line st line = mk_state (flush st) None.
Proof.
  intros Hs Hd Ha. unfold process_line. rewrite Hs, Hd, Ha. reflexivity.
Qed.

End ParserLeading.

Section LeadingLineTheorems.
Import Py Re Num Dates StatementParser Vocabulary TokenNotions ParserNotions.

(** X4.  In the text path of [statement_parser.py] the lines that come before
    the first line with a leading date leave no trace, a text without such a
    line gives no row, and a dated line without any amount closes the open
    row and opens none. *)
Theorem parser_ignores_leading_lines :
  (forall pre rest,
     Forall (fun raw => undated raw = true) (split_on newline pre) ->
     _parse_transactions_from_text (pre +:+ String newline rest)
     = _parse_transactions_from_text rest) /\
  (forall text,
     Forall (fun raw => undated raw = true) (split_on newline text) ->
     _parse_transactions_from_text text = []) /\
  (forall st line date_str matched,
     is_skipped line = false ->
     date_pattern line = Some (date_str, matched) ->
     findall_amounts (strip (slice_from matched line)) = [] ->
     process_line st line = mk_state (flush st) None).
Proof.
  split; [exact parser_leading|]. split; [exact parser_undated|exact parser_bare_date].
Qed.

Lemma parser_ignores_leading_lines_witness :
  let pre := "HDFC BANK LTD" +:+ String newline "12.00 34.00 carried forward" in
  let rest := "01/04/23 UPI-RAMESH 30.00 70.00" in
  Forall (fun raw => undated raw = true) (split_on newline pre) /\
  _parse_transactions_from_text (pre +:+ String newline rest)
  = _parse_transactions_from_text rest /\
  _parse_transactions_from_text pre = [] /\
  process_line (mk_state [] (Some (mk_row "01/04/23" "A" "" "01/04/23" "" "" "7.00")))
               "02/04/23 see overleaf"
  = mk_state [mk_row "01/04/23" "A" "" "01/04/23" "" "" "7.00"] None.
Proof.
  cbv zeta. destruct parser_ignores_leading_lines as (H1 & H2 & H3).
  assert (Hpre : Forall (fun raw => undated raw = true)
            (split_on newline ("HDFC BANK LTD" +:+ String newline "12.00 34.00 carried forward"))).
  { apply Forall_by_evaluation. vm_compute. reflexivity. }
  split; [exact Hpre|]. split; [apply H1, Hpre|]. split; [apply H2, Hpre|].
  rewrite (H3 (mk_state [] (Some (mk_row "01/04/23" "A" "" "01/04/23" "" "" "7.00")))
              "02/04/23 see overleaf" "02/04/23" 9) by (vm_compute; reflexivity).
  vm_compute. reflexivity.
Defined.

End LeadingLineTheorems.

Section AnalyzerTheorems.
Import Py Re Num Dates Analyzer Vocabulary TokenNotions ParserNotions AnalyzerNotions.

(** X5.  In [parse_transactions] the lines that come before the first line
    with a leading date leave no trace, and a text without such a line gives
    no transaction. *)
Theorem analyzer_ignores_leading_lines :
  (forall pre rest,
     Forall (fun raw => undated raw = true) (split_on newline pre) ->
     parse_transactions (pre +:+ String newline rest) = parse_transactions rest) /\
  (forall text,
     Forall (fun raw => undated raw = true) (split_on newline text) ->
     parse_transactions text = []).
Proof.
  split.
  - intros pre rest H. unfold parse_transactions.
    rewrite (analyzer_first_pass_leading pre rest H). reflexivity.
  - intros text H. unfold parse_transactions.
    rewrite (analyzer_first_pass_undated text H). reflexivity.
Qed.

Lemma analyzer_ignores_leading_lines_witness :
  let pre := "HDFC BANK LTD" +:+ String newline "12.00 34.00 carried forward" in
  let rest := "01/04/23 UPI-RAMESH 30.00 70.00" in
  Forall (fun raw => undated raw = true) (split_on newline pre) /\
  parse_transactions (pre +:+ String newline rest) = parse_transactions rest /\
  parse_transactions pre = [].
Proof.
  cbv zeta. destruct analyzer_ignores_leading_lines as (H1 & H2).
  assert (Hpre : Forall (fun raw => undated raw = true)
            (split_on newline ("HDFC BANK LTD" +:+ String newline "12.00 34.00 carried forward"))).
  { apply Forall_by_evaluation. vm_compute. reflexivity. }
  split; [exact Hpre|]. split; [apply H1, Hpre|apply H2, Hpre].
Defined.

(** X6.  Every transaction that [parse_transactions] returns was opened by a
    line of the text: its [raw_line] is one of the stripped lines, starts
    with a date token and holds at least two amount tokens, and its date is
    the day and the month of that token in the year 2000 plus its two
    digits, a day that exists in the calendar. *)
Theorem analyzer_records_come_from_dated_lines text t :
  In t (parse_transactions text) ->
  In (raw_line t) (map strip (split_on newline text)) /\
  is_date_token (slice_to 8 (raw_line t)) = true /\
  (2 <= length (findall_amounts (raw_line t)))%nat /\
  (let '(D, M, V) := token_fields (raw_line t) in
   date t = mk_datetime (2000 + V) M D /\ calendar_day (2000 + V) M D = true /\
   (0 <= V <= 99)%Z).
Proof.
  intros H. pose proof (parse_transactions_opened text) as Hall.
  rewrite List.Forall_forall in Hall.
  destruct (Hall t H) as (Hin & (matched & Hd) & Hr & Hn).
  pose proof (date_pattern_token _ _ _ Hd) as Htok.
  split; [exact Hin|]. split; [exact Htok|]. split; [exact Hn|].
  rewrite (resolve_date_token _ Htok) in Hr.
  pose proof (token_fields_range _ Htok) as Hrange.
  assert (E : token_fields (slice_to 8 (raw_line t)) = token_fields (raw_line t)).
  { destruct (token_shape _ Htok) as (d1 & d2 & m1 & m2 & y1 & y2 & E & _).
    unfold slice_to in E.
    destruct (raw_line t) as [|a1 [|a2 [|a3 [|a4 [|a5 [|a6 [|a7 [|a8 rest]]]]]]]];
      try discriminate E.
    cbn in E. destruct rest; injection E as -> -> -> -> -> -> -> ->; reflexivity. }
  rewrite E in Hr, Hrange. destruct (token_fields (raw_line t)) as [[D M] V].
  destruct (calendar_day (2000 + V) M D); [|discriminate].
  injection Hr as <-. split; [reflexivity|]. split; [reflexivity|]. apply Hrange.
Qed.

Lemma analyzer_records_come_from_dated_lines_witness :
  let text := "01/04/23 OPENING 10.00 20.00 100.00"
              +:+ String newline "  29/02/24 UPI-RAMESH 30.00 70.00 " in
  let t := mk_txn (mk_datetime 2024 2 29) "UPI-RAMESH" (Num.of_Z 30) zero (amount "70.00")
             None "29/02/24 UPI-RAMESH 30.00 70.00" in
  In t (parse_transactions text) /\
  In (raw_line t) (map strip (split_on newline text)) /\
  is_date_token (slice_to 8 (raw_line t)) = true /\
  (2 <= length (findall_amounts (raw_line t)))%nat /\
  (let '(D, M, V) := token_fields (raw_line t) in
   date t = mk_datetime (2000 + V) M D /\ calendar_day (2000 + V) M D = true /\
   (0 <= V <= 99)%Z).
Proof.
  cbv zeta.
  assert (H : In (mk_txn (mk_datetime 2024 2 29) "UPI-RAMESH" (Num.of_Z 30) zero
                    (amount "70.00") None "29/02/24 UPI-RAMESH 30.00 70.00")
                 (parse_transactions
                    ("01/04/23 OPENING 10.00 20.00 100.00"
                     +:+ String newline "  29/02/24 UPI-RAMESH 30.00 70.00 "))).
  { vm_compute. right. left. reflexivity. }
  split; [exact H|].
  exact (analyzer_records_come_from_dated_lines _ _ H).
Defined.

(** X7.  On a date token [dd/mm/yy] the analyzer resolves the date exactly
    when day [dd] of month [mm] exists in the year 2000 plus [yy], and then
    to that day.  A dated line whose token names no such day (31/02/23)
    closes the open transaction and opens none. *)
Theorem resolve_date_on_tokens :
  (forall s, is_date_token s = true ->
     resolve_date s =
     let '(D, M, V) := token_fields s in
     if calendar_day (2000 + V) M D then Some (mk_datetime (2000 + V) M D) else None) /\
  (forall ts c raw date_str matched,
     is_skipped (strip raw) = false ->
     date_pattern (strip raw) = Some (date_str, matched) ->
     resolve_date date_str = None ->
     process_line (mk_state ts (Some c)) raw = mk_state (ts ++ [c]) None).
Proof.
  split; [exact resolve_date_token|].
  intros ts c raw date_str matched Hs Hd Hr. unfold process_line.
  rewrite (date_pattern_nonempty _ _ Hd), Hs, Hd, Hr. reflexivity.
Qed.

Lemma resolve_date_on_tokens_witness :
  (is_date_token "29/02/24" = true /\
   resolve_date "29/02/24" = Some (mk_datetime 2024 2 29)) /\
  (is_date_token "31/02/23" = true /\ resolve_date "31/02/23" = None) /\
  (let c := mk_txn (mk_datetime 2023 1 5) "A" zero zero (amount "7.00") None "05/01/23 A 1.00 7.00" in
   process_line (mk_state [] (Some c)) "31/02/23 B 2.00 5.00" = mk_state [c] None).
Proof.
  cbv zeta. destruct resolve_date_on_tokens as (H1 & H2).
  split; [|split].
  - split; [reflexivity|]. rewrite (H1 "29/02/24" eq_refl). vm_compute. reflexivity.
  - split; [reflexivity|]. rewrite (H1 "31/02/23" eq_refl). vm_compute. reflexivity.
  - apply (H2 [] (mk_txn (mk_datetime 2023 1 5) "A" zero zero (amount "7.00") None
                      "05/01/23 A 1.00 7.00")
              "31/02/23 B 2.00 5.00" "31/02/23" 9); vm_compute; reflexivity.
Defined.

(** X8.  A dated line with fewer than two amount tokens is no transaction
    of its own.  The open transaction is closed; when the date of the line
    resolves, the whole line is appended to the description of the
    transaction just closed, after a space.  The lines that follow, up to
    the next dated line, are dropped. *)
Theorem short_dated_line_joins_previous_description :
  forall ts c raw date_str matched followers,
    is_skipped (strip raw) = false ->
    date_pattern (strip raw) = Some (date_str, matched) ->
    (length (findall_amounts (strip raw)) < 2)%nat ->
    Forall (fun r => undated r = true) followers ->
    fold_left process_line (raw :: followers) (mk_state ts (Some c)) =
    mk_state (ts ++ [match resolve_date date_str with
                     | Some _ => with_description (description c +:+ " " +:+ strip raw) c
                     | None => c
                     end]) None.
Proof.
  intros ts c raw date_str matched followers Hs Hd Hn Hf. cbn [fold_left].
  rewrite (analyzer_short_line ts c raw date_str matched Hs Hd Hn).
  apply analyzer_idle_fold, Hf.
Qed.

Lemma short_dated_line_joins_previous_description_witness :
  let c := mk_txn (mk_datetime 2023 4 1) "UPI-RAMESH" zero zero (amount "70.00")
             (Some (amount "30.00")) "01/04/23 UPI-RAMESH 30.00 70.00" in
  fold_left process_line ["02/04/23 CHQ RETURN 70.00"; "insufficient funds"]
            (mk_state [] (Some c)) =
  mk_state [with_description "UPI-RAMESH 02/04/23 CHQ RETURN 70.00" c] None.
Proof.
  cbv zeta.
  rewrite (short_dated_line_joins_previous_description [] _ "02/04/23 CHQ RETURN 70.00"
             "02/04/23" 9 ["insufficient funds"]).
  - vm_compute. reflexivity.
  - vm_compute. reflexivity.
  - vm_compute. reflexivity.
  - vm_compute. lia.
  - apply Forall_by_evaluation. vm_compute. reflexivity.
Defined.

End AnalyzerTheorems.

Section ParserDateTheorems.
Import Py Re Num Dates StatementParser Vocabulary TokenNotions ParserNotions.
Open Scope Z_scope.

(** X9.  On a date token [dd/mm/yy] that names a day of the calendar,
    [_parse_date] answers with the year 2000 plus [yy], while the date column
    of [to_dataframe] answers with the year that [%y] gives: the same for
    [yy] up to 68, a century earlier from 69 on.  On a token that names no
    day both answer with nothing. *)
Theorem parser_dates_on_tokens s :
  is_date_token s = true ->
  let '(D, M, V) := token_fields s in
  _parse_date s =
    (if calendar_day (2000 + V) M D then Some (mk_datetime (2000 + V) M D) else None) /\
  to_datetime_dmy s =
    (if calendar_day (2000 + V) M D then Some (mk_datetime (pivot V) M D) else None) /\
  (pivot V = 2000 + V <-> V <= 68).
Proof.
  intros Hs. rewrite (parse_date_token s Hs), (resolve_date_token s Hs).
  unfold to_datetime_dmy. rewrite (strptime_dmy_token s Hs).
  pose proof (token_fields_range s Hs) as Hr.
  destruct (token_fields s) as [[D M] V]. destruct Hr as (_ & _ & HV).
  rewrite (calendar_day_pivot V M D HV).
  split; [reflexivity|]. split; [reflexivity|].
  unfold pivot. destruct (V <=? 68) eqn:E; [apply Z.leb_le in E|apply Z.leb_gt in E]; lia.
Qed.

Lemma parser_dates_on_tokens_witness :
  is_date_token "15/06/99" = true /\
  _parse_date "15/06/99" = Some (mk_datetime 2099 6 15) /\
  to_datetime_dmy "15/06/99" = Some (mk_datetime 1999 6 15).
Proof.
  split; [reflexivity|].
  pose proof (parser_dates_on_tokens "15/06/99" eq_refl) as H.
  cbv beta iota zeta delta [token_fields] in H.
  destruct H as (H1 & H2 & _). split.
  - rewrite H1. vm_compute. reflexivity.
  - rewrite H2. vm_compute. reflexivity.
Defined.

End ParserDateTheorems.

(** ** Tables of a statement *)

Section Trimming.
Import Py.

Lemma rstrip_rstrip s : rstrip (rstrip s) = rstrip s.
Proof.
  induction s as [|c s IH]; [reflexivity|].
  cbn [rstrip]. destruct (rstrip s) as [|c' r] eqn:E.
  - destruct (isspace c) eqn:Ec; [reflexivity|]. cbn [rstrip]. rewrite Ec. reflexivity.
  - cbn [rstrip]. cbn [rstrip] in IH. rewrite IH. reflexivity.
Qed.

Lemma rstrip_lstrip s : rstrip s = s -> rstrip (lstrip s) = lstrip s.
Proof.
  induction s as [|c s IH]; [reflexivity|].
  intros H. cbn [lstrip]. destruct (isspace c) eqn:Ec; [|exact H].
  apply IH. cbn [rstrip] in H. destruct (rstrip s) as [|c' r].
  - rewrite Ec in H. discriminate.
  - injection H as H. exact H.
Qed.

Lemma lstrip_lstrip s : lstrip (lstrip s) = lstrip s.
Proof.
  induction s as [|c s IH]; [reflexivity|].
  cbn [lstrip]. destruct (isspace c) eqn:Ec; [exact IH|].
  cbn [lstrip]. rewrite Ec. reflexivity.
Qed.

Lemma strip_strip s : strip (strip s) = strip s.
Proof.
  unfold strip. rewrite (rstrip_lstrip (rstrip s)) by apply rstrip_rstrip.
  apply lstrip_lstrip.
Qed.

End Trimming.

Section Tables.
Import Py Re StatementParser Fmt ParserTables TokenNotions ParserNotions.

Lemma map_row_trimmed row : trimmed_row (map_row row).
Proof. unfold trimmed_row, map_row, cell_at. simpl. rewrite !strip_strip. auto 10. Qed.

Lemma data_rows_ok rows : Forall table_row (data_rows rows).
Proof.
  induction rows as [|row rest IH]; [constructor|]. cbn [data_rows].
  destruct (blank_row row); [exact IH|].
  destruct (date_prefix (cell_at 0 row)) eqn:E; [|exact IH].
  constructor; [|exact IH]. split; [exact E|apply map_row_trimmed].
Qed.

Lemma date_prefix_not_blank row : date_prefix (cell_at 0 row) = true -> blank_row row = false.
Proof.
  unfold blank_row, cell_at. intros H. apply negb_false_iff.
  destruct row as [|c row]; [discriminate H|]. cbn [nth] in H. cbn [existsb].
  destruct (strip (text c)); [discriminate H|reflexivity].
Qed.

(** A later table is read like the rows below a header. *)
Lemma later_rows_data_rows rows : later_rows rows = data_rows rows.
Proof.
  induction rows as [|row rest IH]; [reflexivity|]. cbn [later_rows data_rows].
  destruct (date_prefix (cell_at 0 row)) eqn:E.
  - rewrite (date_prefix_not_blank row E), IH. reflexivity.
  - rewrite IH. destruct (blank_row row); reflexivity.
Qed.

Lemma normalize_columns_ok table_rows : Forall table_row (_normalize_columns table_rows).
Proof.
  unfold _normalize_columns. destruct (_ <? 2)%nat; [constructor|apply data_rows_ok].
Qed.

Lemma first_header_none i rows :
  Forall (fun row => is_header row = false) rows -> first_header i rows = None.
Proof.
  intros H. revert i. induction H as [|row rest Hrow _ IH]; intros i; [reflexivity|].
  cbn [first_header]. rewrite Hrow. apply IH.
Qed.

Lemma first_header_found i pre row post :
  Forall (fun row => is_header row = false) pre -> is_header row = true ->
  first_header i (pre ++ row :: post) = Some (i + length pre).
Proof.
  intros H Hrow. revert i. induction H as [|r rest Hr _ IH]; intros i.
  - cbn [app first_header length]. rewrite Hrow. f_equal. lia.
  - cbn [app first_header length]. rewrite Hr, IH. f_equal. lia.
Qed.

Lemma table_step_ok st table :
  Forall table_row (fst st) -> Forall table_row (fst (table_step st table)).
Proof.
  destruct st as [rows used]. cbn [fst]. intros H. unfold table_step.
  destruct (cleaned table) as [|r rs]; [exact H|].
  destruct used; cbn [fst]; apply Forall_app; (split; [exact H|]).
  - rewrite later_rows_data_rows. apply data_rows_ok.
  - apply normalize_columns_ok.
Qed.

Lemma extract_ok pages : Forall table_row (extract_with_pdfplumber pages).
Proof.
  unfold extract_with_pdfplumber.
  apply (fold_left_invariant table_step (fun st => Forall table_row (fst st)) (fun _ => True)).
  - intros s a _ Hs. apply table_step_ok, Hs.
  - apply List.Forall_forall. intros; exact I.
  - constructor.
Qed.

Lemma used_fold tables rows :
  fold_left table_step tables (rows, true) =
  (rows ++ flat_map (fun t => data_rows (cleaned t)) tables, true).
Proof.
  revert rows. induction tables as [|t ts IH]; intros rows.
  - cbn. rewrite app_nil_r. reflexivity.
  - cbn [fold_left flat_map]. unfold table_step at 2.
    destruct (cleaned t) as [|r rs] eqn:E.
    + rewrite IH. reflexivity.
    + rewrite IH, later_rows_data_rows, <- app_assoc. reflexivity.
Qed.

Lemma unused_fold skipped t tables :
  Forall (fun t => cleaned t = []) skipped -> cleaned t <> [] ->
  fold_left table_step (skipped ++ t :: tables) ([], false) =
  (_normalize_columns (cleaned t) ++ flat_map (fun t => data_rows (cleaned t)) tables, true).
Proof.
  intros H Ht. induction H as [|s ss Hs _ IH].
  - cbn [app fold_left]. unfold table_step at 2.
    destruct (cleaned t) as [|r rs] eqn:E; [congruence|]. cbn [app]. apply used_fold.
  - cbn [app fold_left]. unfold table_step at 2. rewrite Hs. exact IH.
Qed.

Lemma unused_fold_nothing tables :
  Forall (fun t => cleaned t = []) tables ->
  fold_left table_step tables ([], false) = ([], false).
Proof.
  induction 1 as [|s ss Hs _ IH]; [reflexivity|].
  cbn [fold_left]. unfold table_step at 2. rewrite Hs. exact IH.
Qed.

Lemma token_is_prefix s : is_date_token s = true -> date_prefix s = true.
Proof.
  intros H. destruct (token_shape s H) as (d1 & d2 & m1 & m2 & y1 & y2 & -> & H1 & H2 & H3 & H4 & H5 & H6).
  cbn. rewrite H1, H2, H3, H4, H5, H6. reflexivity.
Qed.

Lemma sublist_forall {A} (P : A -> Prop) (l1 l2 : list A) :
  sublist l1 l2 -> Forall P l2 -> Forall P l1.
Proof.
  induction 1 as [|x l1 l2 _ IH|x l1 l2 _ IH]; intros H.
  - constructor.
  - inversion H; subst. constructor; auto.
  - inversion H; subst. auto.
Qed.

End Tables.

Section TableTheorems.
Import Py Re StatementParser Fmt ParserTables Vocabulary ParserNotions TokenNotions.

Lemma skipn_after (pre : list (list cell)) header post :
  skipn (S (length pre)) (pre ++ header :: post) = post.
Proof. induction pre as [|r pre IH]; [reflexivity|exact IH]. Qed.

(** X10.  [_normalize_columns] of the table path returns nothing for a
    table of fewer than two rows.  Otherwise it reads the rows below the
    first row that mentions "Date" together with "Closing" or "Balance",
    and when no row does, the rows below the first one, which is then lost
    whatever it holds.  Every row it returns begins with a date of the
    shape dd/dd/dd and has all seven cells trimmed. *)
Theorem table_rows_below_the_header :
  (forall table_rows, (length table_rows < 2)%nat -> _normalize_columns table_rows = []) /\
  (forall pre header post,
     Forall (fun row => is_header row = false) pre -> is_header header = true ->
     (2 <= length (pre ++ header :: post))%nat ->
     _normalize_columns (pre ++ header :: post) = data_rows post) /\
  (forall first rest,
     Forall (fun row => is_header row = false) (first :: rest) -> rest <> [] ->
     _normalize_columns (first :: rest) = data_rows rest) /\
  (forall table_rows r,
     In r (_normalize_columns table_rows) ->
     date_prefix (COL_DATE r) = true /\ trimmed_row r).
Proof.
  split; [|split; [|split]].
  - intros table_rows H. unfold _normalize_columns.
    replace (length table_rows <? 2)%nat with true by (symmetry; apply Nat.ltb_lt, H).
    reflexivity.
  - intros pre header post Hpre Hh Hlen. unfold _normalize_columns, header_row_idx.
    replace (length (pre ++ header :: post) <? 2)%nat with false
      by (symmetry; apply Nat.ltb_ge, Hlen).
    rewrite (first_header_found 0 pre header post Hpre Hh). cbn [Nat.add].
    rewrite skipn_after. reflexivity.
  - intros first rest Hall Hrest. unfold _normalize_columns, header_row_idx.
    rewrite (first_header_none 0 _ Hall).
    destruct rest as [|r rest]; [congruence|]. reflexivity.
  - intros table_rows r H. pose proof (normalize_columns_ok table_rows) as Hall.
    rewrite List.Forall_forall in Hall. exact (Hall r H).
Qed.

Lemma table_rows_below_the_header_witness :
  let dated := [Some "01/04/23"; Some " UPI-RAMESH "; None; Some "01/04/23"; Some "30.00";
                None; Some "70.00"] in
  let header := [Some "Date"; Some "Narration"; Some "Closing Balance"] in
  let r := mk_row "01/04/23" "UPI-RAMESH" "" "01/04/23" "30.00" "" "70.00" in
  _normalize_columns [dated] = [] /\
  _normalize_columns ([[Some "Statement"]] ++ header :: [dated]) = [r] /\
  _normalize_columns [dated; dated] = [r] /\
  (date_prefix (COL_DATE r) = true /\ trimmed_row r).
Proof.
  cbv zeta. destruct table_rows_below_the_header as (H1 & H2 & H3 & H4).
  split; [apply H1; cbn; lia|]. split; [|split].
  - rewrite H2; [vm_compute; reflexivity| |vm_compute; reflexivity|cbn; lia].
    constructor; [vm_compute; reflexivity|constructor].
  - rewrite H3; [vm_compute; reflexivity| |discriminate].
    repeat constructor.
  - apply (H4 [[Some "Date"; Some "Balance"];
               [Some "01/04/23"; Some " UPI-RAMESH "; None; Some "01/04/23"; Some "30.00";
                None; Some "70.00"]]).
    vm_compute. left. reflexivity.
Defined.

(** X11.  [extract_with_pdfplumber] searches a header only in the first
    table that has a row with text: that table goes through
    [_normalize_columns], and every later table gives all its rows that begin
    with a date, the first row included.  Tables without text count for
    nothing.  Every row returned begins with a date of the shape dd/dd/dd
    and has all seven cells trimmed. *)
Theorem only_first_table_is_searched_for_a_header :
  (forall pages skipped t tables,
     concat pages = skipped ++ t :: tables ->
     Forall (fun t => cleaned t = []) skipped -> cleaned t <> [] ->
     extract_with_pdfplumber pages =
     _normalize_columns (cleaned t) ++ flat_map (fun t => data_rows (cleaned t)) tables) /\
  (forall pages,
     Forall (fun t => cleaned t = []) (concat pages) -> extract_with_pdfplumber pages = []) /\
  (forall pages r,
     In r (extract_with_pdfplumber pages) ->
     date_prefix (COL_DATE r) = true /\ trimmed_row r).
Proof.
  split; [|split].
  - intros pages skipped t tables Hc Hs Ht. unfold extract_with_pdfplumber.
    rewrite Hc, (unused_fold skipped t tables Hs Ht). reflexivity.
  - intros pages H. unfold extract_with_pdfplumber.
    rewrite (unused_fold_nothing _ H). reflexivity.
  - intros pages r H. pose proof (extract_ok pages) as Hall.
    rewrite List.Forall_forall in Hall. exact (Hall r H).
Qed.

Lemma only_first_table_is_searched_for_a_header_witness :
  let dated := [Some "01/04/23"; Some "UPI-RAMESH"; None; Some "01/04/23"; Some "30.00";
                None; Some "70.00"] in
  let r := mk_row "01/04/23" "UPI-RAMESH" "" "01/04/23" "30.00" "" "70.00" in
  let pages := [[[[None; Some ""]]; [dated; dated]]; [[dated]]] in
  extract_with_pdfplumber pages = [r; r] /\
  extract_with_pdfplumber [[[[None; Some ""]]]] = [] /\
  (date_prefix (COL_DATE r) = true /\ trimmed_row r).
Proof.
  cbv zeta. destruct only_first_table_is_searched_for_a_header as (H1 & H2 & H3).
  split; [|split].
  - rewrite (H1 _ [[[None; Some ""]]]
               [[Some "01/04/23"; Some "UPI-RAMESH"; None; Some "01/04/23"; Some "30.00";
                 None; Some "70.00"];
                [Some "01/04/23"; Some "UPI-RAMESH"; None; Some "01/04/23"; Some "30.00";
                 None; Some "70.00"]]
               [[[Some "01/04/23"; Some "UPI-RAMESH"; None; Some "01/04/23"; Some "30.00";
                  None; Some "70.00"]]]).
    + vm_compute. reflexivity.
    + reflexivity.
    + constructor; [reflexivity|constructor].
    + vm_compute. discriminate.
  - apply H2. constructor; [reflexivity|constructor].
  - apply (H3 [[[[Some "01/04/23"; Some "UPI-RAMESH"; None; Some "01/04/23"; Some "30.00";
                  None; Some "70.00"];
                 [Some "01/04/23"; Some "UPI-RAMESH"; None; Some "01/04/23"; Some "30.00";
                  None; Some "70.00"]]]]).
    vm_compute. left. reflexivity.
Defined.

(** X12.  [load_statement] takes the rows of the tables when there is one,
    and falls back on the text of the pages only when the tables give no row
    at all.  In both cases every row returned begins with a date of the shape
    dd/dd/dd and no two rows share date, first 80 characters of the narration
    and balance. *)
Theorem load_statement_prefers_tables :
  (forall pages page_text,
     extract_with_pdfplumber pages <> [] ->
     load_statement pages page_text = _dedupe_and_clean (extract_with_pdfplumber pages)) /\
  (forall pages page_text,
     extract_with_pdfplumber pages = [] ->
     load_statement pages page_text = load_statement_text page_text) /\
  (forall pages page_text r,
     In r (load_statement pages page_text) -> date_prefix (COL_DATE r) = true) /\
  (forall pages page_text, NoDup (map dedupe_key (load_statement pages page_text))).
Proof.
  split; [|split; [|split]].
  - intros pages page_text H. unfold load_statement.
    destruct (extract_with_pdfplumber pages); [congruence|reflexivity].
  - intros pages page_text H. unfold load_statement. rewrite H. reflexivity.
  - intros pages page_text r H. unfold load_statement in H.
    assert (Hsub : forall rows, Forall (fun r => date_prefix (COL_DATE r) = true) rows ->
                     Forall (fun r => date_prefix (COL_DATE r) = true) (_dedupe_and_clean rows)).
    { intros rows. apply sublist_forall. apply dedupe_from_sublist. }
    assert (Hall : Forall (fun r => date_prefix (COL_DATE r) = true)
                     (load_statement pages page_text)).
    { unfold load_statement. apply Hsub.
      destruct (extract_with_pdfplumber pages) as [|r0 rows] eqn:E.
      - eapply List.Forall_impl; [|apply parsed_rows_ok].
        intros a Ha. apply token_is_prefix, Ha.
      - rewrite <- E. eapply List.Forall_impl; [|apply extract_ok].
        intros a Ha. apply Ha. }
    rewrite List.Forall_forall in Hall. exact (Hall r H).
  - intros pages page_text. unfold load_statement, _dedupe_and_clean. apply dedupe_from_nodup.
Qed.

Lemma load_statement_prefers_tables_witness :
  let dated := [Some "01/04/23"; Some "UPI-RAMESH"; None; Some "01/04/23"; Some "30.00";
                None; Some "70.00"] in
  let r := mk_row "01/04/23" "UPI-RAMESH" "" "01/04/23" "30.00" "" "70.00" in
  let page_text := "02/04/23 NEFT-SURESH 5.00 75.00" in
  load_statement [[[[Some "Date"; Some "Balance"]; dated; dated]]] page_text = [r] /\
  load_statement [[[dated]]] page_text = load_statement_text page_text /\
  date_prefix (COL_DATE r) = true.
Proof.
  cbv zeta. destruct load_statement_prefers_tables as (H1 & H2 & H3 & _).
  split; [|split].
  - rewrite H1; [vm_compute; reflexivity|vm_compute; discriminate].
  - apply H2. vm_compute. reflexivity.
  - apply (H3 [[[[Some "Date"; Some "Balance"];
                 [Some "01/04/23"; Some "UPI-RAMESH"; None; Some "01/04/23"; Some "30.00";
                  None; Some "70.00"]]]] "").
    vm_compute. left. reflexivity.
Defined.

End TableTheorems.

(** ** The OFX export *)

Section Escaping.
Import Py Fmt Ofx OfxNotions.

Lemma replace_char_app c rep a b :
  replace_char c rep (a +:+ b) = replace_char c rep a +:+ replace_char c rep b.
Proof.
  induction a as [|x a IH]; [reflexivity|]. cbn [String.append replace_char].
  destruct (Ascii.eqb x c); rewrite IH; [rewrite app_assoc_s|]; reflexivity.
Qed.

Lemma escape_app a b : escape (a +:+ b) = escape a +:+ escape b.
Proof. unfold escape. rewrite !replace_char_app. reflexivity. Qed.

Lemma escape_char c : escape (String c EmptyString) = entity c.
Proof.
  unfold escape, entity. cbn [replace_char].
  destruct (Ascii.eqb c "&") eqn:E1; [reflexivity|]. cbn [replace_char].
  destruct (Ascii.eqb c "<") eqn:E2; [reflexivity|]. cbn [replace_char].
  destruct (Ascii.eqb c ">") eqn:E3; reflexivity.
Qed.

Lemma escape_cons c s : escape (String c s) = entity c +:+ escape s.
Proof.
  change (String c s) with (String c EmptyString +:+ s).
  rewrite escape_app, escape_char. reflexivity.
Qed.

Lemma occurs_app c a b : occurs c (a +:+ b) = occurs c a || occurs c b.
Proof.
  induction a as [|x a IH]; [reflexivity|]. cbn [String.append occurs].
  rewrite IH, orb_assoc. reflexivity.
Qed.

Lemma occurs_entity_lt c : occurs "<" (entity c) = false.
Proof.
  unfold entity. destruct (Ascii.eqb c "&"); [reflexivity|].
  destruct (Ascii.eqb c "<") eqn:E; [reflexivity|].
  destruct (Ascii.eqb c ">"); [reflexivity|]. cbn [occurs]. rewrite E. reflexivity.
Qed.

Lemma occurs_entity_gt c : occurs ">" (entity c) = false.
Proof.
  unfold entity. destruct (Ascii.eqb c "&"); [reflexivity|].
  destruct (Ascii.eqb c "<"); [reflexivity|].
  destruct (Ascii.eqb c ">") eqn:E; [reflexivity|]. cbn [occurs]. rewrite E. reflexivity.
Qed.

Lemma escape_no_angle s : occurs "<" (escape s) = false /\ occurs ">" (escape s) = false.
Proof.
  induction s as [|c s [IH1 IH2]]; [split; reflexivity|].
  rewrite escape_cons, !occurs_app, IH1, IH2, occurs_entity_lt, occurs_entity_gt.
  split; reflexivity.
Qed.

Lemma contains_char c s : contains (String c EmptyString) s = occurs c s.
Proof.
  induction s as [|x s IH]; [reflexivity|]. cbn [contains occurs String.prefix].
  rewrite IH. destruct (ascii_dec c x) as [->|Hne].
  - rewrite Ascii.eqb_refl, prefix_empty. reflexivity.
  - replace (Ascii.eqb x c) with false; [reflexivity|].
    symmetry. apply Ascii.eqb_neq. congruence.
Qed.

End Escaping.

Section Numerals.
Import Py Dates Fmt Ofx OfxNotions.

Lemma iter_zero_uint k d :
  Nat.iter k (String "0"%char) (DecimalString.NilEmpty.string_of_uint d)
  = DecimalString.NilEmpty.string_of_uint (Nat.iter k Decimal.D0 d).
Proof. induction k as [|k IH]; [reflexivity|]. rewrite !Nat.iter_succ, IH. reflexivity. Qed.

Lemma string_of_uint_inj d d' :
  DecimalString.NilEmpty.string_of_uint d = DecimalString.NilEmpty.string_of_uint d' -> d = d'.
Proof.
  intros H. pose proof (DecimalString.NilEmpty.usu d) as H1. rewrite H, DecimalString.NilEmpty.usu in H1.
  congruence.
Qed.

Lemma zfill_inj w a b : zfill w (decimal a) = zfill w (decimal b) -> a = b.
Proof.
  unfold zfill, decimal. rewrite !iter_zero_uint. intros H.
  apply string_of_uint_inj in H.
  apply (f_equal Decimal.unorm) in H. rewrite !DecimalFacts.unorm_iter_D0 in H.
  apply (f_equal Nat.of_uint) in H.
  rewrite !DecimalNat.Unsigned.of_uint_norm, !DecimalNat.Unsigned.of_to in H. exact H.
Qed.

Lemma length_iter_zero k s :
  String.length (Nat.iter k (String "0"%char) s) = (k + String.length s)%nat.
Proof.
  induction k as [|k IH]; [reflexivity|].
  rewrite Nat.iter_succ. cbn [String.length]. rewrite IH. reflexivity.
Qed.

Lemma length_zfill w s : String.length (zfill w s) = Nat.max w (String.length s).
Proof. unfold zfill. rewrite length_iter_zero. lia. Qed.

Lemma length_decimal_4 y :
  (1000 <= y <= 9999)%Z -> String.length (decimal (Z.to_nat y)) = 4%nat.
Proof.
  intros H.
  assert (Hall : forallb (fun n => String.length (decimal n) =? 4)%nat
                         (seq 1000 (90 * 100)) = true)
    by (vm_compute; reflexivity).
  rewrite forallb_forall in Hall. apply Nat.eqb_eq, Hall, in_seq. lia.
Qed.

Lemma length_decimal_2 v :
  (0 <= v <= 99)%Z -> (String.length (decimal (Z.to_nat v)) <= 2)%nat.
Proof.
  intros H.
  assert (Hall : forallb (fun n => String.length (decimal n) <=? 2)%nat (seq 0 100) = true)
    by (vm_compute; reflexivity).
  rewrite forallb_forall in Hall. apply Nat.leb_le, Hall, in_seq. lia.
Qed.

Lemma length_strftime dt : timestamp dt -> String.length (strftime_Ymd dt) = 8%nat.
Proof.
  intros (Hy & Hm & Hd). unfold strftime_Ymd.
  rewrite !length_app_s, !length_zfill.
  rewrite (length_decimal_4 (year dt)) by lia.
  pose proof (length_decimal_2 (month dt)).
  pose proof (length_decimal_2 (day dt)). lia.
Qed.

Lemma append_same_length (a b x y : string) :
  String.length a = String.length b -> a +:+ x = b +:+ y -> x = y.
Proof.
  revert b. induction a as [|c a IH]; intros [|c' b] Hl H; try discriminate.
  - exact H.
  - cbn [String.append] in H. injection H as _ H. apply (IH b); [|exact H].
    cbn [String.length] in Hl. lia.
Qed.

Lemma fitid_of_inj i j dt dt' :
  timestamp dt -> timestamp dt' -> fitid_of i dt = fitid_of j dt' -> i = j.
Proof.
  intros H H' E. unfold fitid_of in E.
  apply append_same_length in E; [apply (zfill_inj 6), E|].
  rewrite !length_strftime by assumption. reflexivity.
Qed.

End Numerals.

Section OfxTransactions.
Import Py Num Dates StatementParser Fmt Ofx OfxNotions.

Lemma transaction_fitid idx dt row e :
  transaction idx dt row = Some e -> fitid e = fitid_of idx dt.
Proof.
  unfold transaction.
  destruct (truthy (Withdrawn row) && flt zero (Withdrawn row));
    destruct (feq _ zero); try discriminate; intros [= <-]; reflexivity.
Qed.

Lemma indexed_weaken idx l : indexed_from (S idx) l -> indexed_from idx l.
Proof.
  unfold indexed_from. apply List.Forall_impl. intros e (i & dt & Hi & Ht & He).
  exists i, dt. split; [lia|auto].
Qed.

Lemma transactions_indexed idx df l :
  Forall (fun row => forall dt, Date row = Some dt -> timestamp dt) df ->
  transactions_from idx df = Some l ->
  indexed_from idx l /\ NoDup (map fitid l).
Proof.
  intros Hdf. revert idx l. induction Hdf as [|row rest Hrow _ IH]; intros idx l.
  - intros [= <-]. split; constructor.
  - cbn [transactions_from]. destruct (Date row) as [dt|] eqn:Ed; [|discriminate].
    destruct (transactions_from (S idx) rest) as [l'|] eqn:El; [|discriminate].
    destruct (IH (S idx) l' El) as [Hi Hn].
    destruct (transaction idx dt row) as [e|] eqn:Et; intros [= <-].
    + split.
      * constructor; [|apply indexed_weaken, Hi].
        exists idx, dt. split; [lia|]. split; [apply Hrow, eq_refl|].
        apply (transaction_fitid idx dt row e Et).
      * cbn [map]. apply NoDup_cons. split; [|exact Hn].
        rewrite list_elem_of_In, in_map_iff. intros (e' & He' & Hin).
        unfold indexed_from in Hi. rewrite List.Forall_forall in Hi.
        destruct (Hi e' Hin) as (i & dt' & Hle & Ht' & Hf).
        rewrite (transaction_fitid idx dt row e Et), Hf in He'.
        apply fitid_of_inj in He'; [lia|exact Ht'|apply Hrow, eq_refl].
    + split; [apply indexed_weaken, Hi|exact Hn].
Qed.

Lemma transactions_dated idx df :
  transactions_from idx df <> None <-> Forall (fun row => Date row <> None) df.
Proof.
  revert idx. induction df as [|row rest IH]; intros idx.
  - split; [constructor|discriminate].
  - cbn [transactions_from]. destruct (Date row) as [dt|] eqn:Ed.
    + specialize (IH (S idx)). destruct (transactions_from (S idx) rest).
      * split; [|discriminate]. intros _. constructor; [congruence|]. apply IH. discriminate.
      * split; [congruence|]. intros H. inversion H; subst. apply IH in H3. congruence.
    + split; [congruence|]. intros H. inversion H; subst. congruence.
Qed.

Lemma positive_truthy x : flt zero x = true -> truthy x = true.
Proof. intros H. unfold truthy. rewrite (flt_zero_not_feq x H). reflexivity. Qed.

Lemma negated_positive x : flt zero x = true -> flt (SFopp x) zero = true /\ feq (SFopp x) zero = false.
Proof. destruct x as [s|s| |s m e]; try destruct s; cbv; try congruence; auto. Qed.

End OfxTransactions.

Section OfxTheorems.
Import Py Num Dates StatementParser Fmt Ofx Vocabulary OfxNotions.

Lemma transactions_undated idx df :
  transactions_from idx df = None <-> exists row, In row df /\ Date row = None.
Proof.
  revert idx. induction df as [|row rest IH]; intros idx.
  - cbn. split; [discriminate|]. intros (row & [] & _).
  - cbn [transactions_from]. destruct (Date row) as [dt|] eqn:Ed.
    + specialize (IH (S idx)). destruct (transactions_from (S idx) rest).
      * split; [discriminate|]. intros (r & [<-|Hin] & Hr); [congruence|].
        exfalso. assert (H : Some l = None) by (apply IH; exists r; auto).
        discriminate H.
      * split; [|reflexivity]. intros _.
        destruct (proj1 IH eq_refl) as (r & Hin & Hr). exists r.
        split; [right; exact Hin|exact Hr].
    + split; [|reflexivity]. intros _. exists row. split; [left; reflexivity|exact Ed].
Qed.

(** X13.  The three replacements of [export_ofx] work character by
    character: "&", "<" and ">" become "&amp;", "&lt;" and "&gt;", any other
    character stays, and the ampersand of an entity is never escaped a second
    time.  The escaped text holds neither "<" nor ">". *)
Theorem escape_is_characterwise :
  escape EmptyString = EmptyString /\
  (forall c s, escape (String c s) = entity c +:+ escape s) /\
  (forall s, contains "<" (escape s) = false /\ contains ">" (escape s) = false).
Proof.
  split; [reflexivity|]. split; [exact escape_cons|].
  intros s. rewrite !contains_char. apply escape_no_angle.
Qed.

(** X14.  [export_ofx] writes a row with a withdrawal above zero as a DEBIT
    of the negated withdrawal, whatever its deposit; any other row as a
    CREDIT of its deposit, and not at all when that deposit is zero.  It
    raises exactly when a row has no date. *)
Theorem ofx_transaction_type :
  (forall idx dt row,
     flt zero (Withdrawn row) = true ->
     exists e, transaction idx dt row = Some e /\
       trntype e = "DEBIT" /\ trnamt e = SFopp (Withdrawn row) /\
       flt (trnamt e) zero = true) /\
  (forall idx dt row,
     flt zero (Withdrawn row) = false -> feq (Deposit row) zero = true ->
     transaction idx dt row = None) /\
  (forall idx dt row,
     flt zero (Withdrawn row) = false -> feq (Deposit row) zero = false ->
     exists e, transaction idx dt row = Some e /\
       trntype e = "CREDIT" /\ trnamt e = Deposit row) /\
  (forall format_2f df now account_id bank_id,
     export_ofx format_2f df now account_id bank_id = None <->
     exists row, In row df /\ Date row = None).
Proof.
  split; [|split; [|split]].
  - intros idx dt row H. unfold transaction.
    rewrite (positive_truthy _ H), H. cbn [andb].
    destruct (negated_positive _ H) as [H1 H2]. rewrite H2.
    eexists. split; [reflexivity|]. cbn. auto.
  - intros idx dt row H Hd. unfold transaction. rewrite H, andb_false_r.
    unfold truthy. rewrite Hd. cbn [negb]. replace (feq zero zero) with true by reflexivity.
    reflexivity.
  - intros idx dt row H Hd. unfold transaction. rewrite H, andb_false_r.
    unfold truthy. rewrite Hd. cbn [negb]. rewrite Hd.
    eexists. split; [reflexivity|]. cbn. auto.
  - intros format_2f df now account_id bank_id. rewrite <- (transactions_undated 0 df).
    unfold export_ofx. destruct (transactions_from 0 df); split; congruence.
Qed.

Lemma ofx_transaction_type_witness :
  let dt := mk_datetime 2023 4 1 in
  let both := mk_typed_row (Some dt) "A & B" (Some dt) (of_Z 30) (of_Z 5) (of_Z 70) in
  let none := mk_typed_row (Some dt) "C" (Some dt) zero zero (of_Z 70) in
  let undated := mk_typed_row None "D" None zero (of_Z 5) (of_Z 75) in
  (exists e, transaction 0 dt both = Some e /\
     trntype e = "DEBIT" /\ trnamt e = SFopp (of_Z 30) /\ flt (trnamt e) zero = true) /\
  transaction 1 dt none = None /\
  export_ofx (fun _ => "0.00") [both; undated] "20240101000000" "" "HDFC0000061" = None.
Proof.
  cbv zeta. destruct ofx_transaction_type as (H1 & H2 & _ & H4).
  split; [|split].
  - apply (H1 0 (mk_datetime 2023 4 1)
               (mk_typed_row (Some (mk_datetime 2023 4 1)) "A & B" (Some (mk_datetime 2023 4 1))
                  (of_Z 30) (of_Z 5) (of_Z 70))). vm_compute. reflexivity.
  - apply H2; vm_compute; reflexivity.
  - apply H4. exists (mk_typed_row None "D" None zero (of_Z 5) (of_Z 75)).
    split; [right; left; reflexivity|reflexivity].
Defined.

(** X15.  When every date of the frame is a timestamp with a year of four
    digits, as every date that [to_dataframe] produces is, the transactions
    that [export_ofx] writes carry pairwise distinct FITIDs. *)
Theorem ofx_fitids_are_distinct :
  (forall idx df l,
     Forall (fun row => forall dt, Date row = Some dt -> timestamp dt) df ->
     transactions_from idx df = Some l ->
     NoDup (map fitid l)) /\
  (forall transactions,
     Forall (fun row => forall dt, Date row = Some dt -> timestamp dt)
            (to_dataframe transactions)).
Proof.
  split.
  - intros idx df l Hdf H. exact (proj2 (transactions_indexed idx df l Hdf H)).
  - intros transactions. unfold to_dataframe. apply List.Forall_forall.
    intros row Hin dt Hd. apply in_map_iff in Hin as (r & <- & _).
    cbn [to_dataframe_row Date] in Hd.
    destruct (to_dataframe_year _ _ Hd) as (v & _ & Hv & Hy).
    unfold to_datetime_dmy, Dates.strptime_dmy, Dates.strptime in Hd.
    destruct (split_on "/" (COL_DATE r)) as [|fd [|fm [|fy [|x l]]]]; try discriminate.
    destruct (day_field fd) as [d|] eqn:Ed; [|discriminate].
    destruct (month_field fm) as [m|]; [|discriminate].
    destruct (short_year_field fy) as [y|]; [|discriminate].
    apply make_datetime_some in Hd as (-> & Hm & Hday).
    pose proof (days_in_month_bounds y m) as Hb.
    unfold timestamp. cbn [year month day] in *.
    destruct (v <=? 68)%Z eqn:E; [apply Z.leb_le in E|apply Z.leb_gt in E]; lia.
Qed.

Lemma ofx_fitids_are_distinct_witness :
  let dt := mk_datetime 2023 4 1 in
  let df := [ mk_typed_row (Some dt) "A" (Some dt) (of_Z 30) zero (of_Z 70);
              mk_typed_row (Some dt) "A" (Some dt) (of_Z 30) zero (of_Z 40) ] in
  exists l, transactions_from 0 df = Some l /\
            map fitid l = ["20230401000000"; "20230401000001"] /\
            NoDup (map fitid l).
Proof.
  cbv zeta. destruct ofx_fitids_are_distinct as (H & _).
  eexists. split; [vm_compute; reflexivity|]. split; [vm_compute; reflexivity|].
  apply (H 0 [ mk_typed_row (Some (mk_datetime 2023 4 1)) "A" (Some (mk_datetime 2023 4 1))
                 (of_Z 30) zero (of_Z 70);
               mk_typed_row (Some (mk_datetime 2023 4 1)) "A" (Some (mk_datetime 2023 4 1))
                 (of_Z 30) zero (of_Z 40) ]).
  - assert (Ht : timestamp (mk_datetime 2023 4 1)) by (unfold timestamp; cbn; lia).
    constructor; [intros dt [= <-]; exact Ht|].
    constructor; [intros dt [= <-]; exact Ht|constructor].
  - vm_compute. reflexivity.
Defined.

End OfxTheorems.

(** ** Expense categories of the analyzer *)

Section CostHeadsReport.
Import Py Num Dates Analyzer Reports ReportNotions.

Lemma add_to_keys c row acc k :
  In k (map fst (add_to c row acc)) <-> k = c \/ In k (map fst acc).
Proof.
  induction acc as [|[k0 h0] acc IH]; cbn [add_to map fst In].
  - intuition.
  - destruct (String.eqb k0 c) eqn:E; cbn [map fst In].
    + apply String.eqb_eq in E. subst k0. intuition.
    + rewrite IH. intuition.
Qed.

Lemma add_to_nodup c row acc : NoDup (map fst acc) -> NoDup (map fst (add_to c row acc)).
Proof.
  induction acc as [|[k0 h0] acc IH]; cbn [add_to map fst]; intros H.
  - apply NoDup_cons. split; [apply not_elem_of_nil|constructor].
  - apply NoDup_cons in H as [Hk H].
    destruct (String.eqb k0 c) eqn:E; cbn [map fst].
    + apply NoDup_cons. split; assumption.
    + apply NoDup_cons. split; [|apply IH, H].
      rewrite list_elem_of_In, add_to_keys. rewrite list_elem_of_In in Hk.
      apply String.eqb_neq in E. intuition.
Qed.

Lemma add_to_in c row acc k h :
  NoDup (map fst acc) ->
  In (k, h) (add_to c row acc) ->
  (k <> c /\ In (k, h) acc) \/
  (k = c /\ ((exists h0, In (c, h0) acc /\ h = record_row row h0) \/
             (~ In c (map fst acc) /\ h = record_row row (mk_cost_head zero 0 [])))).
Proof.
  induction acc as [|[k0 h0] acc IH]; cbn [add_to map fst]; intros Hnd.
  - intros [[= <- <-]|[]]. right. split; [reflexivity|]. right. split; [intros []|reflexivity].
  - apply NoDup_cons in Hnd as [Hk Hnd]. rewrite list_elem_of_In in Hk.
    destruct (String.eqb k0 c) eqn:E.
    + apply String.eqb_eq in E. subst k0. intros [[= <- <-]|Hin].
      * right. split; [reflexivity|]. left. exists h0. split; [left; reflexivity|reflexivity].
      * left. split; [|right; exact Hin].
        intros ->. apply Hk. apply in_map_iff. exists (c, h). auto.
    + apply String.eqb_neq in E. intros [[= <- <-]|Hin].
      * left. split; [exact E|left; reflexivity].
      * destruct (IH Hnd Hin) as [[Hne H]|[-> [(h1 & H1 & ->)|[Hn ->]]]].
        -- left. split; [exact Hne|right; exact H].
        -- right. split; [reflexivity|]. left. exists h1. split; [right; exact H1|reflexivity].
        -- right. split; [reflexivity|]. right. split; [|reflexivity].
           cbn [In]. intros [H|H]; [congruence|contradiction].
Qed.

Lemma members_snoc k done row :
  members k (done ++ [row]) =
  members k done ++ (if String.eqb (category row) k then [row] else []).
Proof. unfold members. rewrite List.filter_app. reflexivity. Qed.

Lemma total_of_snoc rows row : total_of (rows ++ [row]) = record_row row (total_of rows).
Proof. unfold total_of. rewrite fold_left_app. reflexivity. Qed.

Lemma tallied_step done acc row :
  tallied done acc -> tallied (done ++ [row]) (add_to (category row) row acc).
Proof.
  intros (Hnd & Hin & Hall). split; [apply add_to_nodup, Hnd|]. split.
  - intros k h H. rewrite members_snoc.
    destruct (add_to_in _ _ _ _ _ Hnd H) as [[Hne H1]|[-> [(h0 & H0 & ->)|[Hn ->]]]].
    + replace (String.eqb (category row) k) with false
        by (symmetry; apply String.eqb_neq; congruence).
      rewrite app_nil_r. apply Hin, H1.
    + rewrite String.eqb_refl. destruct (Hin _ _ H0) as [_ ->].
      split; [destruct (members _ done); discriminate|]. rewrite total_of_snoc. reflexivity.
    + rewrite String.eqb_refl.
      assert (E : members (category row) done = []).
      { destruct (members (category row) done) eqn:E; [reflexivity|].
        exfalso. apply Hn, Hall. rewrite E. discriminate. }
      rewrite E. split; [discriminate|reflexivity].
  - intros k H. apply add_to_keys. rewrite members_snoc in H.
    destruct (String.eqb (category row) k) eqn:E.
    + left. symmetry. apply String.eqb_eq, E.
    + right. apply Hall. rewrite app_nil_r in H. exact H.
Qed.

Lemma tallied_fold rows done acc :
  tallied done acc ->
  tallied (done ++ rows)
    (fold_left (fun cost_heads row => add_to (category row) row cost_heads) rows acc).
Proof.
  revert done acc. induction rows as [|row rows IH]; intros done acc H.
  - rewrite app_nil_r. exact H.
  - cbn [fold_left]. replace (done ++ row :: rows) with ((done ++ [row]) ++ rows)
      by (rewrite <- app_assoc; reflexivity).
    apply IH, tallied_step, H.
Qed.

Lemma categorize_tallied df : tallied (expense_transactions df) (categorize_expenses df).
Proof.
  unfold categorize_expenses.
  apply (tallied_fold (expense_transactions df) [] []).
  split; [constructor|]. split; [intros k h []|]. intros k H. exfalso. apply H. reflexivity.
Qed.

Lemma total_of_count rows : count (total_of rows) = length rows.
Proof.
  induction rows as [|row rows IH] using rev_ind; [reflexivity|].
  rewrite total_of_snoc, length_app. cbn. rewrite IH. lia.
Qed.

Lemma total_of_transactions rows :
  transactions (total_of rows) = map (fun row => (date row, description row, debit row)) rows.
Proof.
  induction rows as [|row rows IH] using rev_ind; [reflexivity|].
  rewrite total_of_snoc, map_app. cbn. rewrite IH. reflexivity.
Qed.

Lemma total_of_amount rows :
  amount (total_of rows) = fold_left fadd (map debit rows) zero.
Proof.
  induction rows as [|row rows IH] using rev_ind; [reflexivity|].
  rewrite total_of_snoc, map_app, fold_left_app. cbn. rewrite IH. reflexivity.
Qed.

Lemma category_of_range table desc :
  In (category_of table desc) (map fst table ++ ["Other"]).
Proof.
  induction table as [|[c ks] table IH]; [left; reflexivity|].
  cbn [category_of map fst app]. destruct (existsb _ ks); [left; reflexivity|right; exact IH].
Qed.

End CostHeadsReport.

Section ReportTheorems.
Import Py Num Dates Analyzer Reports Vocabulary ReportNotions.

Lemma list_sum_cons x l : list_sum (x :: l) = (x + list_sum l)%nat.
Proof. reflexivity. Qed.

Lemma count_once (keys : list string) c :
  NoDup keys -> In c keys ->
  list_sum (map (fun k => if String.eqb c k then 1 else 0)%nat keys) = 1%nat.
Proof.
  induction keys as [|k keys IH]; intros Hnd Hin; [destruct Hin|].
  apply NoDup_cons in Hnd as [Hk Hnd]. rewrite list_elem_of_In in Hk.
  cbn [map]. rewrite list_sum_cons.
  destruct (String.eqb c k) eqn:E.
  - apply String.eqb_eq in E. subst k.
    assert (Hz : list_sum (map (fun k => if String.eqb c k then 1 else 0)%nat keys) = 0%nat).
    { clear IH Hnd Hin. induction keys as [|k keys IH]; [reflexivity|].
      cbn [map]. rewrite list_sum_cons.
      destruct (String.eqb c k) eqn:E.
      - apply String.eqb_eq in E. subst k. exfalso. apply Hk. left. reflexivity.
      - rewrite IH; [reflexivity|]. intros H. apply Hk. right. exact H. }
    rewrite Hz. reflexivity.
  - apply String.eqb_neq in E. destruct Hin as [->|Hin]; [congruence|].
    rewrite (IH Hnd Hin). reflexivity.
Qed.

Lemma members_cons_sum (keys : list string) row rows :
  list_sum (map (fun k => length (members k (row :: rows))) keys) =
  (list_sum (map (fun k => if String.eqb (category row) k then 1 else 0)%nat keys)
   + list_sum (map (fun k => length (members k rows)) keys))%nat.
Proof.
  induction keys as [|k keys IHk]; [reflexivity|].
  cbn [map]. rewrite !list_sum_cons, IHk. unfold members at 1. cbn [List.filter].
  destruct (String.eqb (category row) k); cbn [length]; fold (members k rows); lia.
Qed.

Lemma members_cover (keys : list string) rows :
  NoDup keys -> (forall row, In row rows -> In (category row) keys) ->
  list_sum (map (fun k => length (members k rows)) keys) = length rows.
Proof.
  intros Hnd. induction rows as [|row rows IH]; intros Hall.
  - cbn [length]. clear Hnd Hall. induction keys as [|k keys IHk]; [reflexivity|].
    cbn [map]. rewrite list_sum_cons, IHk. reflexivity.
  - rewrite members_cons_sum, IH by (intros r Hr; apply Hall; right; exact Hr).
    rewrite (count_once keys (category row) Hnd) by (apply Hall; left; reflexivity).
    reflexivity.
Qed.

(** X16.  [categorize_expenses] puts every row with a debit above zero in
    exactly one entry: the entry of the first category with a keyword in the
    lower-cased description, or 'Other'.  The keys are pairwise distinct and
    taken from the twelve categories and 'Other'; each entry holds the rows of
    its category in the order of the frame, their number (never zero) and the
    sum of their debits taken in that order; the counts add up to the number
    of expense rows. *)
Theorem categorize_expenses_partitions df :
  let out := categorize_expenses df in
  NoDup (map fst out) /\
  (forall k h, In (k, h) out ->
     let rows := members k (expense_transactions df) in
     In k (map fst categories ++ ["Other"]) /\
     transactions h = map (fun row => (date row, description row, debit row)) rows /\
     count h = length rows /\ (0 < count h)%nat /\
     amount h = fold_left fadd (map debit rows) zero) /\
  (forall row, In row df -> flt zero (debit row) = true ->
     In (category row) (map fst out)) /\
  list_sum (map (fun p => count (snd p)) out) = length (expense_transactions df).
Proof.
  cbv zeta. destruct (categorize_tallied df) as (Hnd & Hin & Hall).
  split; [exact Hnd|]. split; [|split].
  - intros k h H. destruct (Hin k h H) as [Hne ->].
    rewrite total_of_count, total_of_transactions, total_of_amount.
    split; [|split; [reflexivity|split; [reflexivity|split; [|reflexivity]]]].
    + destruct (members k (expense_transactions df)) as [|row rows] eqn:E; [congruence|].
      assert (Hrow : In row (members k (expense_transactions df))) by (rewrite E; left; reflexivity).
      unfold members in Hrow. apply filter_In in Hrow as [_ Hk].
      apply String.eqb_eq in Hk. subst k. apply category_of_range.
    + destruct (members k (expense_transactions df)); [congruence|cbn; lia].
  - intros row Hrow Hd. apply Hall.
    assert (H : In row (members (category row) (expense_transactions df))).
    { unfold members, expense_transactions. rewrite !filter_In.
      split; [split; assumption|apply String.eqb_refl]. }
    destruct (members _ _); [destruct H|discriminate].
  - rewrite <- (members_cover (map fst (categorize_expenses df)) (expense_transactions df) Hnd).
    + rewrite map_map. f_equal. apply map_ext_in. intros [k h] H. cbn [fst snd].
      destruct (Hin k h H) as [_ ->]. apply total_of_count.
    + intros row Hrow. apply Hall.
      assert (H : In row (members (category row) (expense_transactions df))).
      { unfold members. rewrite filter_In. split; [exact Hrow|apply String.eqb_refl]. }
      destruct (members _ _); [destruct H|discriminate].
Qed.

Lemma categorize_expenses_partitions_witness :
  let d := mk_datetime 2023 4 1 in
  let rent := mk_txn d "Shop RENT April" (of_Z 5000) zero (of_Z 100) None "" in
  let tea := mk_txn d "Tea stall" (of_Z 20) zero (of_Z 80) None "" in
  let pay := mk_txn d "salary credited" zero (of_Z 900) (of_Z 980) None "" in
  let rent2 := mk_txn d "office rent" (of_Z 100) zero (of_Z 880) None "" in
  categorize_expenses [rent; tea; pay; rent2] =
    [ ("Rent", mk_cost_head (of_Z 5100) 2
                 [(d, "Shop RENT April", of_Z 5000); (d, "office rent", of_Z 100)]);
      ("Other", mk_cost_head (of_Z 20) 1 [(d, "Tea stall", of_Z 20)]) ] /\
  In (category rent) (map fst (categorize_expenses [rent; tea; pay; rent2])) /\
  list_sum (map (fun p => count (snd p)) (categorize_expenses [rent; tea; pay; rent2])) = 3%nat.
Proof.
  cbv zeta. split; [vm_compute; reflexivity|].
  pose proof (categorize_expenses_partitions
    [ mk_txn (mk_datetime 2023 4 1) "Shop RENT April" (of_Z 5000) zero (of_Z 100) None "";
      mk_txn (mk_datetime 2023 4 1) "Tea stall" (of_Z 20) zero (of_Z 80) None "";
      mk_txn (mk_datetime 2023 4 1) "salary credited" zero (of_Z 900) (of_Z 980) None "";
      mk_txn (mk_datetime 2023 4 1) "office rent" (of_Z 100) zero (of_Z 880) None "" ]) as H.
  cbv zeta in H. destruct H as (_ & _ & H3 & H4). split.
  - apply H3; [left; reflexivity|vm_compute; reflexivity].
  - rewrite H4. vm_compute. reflexivity.
Defined.

End ReportTheorems.

Section Pending.
Import Py Num Analyzer Vocabulary.

Lemma backfill_pending p t a :
  transaction_amt (backfill p t) = Some a ->
  feq (debit (backfill p t)) zero && feq (credit (backfill p t)) zero = false.
Proof.
  unfold backfill. destruct (transaction_amt t) as [amt|] eqn:Ea; [|congruence].
  destruct (feq (debit t) zero && feq (credit t) zero) eqn:E.
  - cbn. discriminate.
  - intros _. exact E.
Qed.

End Pending.

Section PendingAmounts.
Import Py Num Dates Analyzer Vocabulary.

(** X17.  After [parse_transactions] a transaction still carries the key
    'transaction_amt' only beside a withdrawal or a deposit that is not zero:
    the pending amount of a two-token line survives the second pass when a
    later line of three tokens has set the amounts of its transaction. *)
Theorem pending_amount_survives_only_with_amounts text t a :
  In t (parse_transactions text) ->
  transaction_amt t = Some a ->
  feq (debit t) zero = false \/ feq (credit t) zero = false.
Proof.
  intros Hin Ha.
  assert (Hall : Forall (fun t => forall a, transaction_amt t = Some a ->
                   feq (debit t) zero && feq (credit t) zero = false)
                   (parse_transactions text)).
  { unfold parse_transactions. generalize (@None float), (first_pass text).
    intros p l. revert p. induction l as [|x l IH]; intros p; [constructor|].
    cbn [second_pass]. constructor; [|apply IH].
    intros a0 H0. exact (backfill_pending p x a0 H0). }
  rewrite List.Forall_forall in Hall. specialize (Hall t Hin a Ha).
  apply andb_false_iff in Hall. exact Hall.
Qed.

Lemma pending_amount_survives_only_with_amounts_witness :
  let text := "01/04/23 UPI-RAMESH 30.00 70.00" +:+ String newline "REF 1.00 2.00 68.00" in
  let t := mk_txn (mk_datetime 2023 4 1) "UPI-RAMESH" (amount "2.00") (amount "1.00")
             (amount "68.00") (Some (amount "30.00")) "01/04/23 UPI-RAMESH 30.00 70.00" in
  parse_transactions text = [t] /\
  (feq (debit t) zero = false \/ feq (credit t) zero = false).
Proof.
  cbv zeta. split; [vm_compute; reflexivity|].
  apply (pending_amount_survives_only_with_amounts
           ("01/04/23 UPI-RAMESH 30.00 70.00" +:+ String newline "REF 1.00 2.00 68.00")
           _ (amount "30.00")).
  - vm_compute. left. reflexivity.
  - reflexivity.
Defined.

End PendingAmounts.

(** ** Loaded sheets *)

Section LoadedSheet.
Import Py Num Dashboard Vocabulary SheetNotions.

Lemma same_lookups_forall2 (l1 l2 : list (gmap string cell)) :
  (forall k, k <> "narration" ->
     map (fun r : gmap string cell => r !! k) l1 = map (fun r : gmap string cell => r !! k) l2) ->
  Forall2 same_but_narration l1 l2.
Proof.
  revert l2. induction l1 as [|a l1 IH]; intros [|b l2] H.
  - constructor.
  - specialize (H "date"). discriminate H. discriminate.
  - specialize (H "date"). discriminate H. discriminate.
  - constructor.
    + intros k Hk. specialize (H k Hk). injection H as H _. exact H.
    + apply IH. intros k Hk. specialize (H k Hk). injection H as _ H. exact H.
Qed.

Lemma omap_forall2 {A B} (R : A -> A -> Prop) (f g : A -> option B) l1 l2 :
  Forall2 R l1 l2 -> (forall a b, R a b -> f a = g b) -> omap f l1 = omap g l2.
Proof.
  intros H Hf. induction H as [|a b l1 l2 Hab _ IH]; [reflexivity|].
  cbn [omap list_omap]. rewrite (Hf a b Hab).
  destruct (g b); [f_equal|]; exact IH.
Qed.

Lemma has_column_merged k norm :
  k <> "narration" -> has_column "date" norm = true ->
  has_column k (_merge_narration_rows norm) = has_column k norm.
Proof.
  intros Hk Hd. unfold _merge_narration_rows. rewrite Hd.
  destruct (empty norm); [reflexivity|]. cbn [orb negb].
  destruct (has_column "narration" norm); [reflexivity|].
  unfold has_column, add_narration. cbn [columns].
  apply bool_decide_ext. rewrite elem_of_app, list_elem_of_singleton. intuition.
Qed.

Lemma omap_map {A B C} (f : A -> option B) (g : B -> C) (l : list A) :
  map g (omap f l) = omap (fun a => g <$> f a) l.
Proof.
  induction l as [|a l IH]; [reflexivity|]. cbn [omap list_omap].
  destruct (f a); cbn; [f_equal|]; exact IH.
Qed.

Lemma figures_respect {T} (pd : cell -> option T) fc norm norm' a b :
  (forall k, k <> "narration" -> has_column k norm' = has_column k norm) ->
  same_but_narration a b ->
  figures <$> process_row pd fc norm' a = figures <$> process_row pd fc norm b.
Proof.
  intros Hc Hab. unfold process_row, get.
  rewrite (Hab "date") by discriminate.
  destruct (_parse_date pd (default NaN (b !! "date"))); [|reflexivity].
  cbn. unfold figures. cbn.
  rewrite (Hc "debit"), (Hc "credit"), (Hc "balance") by discriminate.
  rewrite (Hab "debit"), (Hab "credit"), (Hab "balance") by discriminate.
  reflexivity.
Qed.

Lemma load_sheet_figures {T} (pd : cell -> option T) fc norm :
  has_column "date" norm = true ->
  map figures (load_sheet pd fc norm) =
  map figures (_process_norm pd fc (mk_frame (columns norm) (List.filter dated (rows norm)))).
Proof.
  intros Hd. unfold load_sheet, _process_norm. rewrite !omap_map.
  rewrite (merge_frame_rows norm Hd). cbn [rows].
  apply (omap_forall2 same_but_narration).
  - apply same_lookups_forall2. intros k Hk.
    rewrite (merge_rows_lookup k _ Hk). apply walked_lookup, Hk.
  - intros a b Hab. apply figures_respect; [|exact Hab].
    intros k Hk. rewrite (has_column_merged k norm Hk Hd). reflexivity.
Qed.

End LoadedSheet.

Section Families.
Import Py Dashboard Vocabulary.

Lemma upi_defined n :
  _upi_customer_id n <> None <-> startswith (upper (strip (text_of n))) "UPI" = true.
Proof.
  unfold _upi_customer_id. destruct (startswith _ "UPI"); cbn [negb].
  - split; [reflexivity|]. intros _.
    destruct (find "-" _ 0); [destruct (find "-" _ _)|]; discriminate.
  - split; [congruence|discriminate].
Qed.

Lemma neft_defined n :
  _neft_customer_id n <> None <-> startswith (upper (strip (text_of n))) "NEFT" = true.
Proof.
  unfold _neft_customer_id. destruct (startswith _ "NEFT"); cbn [negb].
  - split; [reflexivity|]. intros _.
    destruct (find "-" _ 0); [destruct (find "-" _ _)|]; discriminate.
  - split; [congruence|discriminate].
Qed.

Lemma imps_defined n :
  _imps_customer_id n <> None <-> startswith (upper (strip (text_of n))) "IMPS" = true.
Proof.
  unfold _imps_customer_id. destruct (startswith _ "IMPS"); cbn [negb].
  - split; [reflexivity|]. intros _.
    destruct (find "-" _ 0); [destruct (find "-" _ _); [destruct (find "-" _ _)|]|]; discriminate.
  - split; [congruence|discriminate].
Qed.

Lemma prefixes_exclusive s :
  (startswith s "UPI" = true -> startswith s "NEFT" = false /\ startswith s "IMPS" = false) /\
  (startswith s "NEFT" = true -> startswith s "IMPS" = false).
Proof.
  unfold startswith. destruct s as [|c s]; [split; discriminate|].
  cbn [String.prefix].
  destruct (ascii_dec "U" c) as [<-|]; [split; [intros _; split; reflexivity|discriminate]|].
  split; [discriminate|].
  destruct (ascii_dec "N" c) as [<-|]; [intros _; reflexivity|discriminate].
Qed.

End Families.

Section DashboardTheorems.
Import Py Num Dashboard Vocabulary SheetNotions.

(** X18.  For the date and the three amounts, loading a sheet is coercing
    its dated rows alone: the records of [_process_norm] after
    [_merge_narration_rows] carry, in order, the date, debit, credit and
    balance of the dated rows whose date parses, and neither the merge nor a
    row without a date changes or adds any of them. *)
Theorem loaded_sheet_figures (T : Type) (pd : cell -> option T) (fc : cell -> float) norm :
  has_column "date" norm = true ->
  map figures (load_sheet pd fc norm) =
  map figures (_process_norm pd fc (mk_frame (columns norm) (List.filter dated (rows norm)))).
Proof. apply load_sheet_figures. Qed.

Lemma loaded_sheet_figures_witness :
  let pd := fun v : cell => match v with Obj _ => Some tt | _ => None end in
  let fc := fun v : cell => match v with Obj "2500.0" => of_Z 2500 | _ => of_Z 7 end in
  let norm := mk_frame sheet_columns
                [continuation_row "lead"; open_row; continuation_row "XYZ corp"] in
  has_column "date" norm = true /\
  map figures (load_sheet pd fc norm) = [(tt, of_Z 2500, zero, None)] /\
  map figures (_process_norm pd fc (mk_frame sheet_columns [open_row]))
    = [(tt, of_Z 2500, zero, None)].
Proof.
  cbv zeta. split; [reflexivity|]. split; [|vm_compute; reflexivity].
  rewrite loaded_sheet_figures by reflexivity. vm_compute. reflexivity.
Defined.

(** X19.  A narration belongs to at most one family of counterparties: each
    of the three identifiers is defined exactly when the narration, trimmed
    and upper-cased, starts with "UPI", "NEFT" or "IMPS", and no narration has
    two of them. *)
Theorem customer_families_are_exclusive narration :
  (_upi_customer_id narration <> None <->
     startswith (upper (strip (text_of narration))) "UPI" = true) /\
  (_neft_customer_id narration <> None <->
     startswith (upper (strip (text_of narration))) "NEFT" = true) /\
  (_imps_customer_id narration <> None <->
     startswith (upper (strip (text_of narration))) "IMPS" = true) /\
  (_upi_customer_id narration <> None ->
     _neft_customer_id narration = None /\ _imps_customer_id narration = None) /\
  (_neft_customer_id narration <> None -> _imps_customer_id narration = None).
Proof.
  pose proof (upi_defined narration) as HU. pose proof (neft_defined narration) as HN.
  pose proof (imps_defined narration) as HI.
  destruct (prefixes_exclusive (upper (strip (text_of narration)))) as [E1 E2].
  split; [exact HU|]. split; [exact HN|]. split; [exact HI|]. split.
  - intros H. apply HU in H. destruct (E1 H) as [F1 F2]. split.
    + destruct (_neft_customer_id narration) eqn:E; [|reflexivity].
      assert (X : Some s <> None) by discriminate. apply HN in X. congruence.
    + destruct (_imps_customer_id narration) eqn:E; [|reflexivity].
      assert (X : Some s <> None) by discriminate. apply HI in X. congruence.
  - intros H. apply HN in H. pose proof (E2 H) as F.
    destruct (_imps_customer_id narration) eqn:E; [|reflexivity].
    assert (X : Some s <> None) by discriminate. apply HI in X. congruence.
Qed.

Lemma customer_families_are_exclusive_witness :
  _upi_customer_id (Str " upi-JOHN DOE-x@bank") = Some "upi-JOHN DOE" /\
  _neft_customer_id (Str " upi-JOHN DOE-x@bank") = None /\
  _imps_customer_id (Str " upi-JOHN DOE-x@bank") = None.
Proof.
  destruct (customer_families_are_exclusive (Str " upi-JOHN DOE-x@bank"))
    as (_ & _ & _ & H & _).
  split; [vm_compute; reflexivity|]. apply H. vm_compute. discriminate.
Defined.

Lemma first_cost_head_range table text :
  In (first_cost_head table text) (map fst table ++ ["Other"]).
Proof.
  induction table as [|[name keywords] table IH]; [left; reflexivity|].
  cbn [first_cost_head map fst app].
  destruct (any_keyword keywords text); [left; reflexivity|right; exact IH].
Qed.

(** X20.  [_assign_cost_head] always answers with one of the eight names of
    [COST_HEADS] or with "Other", which are the labels of the cost table of
    the expense page; a missing narration gets "Other". *)
Theorem cost_head_is_a_listed_label :
  (forall narration,
     In (_assign_cost_head narration)
        ["Salary"; "Feed"; "Rent"; "Fuel and Transportation"; "Expansion (cow, fridge)";
         "Marketing"; "Loan, CC"; "Miscellaneous"; "Other"]) /\
  _assign_cost_head NaN = "Other".
Proof.
  split; [|vm_compute; reflexivity].
  intros narration. exact (first_cost_head_range COST_HEADS _).
Qed.

End DashboardTheorems.

Section HeaderRow.
Import Py Dashboard Fmt Ofx Sheets Vocabulary OfxNotions SheetNotions.

Lemma names_from_length i vals : length (names_from i vals) = length vals.
Proof.
  revert i. induction vals as [|v vals IH]; intros i; [reflexivity|].
  cbn [names_from length]. rewrite IH. reflexivity.
Qed.

Lemma names_from_nth i vals k v :
  nth_error vals k = Some v -> nth_error (names_from i vals) k = Some (column_name (i + k) v).
Proof.
  revert i k. induction vals as [|x vals IH]; intros i [|k]; try discriminate.
  - intros [= <-]. cbn. rewrite Nat.add_0_r. reflexivity.
  - cbn [nth_error names_from]. intros H. rewrite (IH (S i) k H). f_equal. f_equal. lia.
Qed.

Lemma uint_digits d : all_chars isdigit (DecimalString.NilEmpty.string_of_uint d) = true.
Proof. induction d; cbn [DecimalString.NilEmpty.string_of_uint all_chars]; try rewrite IHd; reflexivity. Qed.

Lemma decimal_digits n : all_chars isdigit (decimal n) = true.
Proof. apply uint_digits. Qed.

Lemma all_chars_impl (p q : ascii -> bool) s :
  (forall c, p c = true -> q c = true) -> all_chars p s = true -> all_chars q s = true.
Proof.
  intros H. induction s as [|c s IH]; [reflexivity|]. cbn [all_chars].
  rewrite !andb_true_iff. intros [Hc Hs]. split; [apply H, Hc|apply IH, Hs].
Qed.

Lemma all_chars_occurs p s c : all_chars p s = true -> p c = false -> occurs c s = false.
Proof.
  intros H Hc. induction s as [|x s IH]; [reflexivity|]. cbn [all_chars occurs] in *.
  apply andb_true_iff in H as [Hx Hs]. rewrite (IH Hs), orb_false_r.
  apply Ascii.eqb_neq. intros ->. congruence.
Qed.

Lemma lower_digits s : all_chars isdigit s = true -> lower s = s.
Proof.
  induction s as [|c s IH]; [reflexivity|]. cbn [all_chars]. unfold lower in *.
  cbn [map_chars]. rewrite andb_true_iff. intros [Hc Hs]. rewrite (IH Hs). f_equal.
  unfold lower_char. unfold isdigit in Hc. apply andb_true_iff in Hc as [H1 H2].
  apply Nat.leb_le in H1, H2.
  destruct (65 <=? nat_of_ascii c)%nat eqn:E1; [|reflexivity].
  destruct (nat_of_ascii c <=? 90)%nat eqn:E2; [|reflexivity].
  apply Nat.leb_le in E1. lia.
Qed.

Lemma placeholder_normal i : _normalize ("_col_" +:+ decimal i) = "_col_" +:+ decimal i.
Proof.
  unfold _normalize. rewrite all_nonspace_strip.
  - change ("_col_" +:+ decimal i)
      with (String "_" (String "c" (String "o" (String "l" (String "_" (decimal i)))))).
    unfold lower. cbn [map_chars]. fold (lower (decimal i)).
    rewrite (lower_digits _ (decimal_digits i)). reflexivity.
  - change ("_col_" +:+ decimal i)
      with (String "_" (String "c" (String "o" (String "l" (String "_" (decimal i)))))).
    cbn [all_chars]. cbn.
    apply (all_chars_impl isdigit); [|apply decimal_digits].
    intros c Hc. rewrite (isdigit_not_space c Hc). reflexivity.
Qed.

Lemma contains_split a b : contains a b = true -> exists pre post, b = pre +:+ a +:+ post.
Proof.
  induction b as [|c b IH]; cbn [contains].
  - rewrite orb_false_r. intros H. destruct (prefix_split _ _ H) as [rest ->].
    exists EmptyString, rest. reflexivity.
  - rewrite orb_true_iff. intros [H|H].
    + destruct (prefix_split _ _ H) as [rest ->]. exists EmptyString, rest. reflexivity.
    + destruct (IH H) as (pre & post & ->). exists (String c pre), post. reflexivity.
Qed.

Lemma contains_occurs a b c :
  contains a b = true -> occurs c a = true -> occurs c b = true.
Proof.
  intros H Hc. destruct (contains_split a b H) as (pre & post & ->).
  rewrite !occurs_app, Hc, orb_true_r. reflexivity.
Qed.

Lemma placeholder_occurs i :
  occurs "_" ("_col_" +:+ decimal i) = true /\
  occurs "a" ("_col_" +:+ decimal i) = false /\
  occurs "e" ("_col_" +:+ decimal i) = false.
Proof.
  rewrite !occurs_app.
  rewrite (all_chars_occurs isdigit (decimal i) "a" (decimal_digits i) eq_refl).
  rewrite (all_chars_occurs isdigit (decimal i) "e" (decimal_digits i) eq_refl).
  repeat split; reflexivity.
Qed.

Lemma placeholder_unmatched i key :
  (occurs "a" key || occurs "e" key) && negb (occurs "_" key) = true ->
  alias_matches key ("_col_" +:+ decimal i) = false.
Proof.
  intros H. apply andb_true_iff in H as [Hae Hu]. apply negb_true_iff in Hu.
  destruct (placeholder_occurs i) as (P1 & P2 & P3).
  destruct (alias_matches key _) eqn:E; [|reflexivity]. exfalso.
  apply alias_matches_true in E as [E|[E|E]].
  - rewrite E, P1 in Hu. discriminate.
  - apply orb_true_iff in Hae as [Ha|He].
    + rewrite (contains_occurs _ _ _ E Ha) in P2. discriminate.
    + rewrite (contains_occurs _ _ _ E He) in P3. discriminate.
  - rewrite (contains_occurs _ _ _ E P1) in Hu. discriminate.
Qed.

Lemma placeholder_never_found columns aliases i :
  In aliases looked_up ->
  _find_column columns aliases _normalize <> Some ("_col_" +:+ decimal i).
Proof.
  intros Hin H.
  destruct (find_column_first _ _ _ H) as (a_pre & alias & a_post & c_pre & c_post & Ha & _ & Hm & _).
  rewrite placeholder_normal, placeholder_unmatched in Hm; [discriminate|].
  assert (Hall : forallb (fun aliases =>
            forallb (fun alias =>
              (occurs "a" (_normalize alias) || occurs "e" (_normalize alias))
              && negb (occurs "_" (_normalize alias))) aliases) looked_up = true)
    by (vm_compute; reflexivity).
  rewrite forallb_forall in Hall. specialize (Hall aliases Hin).
  rewrite forallb_forall in Hall. apply Hall. rewrite Ha. apply in_elt.
Qed.

End HeaderRow.

Section SheetTheorems.
Import Py Num Dashboard Fmt Ofx Sheets Workbook Vocabulary SheetNotions.

(** X21.  [_header_row_to_columns] gives no list exactly when the row index
    is outside the sheet.  Otherwise it gives one name per header cell: the
    trimmed text of the cell, and the placeholder "_col_" followed by the
    position when the cell is null or reads "nan".  A placeholder is never
    the column that [_find_column] returns for the date, the narration, the
    withdrawal, the deposit or the balance. *)
Theorem header_names_and_placeholders :
  (forall raw_df header_row,
     _header_row_to_columns raw_df header_row = None <->
     (header_row < 0 \/ Z.of_nat (length raw_df) <= header_row)%Z) /\
  (forall raw_df header_row cols,
     _header_row_to_columns raw_df header_row = Some cols ->
     let header_vals := nth (Z.to_nat header_row) raw_df [] in
     length cols = length header_vals /\
     forall i v, nth_error header_vals i = Some v ->
                 nth_error cols i = Some (column_name i v)) /\
  (forall i v,
     v = NaN \/ lower (strip (str v)) = "nan" ->
     column_name i v = "_col_" +:+ decimal i) /\
  (forall columns aliases i,
     In aliases looked_up ->
     _find_column columns aliases _normalize <> Some ("_col_" +:+ decimal i)).
Proof.
  split; [|split; [|split]].
  - intros raw_df header_row. unfold _header_row_to_columns.
    destruct (Z.of_nat (length raw_df) <=? header_row)%Z eqn:E1;
      destruct (header_row <? 0)%Z eqn:E2; cbn [orb];
      try apply Z.leb_le in E1; try apply Z.leb_gt in E1;
      try apply Z.ltb_lt in E2; try apply Z.ltb_ge in E2;
      (split; [intros H; try discriminate H; lia|intros H; try reflexivity; lia]).
  - intros raw_df header_row cols. unfold _header_row_to_columns.
    destruct (_ || _); [discriminate|]. intros [= <-]. cbv zeta.
    split; [apply names_from_length|]. intros i v H.
    apply (names_from_nth 0 _ i v H).
  - intros i v [->|H]; unfold column_name; [reflexivity|].
    rewrite H. rewrite andb_false_r. reflexivity.
  - intros columns aliases i. apply placeholder_never_found.
Qed.

Lemma header_names_and_placeholders_witness :
  let raw_df := [[Str " Date "; NaN; Str "NaN"; Obj "2023.0"]; [NaN; NaN; NaN; NaN]] in
  _header_row_to_columns raw_df 2 = None /\
  (exists cols, _header_row_to_columns raw_df 0 = Some cols /\
     length cols = 4%nat /\ cols = ["Date"; "_col_1"; "_col_2"; "2023.0"]) /\
  column_name 12 NaN = "_col_12" /\
  _find_column ["_col_0"; "particulars"] EXPECTED_date _normalize <> Some "_col_0".
Proof.
  cbv zeta. destruct header_names_and_placeholders as (H1 & H2 & H3 & H4).
  split; [apply H1; cbn; lia|]. split; [|split].
  - eexists. split; [vm_compute; reflexivity|]. split; [|reflexivity].
    apply (H2 [[Str " Date "; NaN; Str "NaN"; Obj "2023.0"]; [NaN; NaN; NaN; NaN]] 0%Z).
    vm_compute. reflexivity.
  - rewrite H3 by (left; reflexivity). vm_compute. reflexivity.
  - apply (H4 ["_col_0"; "particulars"] EXPECTED_date 0). left. reflexivity.
Defined.

End SheetTheorems.

Section WorkbookFacts.
Import Py Num Dashboard Sheets Workbook SheetNotions.
Context {T : Type} (pd : cell -> option T) (fc : cell -> float).

Lemma other_sheet_idle raw_df (l : list (list (record T))) :
  other_sheet T pd fc raw_df (mk_progress l None) = Some (mk_progress l None).
Proof. unfold other_sheet. destruct (is_empty_sheet raw_df); reflexivity. Qed.

Lemma other_sheets_idle sheets (l : list (list (record T))) :
  other_sheets T pd fc sheets (mk_progress l None) = Some (mk_progress l None).
Proof.
  induction sheets as [|s sheets IH]; [reflexivity|].
  cbn [other_sheets]. rewrite other_sheet_idle. exact IH.
Qed.

Lemma append_loaded_ok norm l : well_loaded l -> well_loaded (append_loaded T pd fc norm l).
Proof.
  intros H. unfold append_loaded.
  destruct (load_sheet pd fc norm) as [|r recs] eqn:E; [exact H|]. cbn.
  apply Forall_app. split; [exact H|]. constructor; [discriminate|constructor].
Qed.

Lemma append_loaded_length norm l :
  (length (append_loaded T pd fc norm l) <= S (length l))%nat.
Proof.
  unfold append_loaded. destruct (0 <? _)%nat; [rewrite length_app; cbn|]; lia.
Qed.

Lemma first_sheet_ok raw_df st st' :
  first_sheet T pd fc raw_df st = Some st' ->
  (well_loaded (loaded st) -> well_loaded (loaded st')) /\
  (length (loaded st') <= S (length (loaded st)))%nat.
Proof.
  unfold first_sheet. destruct (is_empty_sheet raw_df); [intros [= <-]; split; [auto|lia]|].
  destruct (_header_row_to_columns raw_df 0) as [cols|]; [|intros [= <-]; split; [auto|lia]].
  destruct (normalize_frame cols (tl raw_df)) as [[norm|]|]; [| intros [= <-]; split; [auto|lia] |discriminate].
  destruct (_ <? 3)%nat; intros [= <-]; [split; [auto|lia]|]. cbn [loaded].
  split; [apply append_loaded_ok|apply append_loaded_length].
Qed.

Lemma other_sheet_ok raw_df st st' :
  other_sheet T pd fc raw_df st = Some st' ->
  (well_loaded (loaded st) -> well_loaded (loaded st')) /\
  (length (loaded st') <= S (length (loaded st)))%nat.
Proof.
  unfold other_sheet. destruct (is_empty_sheet raw_df); [intros [= <-]; split; [auto|lia]|].
  destruct (header_names st) as [names|]; [|intros [= <-]; split; [auto|lia]].
  destruct (negb _); [intros [= <-]; split; [auto|lia]|].
  destruct (normalize_frame names raw_df) as [[norm|]|]; [| intros [= <-]; split; [auto|lia] |discriminate].
  intros [= <-]. cbn [loaded].
  split; [apply append_loaded_ok|apply append_loaded_length].
Qed.

Lemma other_sheets_ok sheets st st' :
  other_sheets T pd fc sheets st = Some st' ->
  (well_loaded (loaded st) -> well_loaded (loaded st')) /\
  (length (loaded st') <= length sheets + length (loaded st))%nat.
Proof.
  revert st. induction sheets as [|s sheets IH]; intros st.
  - intros [= <-]. split; [auto|cbn; lia].
  - cbn [other_sheets]. destruct (other_sheet T pd fc s st) as [st1|] eqn:E; [|discriminate].
    intros H. destruct (other_sheet_ok _ _ _ E) as [H1 H2].
    destruct (IH st1 H) as [H3 H4]. split; [auto|cbn [length]; lia].
Qed.

End WorkbookFacts.

Section WorkbookTheorems.
Import Py Num Dashboard Sheets Workbook Vocabulary.

(** X22.  In [load_xlsx_all_sheets] the first sheet decides for the whole
    workbook: when it is empty, or when its first row gives no column
    mapping, no sheet is loaded, whatever the other sheets hold.  A later
    sheet whose number of columns differs from that of the accepted header
    is passed over.  The counts returned are the number of sheets and the
    number of loaded frames, none of which is empty. *)
Theorem unusable_first_sheet_blocks_the_workbook
    (T : Type) (pd : cell -> option T) (fc : cell -> float) :
  (forall first others,
     is_empty_sheet first = true \/
     (exists cols, _header_row_to_columns first 0 = Some cols /\
                   _normalize_columns cols = None) ->
     load_xlsx_all_sheets T pd fc (first :: others) = Some ([], S (length others), 0%nat)) /\
  (forall raw_df loaded names,
     width raw_df <> length names ->
     other_sheet T pd fc raw_df (mk_progress loaded (Some names))
     = Some (mk_progress loaded (Some names))) /\
  (forall all_sheets loaded total n,
     load_xlsx_all_sheets T pd fc all_sheets = Some (loaded, total, n) ->
     total = length all_sheets /\ n = length loaded /\ (n <= total)%nat /\
     Forall (fun records => records <> []) loaded).
Proof.
  split; [|split].
  - intros first others H. unfold load_xlsx_all_sheets.
    assert (E : first_sheet T pd fc first (mk_progress [] None) = Some (mk_progress [] None)).
    { unfold first_sheet. destruct H as [H|(cols & Hc & Hn)]; [rewrite H; reflexivity|].
      destruct (is_empty_sheet first); [reflexivity|].
      rewrite Hc. unfold normalize_frame. rewrite Hn. reflexivity. }
    rewrite E, other_sheets_idle. reflexivity.
  - intros raw_df loaded names H. unfold other_sheet.
    destruct (is_empty_sheet raw_df); [reflexivity|]. cbn [header_names].
    replace (width raw_df =? length names)%nat with false
      by (symmetry; apply Nat.eqb_neq, H).
    reflexivity.
  - intros all_sheets l total n. unfold load_xlsx_all_sheets.
    destruct all_sheets as [|raw_df rest].
    + intros [= <- <- <-]. repeat split; constructor.
    + destruct (first_sheet T pd fc raw_df (mk_progress [] None)) as [st|] eqn:E1; [|discriminate].
      destruct (other_sheets T pd fc rest st) as [st'|] eqn:E2; [|discriminate].
      intros [= <- <- <-].
      destruct (first_sheet_ok pd fc _ _ _ E1) as [F1 F2].
      destruct (other_sheets_ok pd fc _ _ _ E2) as [G1 G2].
      cbn [loaded length] in *. split; [reflexivity|]. split; [reflexivity|].
      split; [lia|]. apply G1, F1. constructor.
Qed.

Lemma unusable_first_sheet_blocks_the_workbook_witness :
  let cover := [[Str "Account statement"; NaN; NaN]] in
  let ledger := [[Str "Date"; Str "Withdrawal Amt."; Str "Deposit Amt."];
                 [Obj "2023-04-01 00:00:00"; Obj "2500.0"; NaN]] in
  let pd := fun v : cell => match v with Obj _ => Some tt | _ => None end in
  let fc := fun _ : cell => zero in
  load_xlsx_all_sheets unit pd fc [cover; ledger] = Some ([], 2%nat, 0%nat) /\
  (exists records,
     load_xlsx_all_sheets unit pd fc [ledger; cover] = Some ([records], 2%nat, 1%nat) /\
     length records = 1%nat).
Proof.
  cbv zeta.
  destruct (unusable_first_sheet_blocks_the_workbook unit
              (fun v : cell => match v with Obj _ => Some tt | _ => None end)
              (fun _ : cell => zero)) as (H1 & _ & _).
  split.
  - apply (H1 [[Str "Account statement"; NaN; NaN]]). right.
    eexists. split; [vm_compute; reflexivity|]. vm_compute. reflexivity.
  - eexists. split; [vm_compute; reflexivity|]. reflexivity.
Defined.

End WorkbookTheorems.

(** ** Counterparty identifiers of loaded narrations *)

Section LoadedNarrations.
Import Py Num Dashboard Vocabulary SheetNotions.

Lemma length_lstrip s : String.length (lstrip s) <= String.length s.
Proof.
  induction s as [|c s IH]; [reflexivity|]. cbn [lstrip].
  destruct (isspace c); cbn [String.length]; lia.
Qed.

Lemma trimmed_rstrip s : strip s = s -> rstrip s = s.
Proof.
  intros H. rewrite <- H at 1. unfold strip.
  rewrite (rstrip_lstrip (rstrip s)) by apply rstrip_rstrip. exact H.
Qed.

Lemma trimmed_head c s : strip (String c s) = String c s -> isspace c = false.
Proof.
  intros H. pose proof (trimmed_rstrip _ H) as Hr. unfold strip in H. rewrite Hr in H.
  cbn [lstrip] in H. destruct (isspace c); [|reflexivity].
  pose proof (length_lstrip s) as Hl. rewrite H in Hl. cbn [String.length] in Hl. lia.
Qed.

Lemma rstrip_app_trimmed a b :
  rstrip b = b -> b <> EmptyString -> rstrip (a +:+ b) = a +:+ b.
Proof.
  intros Hb Hne. induction a as [|x a IH]; [exact Hb|].
  change (String x a +:+ b) with (String x (a +:+ b)). cbn [rstrip]. rewrite IH.
  destruct (a +:+ b) eqn:E; [|reflexivity].
  destruct a; [|discriminate E]. cbn in E. congruence.
Qed.

Lemma strip_app_trimmed a b :
  strip a = a -> strip b = b -> b <> EmptyString -> strip (a +:+ b) = a +:+ b.
Proof.
  intros Ha Hb Hne. destruct a as [|c a]; [exact Hb|].
  unfold strip. rewrite (rstrip_app_trimmed _ b (trimmed_rstrip b Hb) Hne).
  change (String c a +:+ b) with (String c (a +:+ b)). cbn [lstrip].
  rewrite (trimmed_head c a Ha). reflexivity.
Qed.

Lemma merge_step_trimmed st row :
  Forall trimmed_narration (fst st) ->
  match snd st with Some c => trimmed_narration c | None => True end ->
  Forall trimmed_narration (fst (merge_step st row)) /\
  match snd (merge_step st row) with Some c => trimmed_narration c | None => True end.
Proof.
  destruct st as [rows_out current]. cbn [fst snd]. intros Hout Hcur.
  unfold merge_step. destruct (_has_date_value (get "date" row)).
  - cbn [fst snd]. split.
    + destruct current as [c|]; [|exact Hout].
      apply Forall_app. split; [exact Hout|]. constructor; [exact Hcur|constructor].
    + eexists. split; [apply lookup_insert_eq|].
      destruct (isna (get "narration" row) || is_empty (strip (str (get "narration" row))));
        [reflexivity|apply strip_strip].
  - destruct current as [c|]; [|split; assumption].
    destruct (negb (isna (get "narration" row))
              && negb (is_empty (strip (str (get "narration" row))))) eqn:E;
      [|split; assumption].
    cbn [fst snd]. split; [exact Hout|].
    eexists. split; [apply lookup_insert_eq|].
    destruct Hcur as (s & Hs & Ht). unfold current_narration. rewrite Hs.
    apply strip_app_trimmed; [exact Ht|apply strip_strip|].
    apply andb_true_iff in E as [_ E]. apply negb_true_iff in E.
    destruct (strip (str (get "narration" row))); [discriminate E|discriminate].
Qed.

Lemma merge_rows_trimmed rows : Forall trimmed_narration (merge_rows rows).
Proof.
  unfold merge_rows.
  assert (H : forall st,
    Forall trimmed_narration (fst st) ->
    match snd st with Some c => trimmed_narration c | None => True end ->
    Forall trimmed_narration (fst (fold_left merge_step rows st)) /\
    match snd (fold_left merge_step rows st) with
    | Some c => trimmed_narration c | None => True end).
  { induction rows as [|row rows IH]; intros st H1 H2; [split; assumption|].
    cbn [fold_left]. destruct (merge_step_trimmed st row H1 H2) as [G1 G2].
    apply IH; assumption. }
  destruct (H ([], None)) as [G1 G2]; [constructor|exact I|].
  destruct (fold_left merge_step rows ([], None)) as [rows_out [c|]]; cbn [fst snd] in *.
  - apply Forall_app. split; [exact G1|]. constructor; [exact G2|constructor].
  - exact G1.
Qed.

Lemma process_row_trimmed {T} (pd : cell -> option T) fc norm row r :
  trimmed_narration row -> process_row pd fc norm row = Some r ->
  strip (narration r) = narration r.
Proof.
  intros (s & Hs & Ht). unfold process_row.
  destruct (_parse_date pd (get "date" row)); [|discriminate].
  intros [= <-]. cbn [narration].
  destruct (has_column "narration" norm); [|reflexivity].
  unfold get. rewrite Hs. exact Ht.
Qed.

Lemma loaded_narrations_trimmed {T} (pd : cell -> option T) fc norm r :
  has_column "date" norm = true -> In r (load_sheet pd fc norm) ->
  strip (narration r) = narration r.
Proof.
  intros Hd Hin. unfold load_sheet, _process_norm in Hin.
  apply list_elem_of_In in Hin. apply list_elem_of_omap in Hin as (row & Hrow & Hr).
  apply (process_row_trimmed pd fc (_merge_narration_rows norm) row r); [|exact Hr].
  unfold _merge_narration_rows in Hrow. rewrite Hd in Hrow.
  destruct (empty norm) eqn:Ee; cbn [orb negb] in Hrow.
  - unfold empty in Ee. destruct (columns norm) eqn:Ec.
    + unfold has_column in Hd. rewrite Ec in Hd. discriminate Hd.
    + destruct (rows norm); [|discriminate Ee]. inversion Hrow.
  - cbn [rows] in Hrow. pose proof (merge_rows_trimmed
      (rows (if has_column "narration" norm then norm else add_narration norm))) as Hall.
    rewrite List.Forall_forall in Hall. apply Hall. apply list_elem_of_In. exact Hrow.
Qed.

(** C6.  For a narration as the frame holds it, free of surrounding
    whitespace: when it begins with "UPI" or with "NEFT" the identifier is
    the text before the second hyphen, and the whole narration when it has
    fewer than two hyphens; when it begins with "IMPS" the identifier is the
    text between the second and the third hyphen, and the whole narration
    when it has fewer than three.  Every narration of a loaded sheet is of
    that kind, since [_merge_narration_rows] trims the narrations before the
    identifiers are computed.  The IMPS narration of the scenario yields
    "REKHA MITTAL". *)
Theorem C6_counterparty_identifier :
  (forall n, strip n = n -> startswith n "UPI" = true ->
     (forall a b rest, n = a +:+ "-" +:+ b +:+ "-" +:+ rest ->
        hyphens a = 0 -> hyphens b = 0 ->
        _upi_customer_id (Str n) = Some (a +:+ "-" +:+ b)) /\
     (hyphens n < 2 -> _upi_customer_id (Str n) = Some n)) /\
  (forall n, strip n = n -> startswith n "NEFT" = true ->
     (forall a b rest, n = a +:+ "-" +:+ b +:+ "-" +:+ rest ->
        hyphens a = 0 -> hyphens b = 0 ->
        _neft_customer_id (Str n) = Some (a +:+ "-" +:+ b)) /\
     (hyphens n < 2 -> _neft_customer_id (Str n) = Some n)) /\
  (forall n, strip n = n -> startswith n "IMPS" = true ->
     (forall a b c rest, n = a +:+ "-" +:+ b +:+ "-" +:+ c +:+ "-" +:+ rest ->
        hyphens a = 0 -> hyphens b = 0 -> hyphens c = 0 ->
        _imps_customer_id (Str n) = Some c) /\
     (hyphens n < 3 -> _imps_customer_id (Str n) = Some n)) /\
  (forall (T : Type) (pd : cell -> option T) (fc : cell -> float) norm r,
     has_column "date" norm = true -> In r (load_sheet pd fc norm) ->
     strip (narration r) = narration r) /\
  _imps_customer_id (Str "IMPS-506016885554-REKHA MITTAL-SBIN-XXXXXXX4686-MILK PAYMENT")
    = Some "REKHA MITTAL".
Proof.
  destruct counterparty_identifier_of_text as (HU & HN & HI & HS).
  split; [|split; [|split; [|split; [|exact HS]]]].
  - intros n Ht Hp. destruct (HU n Hp) as [H1 H2]. split; [exact H1|].
    intros H. rewrite (H2 H), Ht. reflexivity.
  - intros n Ht Hp. destruct (HN n Hp) as [H1 H2]. split; [exact H1|].
    intros H. rewrite (H2 H), Ht. reflexivity.
  - intros n Ht Hp. destruct (HI n Hp) as [H1 H2]. split; [exact H1|].
    intros H. rewrite (H2 H), Ht. reflexivity.
  - intros T pd fc norm r. apply loaded_narrations_trimmed.
Qed.

Lemma C6_counterparty_identifier_witness :
  (strip "UPI-JOHN DOE-johndoe@bank-REF123-milk payment"
     = "UPI-JOHN DOE-johndoe@bank-REF123-milk payment" /\
   startswith "UPI-JOHN DOE-johndoe@bank-REF123-milk payment" "UPI" = true /\
   hyphens "UPI" = 0 /\ hyphens "JOHN DOE" = 0 /\
   _upi_customer_id (Str "UPI-JOHN DOE-johndoe@bank-REF123-milk payment")
     = Some "UPI-JOHN DOE") /\
  (strip "UPI PAYMENT" = "UPI PAYMENT" /\
   startswith "UPI PAYMENT" "UPI" = true /\ hyphens "UPI PAYMENT" < 2 /\
   _upi_customer_id (Str "UPI PAYMENT") = Some "UPI PAYMENT") /\
  (strip "NEFT CR-SBIN0000583-MRS RASHMI SAXENA" = "NEFT CR-SBIN0000583-MRS RASHMI SAXENA" /\
   startswith "NEFT CR-SBIN0000583-MRS RASHMI SAXENA" "NEFT" = true /\
   _neft_customer_id (Str "NEFT CR-SBIN0000583-MRS RASHMI SAXENA")
     = Some "NEFT CR-SBIN0000583") /\
  (strip "IMPS-506016885554-REKHA MITTAL-SBIN" = "IMPS-506016885554-REKHA MITTAL-SBIN" /\
   startswith "IMPS-506016885554-REKHA MITTAL-SBIN" "IMPS" = true /\
   _imps_customer_id (Str "IMPS-506016885554-REKHA MITTAL-SBIN") = Some "REKHA MITTAL") /\
  (strip "IMPS-506016885554-REKHA MITTAL" = "IMPS-506016885554-REKHA MITTAL" /\
   hyphens "IMPS-506016885554-REKHA MITTAL" < 3 /\
   _imps_customer_id (Str "IMPS-506016885554-REKHA MITTAL")
     = Some "IMPS-506016885554-REKHA MITTAL") /\
  (let pd := fun v : cell => match v with Obj _ => Some tt | _ => None end in
   let fc := fun _ : cell => zero in
   let norm := mk_frame sheet_columns [open_row; continuation_row " XYZ corp "] in
   has_column "date" norm = true /\
   exists r, load_sheet pd fc norm = [r] /\ strip (narration r) = narration r).
Proof.
  destruct C6_counterparty_identifier as (HU & HN & HI & HL & _).
  split; [|split; [|split; [|split; [|split]]]].
  - split; [vm_compute; reflexivity|]. split; [reflexivity|].
    split; [reflexivity|]. split; [reflexivity|].
    destruct (HU "UPI-JOHN DOE-johndoe@bank-REF123-milk payment") as [H _];
      [vm_compute; reflexivity|reflexivity|].
    apply (H "UPI" "JOHN DOE" "johndoe@bank-REF123-milk payment"); reflexivity.
  - split; [vm_compute; reflexivity|]. split; [reflexivity|]. split; [simpl; lia|].
    destruct (HU "UPI PAYMENT") as [_ H]; [vm_compute; reflexivity|reflexivity|].
    apply H. simpl. lia.
  - split; [vm_compute; reflexivity|]. split; [reflexivity|].
    destruct (HN "NEFT CR-SBIN0000583-MRS RASHMI SAXENA") as [H _];
      [vm_compute; reflexivity|reflexivity|].
    apply (H "NEFT CR" "SBIN0000583" "MRS RASHMI SAXENA"); reflexivity.
  - split; [vm_compute; reflexivity|]. split; [reflexivity|].
    destruct (HI "IMPS-506016885554-REKHA MITTAL-SBIN") as [H _];
      [vm_compute; reflexivity|reflexivity|].
    apply (H "IMPS" "506016885554" "REKHA MITTAL" "SBIN"); reflexivity.
  - split; [vm_compute; reflexivity|]. split; [simpl; lia|].
    destruct (HI "IMPS-506016885554-REKHA MITTAL") as [_ H];
      [vm_compute; reflexivity|reflexivity|].
    apply H. simpl. lia.
  - cbv zeta. split; [reflexivity|]. eexists. split; [vm_compute; reflexivity|].
    apply (HL unit (fun v : cell => match v with Obj _ => Some tt | _ => None end)
              (fun _ : cell => zero)
              (mk_frame sheet_columns [open_row; continuation_row " XYZ corp "])).
    + reflexivity.
    + vm_compute. left. reflexivity.
Defined.

End LoadedNarrations.

(** ** Amounts of the frame *)

Section Amounts.
Import Py Re Num Dates StatementParser Vocabulary TokenNotions ParserNotions.

Lemma literal_char_cases c :
  is_literal_char c = true ->
  isspace c = false /\ is_underscore c = false /\ lower_char c = c /\
  Ascii.eqb c "-" = false /\ Ascii.eqb c "+" = false /\ Ascii.eqb c "," = false /\
  Ascii.eqb c "i" = false /\ Ascii.eqb c "n" = false.
Proof.
  assert (Hall : forallb (fun n =>
            let c := ascii_of_nat n in
            negb (is_literal_char c) ||
            (negb (isspace c) && negb (is_underscore c) && Ascii.eqb (lower_char c) c
             && negb (Ascii.eqb c "-") && negb (Ascii.eqb c "+") && negb (Ascii.eqb c ",")
             && negb (Ascii.eqb c "i") && negb (Ascii.eqb c "n"))) (seq 0 256) = true)
    by (vm_compute; reflexivity).
  rewrite forallb_forall in Hall. intros H.
  specialize (Hall (nat_of_ascii c)). rewrite ascii_nat_embedding in Hall. cbv zeta in Hall.
  rewrite H in Hall. cbn [negb orb] in Hall.
  assert (Hin : In (nat_of_ascii c) (seq 0 256)).
  { apply in_seq. pose proof (nat_ascii_bounded c). lia. }
  specialize (Hall Hin). rewrite !andb_true_iff, !negb_true_iff in Hall.
  destruct Hall as [[[[[[[H1 H2] H3] H4] H5] H6] H7] H8].
  apply Ascii.eqb_eq in H3. auto 10.
Qed.

Lemma literal_chars s : decimal_literal s -> all_chars is_literal_char s = true.
Proof.
  intros (ds & d1 & d2 & -> & Hds & H1 & H2).
  induction ds as [|c ds IH].
  - cbn. unfold is_literal_char. rewrite H1, H2. reflexivity.
  - cbn [all_chars] in Hds. apply andb_true_iff in Hds as [Hc Hds].
    change (String c ds +:+ ?x) with (String c (ds +:+ x)). cbn [all_chars].
    rewrite (IH Hds). unfold is_literal_char. rewrite Hc. reflexivity.
Qed.

Lemma literal_strip s : all_chars is_literal_char s = true -> strip s = s.
Proof.
  intros H. apply all_nonspace_strip. revert H. apply all_chars_impl.
  intros c Hc. destruct (literal_char_cases c Hc) as (-> & _). reflexivity.
Qed.

Lemma literal_no_comma s : all_chars is_literal_char s = true -> remove_commas s = s.
Proof.
  induction s as [|c s IH]; [reflexivity|]. cbn [all_chars remove_commas].
  rewrite andb_true_iff. intros [Hc Hs].
  destruct (literal_char_cases c Hc) as (_ & _ & _ & _ & _ & -> & _).
  rewrite (IH Hs). reflexivity.
Qed.

Lemma literal_no_underscore s prev :
  is_underscore prev = false -> all_chars is_literal_char s = true ->
  drop_underscores prev s = Some s.
Proof.
  revert prev. induction s as [|c s IH]; intros prev Hp H.
  - cbn. rewrite Hp. reflexivity.
  - cbn [all_chars] in H. apply andb_true_iff in H as [Hc Hs].
    destruct (literal_char_cases c Hc) as (_ & Hu & _).
    cbn [drop_underscores]. rewrite Hu, Hp. cbn [andb].
    rewrite (IH c Hu Hs). reflexivity.
Qed.

Lemma span_digits_literal ds rest :
  all_chars isdigit ds = true ->
  span_digits (ds +:+ String "." rest) = (ds, String "." rest).
Proof.
  induction ds as [|c ds IH]; [reflexivity|].
  cbn [all_chars]. rewrite andb_true_iff. intros [Hc Hds].
  change (String c ds +:+ ?x) with (String c (ds +:+ x)). cbn [span_digits].
  rewrite Hc, (IH Hds). reflexivity.
Qed.

Lemma digits_acc_dot acc ds rest :
  digits_acc acc (ds +:+ String "." rest) = digits_acc acc (ds +:+ rest).
Proof.
  revert acc. induction ds as [|c ds IH]; intros acc; [reflexivity|].
  change (String c ds +:+ ?x) with (String c (ds +:+ x)). cbn [digits_acc].
  destruct (isdigit c); apply IH.
Qed.

Lemma decimal_number_literal s :
  decimal_literal s -> decimal_number s = Some (float_of_str s).
Proof.
  intros (ds & d1 & d2 & -> & Hds & H1 & H2).
  unfold decimal_number, float_of_str.
  rewrite (span_digits_literal ds _ Hds), (after_dot_digits ds _ Hds), digits_acc_dot.
  cbn [Ascii.eqb Bool.eqb]. cbn [span_digits]. rewrite H1, H2.
  replace (is_empty ds && is_empty (String d1 (String d2 EmptyString))) with false
    by (destruct ds; reflexivity).
  reflexivity.
Qed.

Lemma float_of_text_signed s :
  all_chars is_literal_char s = true -> s <> EmptyString ->
  float_of_text s = decimal_number s /\
  float_of_text (String "-" s) = option_map SFopp (decimal_number s).
Proof.
  intros H Hne.
  assert (Hl : String.eqb (lower s) "inf" || String.eqb (lower s) "infinity" = false
               /\ String.eqb (lower s) "nan" = false).
  { destruct s as [|c s]; [congruence|]. cbn [all_chars] in H.
    apply andb_true_iff in H as [Hc _].
    destruct (literal_char_cases c Hc) as (_ & _ & Hlow & _ & _ & _ & Hi & Hn).
    unfold lower. cbn [map_chars]. rewrite Hlow. cbn [String.eqb].
    rewrite Hi, Hn. split; reflexivity. }
  destruct Hl as [Hinf Hnan]. split.
  - unfold float_of_text. rewrite (literal_strip s H).
    rewrite (literal_no_underscore s "000"%char eq_refl H).
    assert (Hsg : split_sign s = (false, s)).
    { destruct s as [|c s]; [reflexivity|]. cbn [all_chars] in H.
      apply andb_true_iff in H as [Hc _].
      destruct (literal_char_cases c Hc) as (_ & _ & _ & Hm & Hp & _).
      cbn [split_sign]. rewrite Hm, Hp. reflexivity. }
    rewrite Hsg, Hinf, Hnan. destruct (decimal_number s); reflexivity.
  - unfold float_of_text.
    assert (Hst : strip (String "-" s) = String "-" s).
    { rewrite strip_cons_nonspace by reflexivity. f_equal.
      apply trimmed_rstrip, literal_strip, H. }
    rewrite Hst. cbn [drop_underscores]. replace (is_underscore "-") with false by reflexivity.
    replace (is_underscore "000") with false by reflexivity. cbn [andb].
    rewrite (literal_no_underscore s "-"%char eq_refl H). cbn [split_sign Ascii.eqb Bool.eqb].
    rewrite Hinf, Hnan. destruct (decimal_number s); reflexivity.
Qed.

Lemma clean_amount_literal s : decimal_literal s -> _clean_amount s = float_of_str s.
Proof.
  intros H. pose proof (literal_chars s H) as Hc. unfold _clean_amount.
  rewrite (literal_strip s Hc), (literal_not_blank s H), (literal_no_comma s Hc).
  destruct (float_of_text_signed s Hc) as [-> _].
  - intros ->. discriminate (literal_not_blank _ H).
  - rewrite (decimal_number_literal s H). reflexivity.
Qed.

Lemma token_strip tok : amount_shape tok -> strip tok = tok.
Proof.
  intros (run & d1 & d2 & -> & _ & Hall & H1 & H2). apply all_nonspace_strip.
  induction run as [|c run IH].
  - cbn. rewrite (isdigit_not_space d1 H1), (isdigit_not_space d2 H2). reflexivity.
  - cbn [all_chars] in Hall. apply andb_true_iff in Hall as [Hc Hrun].
    change (String c run +:+ ?x) with (String c (run +:+ x)). cbn [all_chars].
    rewrite (IH Hrun), andb_true_r. unfold in_amount_class in Hc.
    apply orb_true_iff in Hc as [Hc|Hc].
    + rewrite (isdigit_not_space c Hc). reflexivity.
    + apply Ascii.eqb_eq in Hc. subst c. reflexivity.
Qed.

Lemma clean_amount_token tok : amount_shape tok -> _clean_amount tok = amount tok.
Proof.
  intros H. pose proof (remove_commas_literal tok H) as Hl.
  pose proof (literal_chars _ Hl) as Hc. unfold _clean_amount, amount.
  rewrite (token_strip tok H).
  replace (is_empty tok) with false
    by (destruct H as (run & d1 & d2 & -> & _); destruct run; reflexivity).
  destruct (float_of_text_signed _ Hc) as [-> _].
  - intros E. rewrite E in Hl. discriminate (literal_not_blank _ Hl).
  - rewrite (decimal_number_literal _ Hl). reflexivity.
Qed.

Lemma clean_amount_negative s :
  decimal_literal s -> _clean_amount (String "-" s) = SFopp (float_of_str s).
Proof.
  intros H. pose proof (literal_chars s H) as Hc. unfold _clean_amount.
  assert (Hst : strip (String "-" s) = String "-" s).
  { rewrite strip_cons_nonspace by reflexivity. f_equal.
    apply trimmed_rstrip, literal_strip, Hc. }
  rewrite Hst. cbn [is_empty remove_commas Ascii.eqb Bool.eqb].
  rewrite (literal_no_comma s Hc).
  destruct (float_of_text_signed s Hc) as [_ ->].
  - intros ->. discriminate (literal_not_blank _ H).
  - rewrite (decimal_number_literal s H). reflexivity.
Qed.

Lemma clean_amount_cell s :
  blank_or_literal s ->
  _clean_amount s = if is_empty s then zero else float_of_str s.
Proof.
  intros [->|H]; [reflexivity|].
  rewrite (literal_not_blank s H). apply clean_amount_literal, H.
Qed.

(** X23.  [_clean_amount] reads an amount token as the analyzer does: its
    value is that of the token without its commas, and [float] raises on no
    token.  On a plain decimal literal a leading minus sign negates the
    value.  Hence in the frame of [to_dataframe] every row of the text path
    carries the value of its balance literal, and in each amount column the
    value of the literal of the cell, or [0.0] for an empty cell. *)
Theorem clean_amount_reads_tokens :
  (forall tok, amount_shape tok -> _clean_amount tok = amount tok) /\
  (forall s, decimal_literal s ->
     _clean_amount s = float_of_str s /\
     _clean_amount (String "-" s) = SFopp (float_of_str s)) /\
  (forall text r, In r (_parse_transactions_from_text text) ->
     Balance (to_dataframe_row r) = float_of_str (COL_BALANCE r) /\
     Withdrawn (to_dataframe_row r)
       = (if is_empty (COL_WITHDRAWN r) then zero else float_of_str (COL_WITHDRAWN r)) /\
     Deposit (to_dataframe_row r)
       = (if is_empty (COL_DEPOSIT r) then zero else float_of_str (COL_DEPOSIT r))).
Proof.
  split; [exact clean_amount_token|]. split.
  - intros s H. split; [apply clean_amount_literal, H|apply clean_amount_negative, H].
  - intros text r Hin. pose proof (parsed_rows_ok text) as Hall.
    rewrite List.Forall_forall in Hall.
    destruct (Hall r Hin) as (_ & _ & _ & Hb & Hw & Hd).
    unfold to_dataframe_row. cbn [Balance Withdrawn Deposit].
    split; [apply clean_amount_literal, Hb|].
    split; apply clean_amount_cell; assumption.
Qed.

Lemma clean_amount_reads_tokens_witness :
  (amount_shape "3,070.00" /\ _clean_amount "3,070.00" = of_Z 3070) /\
  (decimal_literal "12.50" /\ _clean_amount "-12.50" = SFopp (amount "12.50")) /\
  (let r := mk_row "01/04/23" "UPI-RAMESH" "" "01/04/23" "" "30.00" "1070.00" in
   In r (_parse_transactions_from_text "01/04/23 UPI-RAMESH 30.00 1,070.00") /\
   Balance (to_dataframe_row r) = of_Z 1070 /\
   Withdrawn (to_dataframe_row r) = zero /\
   Deposit (to_dataframe_row r) = of_Z 30).
Proof.
  destruct clean_amount_reads_tokens as (H1 & H2 & H3).
  assert (Hs : amount_shape "3,070.00").
  { exists "3,070", "0"%char, "0"%char. repeat split; try reflexivity. discriminate. }
  assert (Hl : decimal_literal "12.50").
  { exists "12", "5"%char, "0"%char. repeat split; reflexivity. }
  split; [|split].
  - split; [exact Hs|]. rewrite (H1 _ Hs). vm_compute. reflexivity.
  - split; [exact Hl|]. destruct (H2 _ Hl) as [_ ->]. reflexivity.
  - cbv zeta.
    assert (Hin : In (mk_row "01/04/23" "UPI-RAMESH" "" "01/04/23" "" "30.00" "1070.00")
                     (_parse_transactions_from_text "01/04/23 UPI-RAMESH 30.00 1,070.00")).
    { vm_compute. left. reflexivity. }
    split; [exact Hin|]. destruct (H3 _ _ Hin) as (Hb & Hw & Hd).
    split; [rewrite Hb; vm_compute; reflexivity|].
    split; [rewrite Hw; reflexivity|rewrite Hd; vm_compute; reflexivity].
Defined.

End Amounts.
